(** * Commission & Incentive Calculator: a model of [app.py]

    The script computes sales commissions (four deal categories, a tiered
    bonus on the total contract value of one currency) and the incentives
    of project managers and delivery teams (graduated on-time tiers, a
    weighted KPI and a bonus-month curve).

    Number model.  Python [float] values are read as exact rationals [Q]
    and Python [int] values as [Z]; the decimal literals of the script
    ([0.03], [0.001], ...) denote the decimal fractions they spell.
    Results are compared with [==] ([Qeq]), as fractions are not kept in
    lowest terms.  Widgets, captions and number formatting are left out:
    a widget is the value it returns, a button is the handler it runs. *)

From Stdlib Require Import QArith Qround Qminmax Qabs ZArith.
From Stdlib Require Import List String Ascii Bool Lia Lqa.
From Stdlib Require Import Permutation Sorted.
Import ListNotations.

Open Scope Q_scope.

(* ================================================================= *)
(** * Python and pandas primitives *)

Module Py.

(** [a < b] on floats. *)
Definition Qlt_bool (a b : Q) : bool := negb (Qle_bool b a).

(** [max(a, b)] and [min(a, b)] are [Qmax] and [Qmin]. *)

(** [round(x, ndigits)]: nearest multiple of [10^-ndigits], ties to the
    even multiple.  The value rounded here is the exact one; the script
    rounds the binary float it has computed, which can lie on the other
    side of a tie, so that next to a tie the two results can be the two
    neighbouring multiples.  Properties are therefore stated up to
    half a unit of the last digit, not as the outcome of a tie. *)
Definition round_half_even (x : Q) : Z :=
  let f := Qfloor x in
  match (x - inject_Z f ?= 1 # 2)%Q with
  | Lt => f
  | Gt => (f + 1)%Z
  | Eq => if Z.even f then f else (f + 1)%Z
  end.

Definition round (x : Q) (ndigits : nat) : Q :=
  let p := inject_Z (10 ^ Z.of_nat ndigits) in
  inject_Z (round_half_even (x * p)) / p.

(** [str.isspace] on the ASCII range, and [s.strip()]. *)
Definition isspace (c : ascii) : bool :=
  let n := nat_of_ascii c in
  ((9 <=? n) && (n <=? 13) || (28 <=? n) && (n <=? 32))%nat.

Fixpoint lstrip (s : string) : string :=
  match s with
  | EmptyString => EmptyString
  | String c rest => if isspace c then lstrip rest else s
  end.

Fixpoint rev_string (s acc : string) : string :=
  match s with
  | EmptyString => acc
  | String c rest => rev_string rest (String c acc)
  end.

Definition rstrip (s : string) : string :=
  rev_string (lstrip (rev_string s EmptyString)) EmptyString.

Definition strip (s : string) : string := rstrip (lstrip s).

(** [sub in s]. *)
Definition contains (sub s : string) : bool :=
  match index 0 sub s with
  | Some _ => true
  | None => false
  end.

(** [Series.sum()] of a numeric column. *)
Definition sum (l : list Q) : Q := fold_left Qplus l 0.

(** [DataFrame.sort_values(key)]: rows in ascending key order.  Only the
    key column is compared; rows with equal keys stay in their incoming
    order. *)
Section SortValues.
Context {A : Type} (leb : A -> A -> bool).

Fixpoint insert_row (x : A) (l : list A) : list A :=
  match l with
  | [] => [x]
  | y :: rest => if leb x y then x :: l else y :: insert_row x rest
  end.

Fixpoint sort_values (l : list A) : list A :=
  match l with
  | [] => []
  | x :: rest => insert_row x (sort_values rest)
  end.
End SortValues.

End Py.

(* ================================================================= *)
(** * Module-level helper *)

(** [clamp_0_1], line 19. *)
Definition clamp_0_1 (x : Q) : Q := Qmax 0 (Qmin 1 x).

(* ================================================================= *)
(** * Salesman *)

Module Sales.

(** One saved deal: a dict appended to [st.session_state.sales_rows].
    [Pairs] is an [int] for IRU and Fiber Lease and the empty string for
    Build and DC Grid ([None] here). *)
Record Row : Type := mkRow {
  Date : string;
  Category : string;
  Customer : string;
  Contract_Value : Q;
  Pairs : option Z;
  Rate_pct : Q;
  Commission : Q;
  Currency : string
}.

(** ** The four "Add" handlers (lines 138-284)

    Each takes the currency selected in the sidebar, the widget values
    of its expander and the saved rows, and returns the saved rows after
    the append. *)

Definition iru_rate (iru_pairs : Z) : Q :=
  let base := 0.03 in
  let new_pairs := Z.max (iru_pairs - 1) 0 in
  base + inject_Z new_pairs * 0.001.

Definition add_iru (currency iru_date iru_customer : string)
    (iru_value : Q) (iru_pairs : Z) (sales_rows : list Row) : list Row :=
  let rate := iru_rate iru_pairs in
  let commission := iru_value * rate in
  sales_rows ++
  [ {| Date := iru_date;
       Category := "IRU";
       Customer := Py.strip iru_customer;
       Contract_Value := iru_value;
       Pairs := Some iru_pairs;
       Rate_pct := Py.round (rate * 100) 3;
       Commission := commission;
       Currency := currency |} ].

Definition lease_rate (l_pairs : Z) : Q :=
  let base := 0.02 in
  let new_pairs := Z.max (l_pairs - 1) 0 in
  base + inject_Z new_pairs * 0.001.

Definition add_lease (currency lease_date l_customer : string)
    (l_value : Q) (l_pairs : Z) (sales_rows : list Row) : list Row :=
  let rate := lease_rate l_pairs in
  let commission := l_value * rate in
  sales_rows ++
  [ {| Date := lease_date;
       Category := "Fiber Lease";
       Customer := Py.strip l_customer;
       Contract_Value := l_value;
       Pairs := Some l_pairs;
       Rate_pct := Py.round (rate * 100) 3;
       Commission := commission;
       Currency := currency |} ].

(** The Build to Own base rate, lines 217-223, before the prepaid
    offset. *)
Definition build_base (v : Q) : Q :=
  if Py.Qlt_bool v 5000000 then 0.012
  else if Qle_bool v 15000000 then
    let t := (v - 5000000) / 10000000 in
    0.015 + (0.03 - 0.015) * clamp_0_1 t
  else 0.03.

(** Lines 225-226. *)
Definition build_rate (v : Q) (prepay : bool) : Q :=
  let base := build_base v in
  if prepay then base + 0.002 else base.

Definition add_build (currency build_date b_customer : string)
    (b_value : Q) (prepay : bool) (sales_rows : list Row) : list Row :=
  let v := b_value in
  let base := build_rate v prepay in
  let commission := v * base in
  sales_rows ++
  [ {| Date := build_date;
       Category := "Build";
       Customer := Py.strip b_customer;
       Contract_Value := b_value;
       Pairs := None;
       Rate_pct := Py.round (base * 100) 3;
       Commission := commission;
       Currency := currency |} ].

Definition dc_rate (d_type : string) : Q :=
  if Py.contains "3" d_type then 0.03
  else if Py.contains "4" d_type then 0.04
  else 0.05.

Definition add_dc (currency dc_date d_customer : string)
    (d_value : Q) (d_type : string) (sales_rows : list Row) : list Row :=
  let rate := dc_rate d_type in
  let commission := d_value * rate in
  sales_rows ++
  [ {| Date := dc_date;
       Category := "DC Grid";
       Customer := Py.strip d_customer;
       Contract_Value := d_value;
       Pairs := None;
       Rate_pct := Py.round (rate * 100) 3;
       Commission := commission;
       Currency := currency |} ].

(** ** Commission table (lines 293-352) *)

(** [r["Currency"] == currency]. *)
Definition in_currency (currency : string) (r : Row) : bool :=
  String.eqb (Currency r) currency.

(** [df_all[df_all["Currency"] == currency]], lines 295 and 381. *)
Definition df_view (currency : string) (sales_rows : list Row) : list Row :=
  filter (in_currency currency) sales_rows.

(** The table with its totals and buttons is drawn only when some deal
    is saved and some saved deal is in the selected currency. *)
Definition table_shown (currency : string) (sales_rows : list Row) : bool :=
  match sales_rows with
  | [] => false
  | _ :: _ => match df_view currency sales_rows with
              | [] => false
              | _ :: _ => true
              end
  end.

(** Lines 316-317: total contract value and total commission written
    under the table. *)
Definition table_totals (currency : string) (sales_rows : list Row)
    : option (Q * Q) :=
  if table_shown currency sales_rows then
    let view := df_view currency sales_rows in
    Some (Py.sum (map Contract_Value view), Py.sum (map Commission view))
  else None.

(** Lines 333-337: the loop over [enumerate(cur_rows)], started at
    index [i]. *)
Fixpoint keep_cur_from (i : nat) (ticked_nos : list nat)
    (cur_rows : list Row) : list Row :=
  match cur_rows with
  | [] => []
  | r :: rest =>
      let row_no := (i + 1)%nat in
      if negb (existsb (Nat.eqb row_no) ticked_nos)
      then r :: keep_cur_from (S i) ticked_nos rest
      else keep_cur_from (S i) ticked_nos rest
  end.

(** "Delete ticked rows", lines 324-340.  [ticked_nos] are the "No."
    values of the ticked rows of the editor. *)
Definition delete_ticked (currency : string) (ticked_nos : list nat)
    (sales_rows : list Row) : list Row :=
  match ticked_nos with
  | [] => sales_rows
  | _ :: _ =>
      let cur_rows := filter (in_currency currency) sales_rows in
      let other_rows :=
        filter (fun r => negb (in_currency currency r)) sales_rows in
      let keep_cur := keep_cur_from 0 ticked_nos cur_rows in
      other_rows ++ keep_cur
  end.

(** "Clear ALL (currency)", lines 343-345. *)
Definition clear_currency (currency : string) (sales_rows : list Row)
    : list Row :=
  filter (fun r => negb (in_currency currency r)) sales_rows.

(** "Clear ALL (ALL currencies)", lines 348-350. *)
Definition clear_all_currencies (sales_rows : list Row) : list Row := [].

Inductive Button : Type :=
  | Delete_ticked (ticked_nos : list nat)
  | Clear_currency
  | Clear_all_currencies.

(** One press of a table button under the selected currency: the saved
    rows afterwards.  The buttons exist only while the table is shown. *)
Definition press (currency : string) (b : Button) (sales_rows : list Row)
    : list Row :=
  if table_shown currency sales_rows then
    match b with
    | Delete_ticked ticked_nos => delete_ticked currency ticked_nos sales_rows
    | Clear_currency => clear_currency currency sales_rows
    | Clear_all_currencies => clear_all_currencies sales_rows
    end
  else sales_rows.

(** ** Bonus tiers (lines 45-80 and 362-378) *)

(** A cell of the tier editor, as [pd.to_numeric(..., errors="coerce")]
    reads it: [Num q] for a number (or a text that spells one), [NaN]
    for a blank cell or a text that is not a number. *)
Inductive cell : Type :=
  | Num (q : Q)
  | NaN.

(** The tier table: column labels, and one list of cells per row, in
    column order. *)
Record DataFrame : Type := mkDataFrame {
  columns : list string;
  rows : list (list cell)
}.

(** Lines 46-54. *)
Definition default_tiers : DataFrame :=
  {| columns := ["Min Total Contract Value (inclusive)"; "Bonus % on Total"]%string;
     rows := [ [Num 0; Num 0.0];
               [Num 1000000; Num 0.2];
               [Num 5000000; Num 0.5];
               [Num 10000000; Num 0.8];
               [Num 15000000; Num 1.0] ] |}.

Definition MIN_COL : string := "Min Total Contract Value".
Definition BONUS_COL : string := "Bonus %".

Definition rename_map : list (string * string) :=
  [ ("Min Total Contract Value", "Min Total Contract Value");
    ("Min Total Contract Value (inclusive)", "Min Total Contract Value");
    ("Min Total Contract Value (Inclusive)", "Min Total Contract Value");
    ("Bonus %", "Bonus %");
    ("Bonus % on Total", "Bonus %");
    ("Bonus % On Total", "Bonus %") ]%string.

(** [DataFrame.rename(columns=rename_map)] on one label. *)
Fixpoint rename (m : list (string * string)) (c : string) : string :=
  match m with
  | [] => c
  | (k, v) :: rest => if String.eqb k c then v else rename rest c
  end.

(** [label in df.columns]. *)
Definition has_column (label : string) (cols : list string) : bool :=
  existsb (String.eqb label) cols.

(** [pd.to_numeric(col, errors="coerce").fillna(0.0)] on one cell. *)
Definition to_numeric_fillna (c : cell) : cell :=
  match c with
  | Num q => Num q
  | NaN => Num 0.0
  end.

(** Applies [f] to the cells that stand under the label [label]. *)
Fixpoint map_column (f : cell -> cell) (label : string)
    (cols : list string) (r : list cell) : list cell :=
  match cols, r with
  | c :: cols', x :: r' =>
      (if String.eqb c label then f x else x) :: map_column f label cols' r'
  | _, _ => r
  end.

(** Number of columns that carry the label. *)
Definition label_count (label : string) (cols : list string) : nat :=
  List.length (filter (String.eqb label) cols).

(** [normalize_tier_df], lines 56-80.  [out[label]] is a single column
    only when the label occurs once; with a repeated label
    [pd.to_numeric] raises, which is [None] here. *)
Definition normalize_tier_df (df : DataFrame) : option DataFrame :=
  let cols := map (rename rename_map) (map Py.strip (columns df)) in
  if ((1 <? label_count MIN_COL cols) || (1 <? label_count BONUS_COL cols))%nat
  then None
  else
    Some {| columns := cols;
            rows := map (fun r => map_column to_numeric_fillna BONUS_COL cols
                                    (map_column to_numeric_fillna MIN_COL cols r))
                        (rows df) |}.

(** [r[label]] for a row [r] of a frame with columns [cols]. *)
Fixpoint get (cols : list string) (r : list cell) (label : string) : cell :=
  match cols, r with
  | c :: cols', x :: r' => if String.eqb c label then x else get cols' r' label
  | _, _ => NaN
  end.

(** [float(x)] of a cell of a numeric column. *)
Definition float_of (c : cell) : Q :=
  match c with
  | Num q => q
  | NaN => 0.0
  end.

(** A tier: (Min Total Contract Value, Bonus %). *)
Definition Tier : Type := (Q * Q)%type.

(** The rows of the normalized table, each read through its two
    numeric cells. *)
Definition tier_rows (tiers_norm : DataFrame) : list Tier :=
  map (fun r => (float_of (get (columns tiers_norm) r MIN_COL),
                 float_of (get (columns tiers_norm) r BONUS_COL)))
      (rows tiers_norm).

(** ** Final bonus (lines 380-404) *)

(** Lines 389-394: sort by threshold, then let every tier whose
    threshold is reached overwrite the rate. *)
Definition scan_tiers (total_value : Q) (tiers : list Tier) : Q :=
  fold_left
    (fun bonus_rate r =>
       if Qle_bool (fst r) total_value then snd r / 100 else bonus_rate)
    tiers 0.0.

Definition lookup_bonus_rate (tiers_norm : list Tier) (total_value : Q) : Q :=
  let tiers :=
    Py.sort_values (fun a b : Tier => Qle_bool (fst a) (fst b)) tiers_norm in
  scan_tiers total_value tiers.

(** What the section ends with. *)
Inductive Outcome : Type :=
  | Raised
  | Stopped
  | No_rows
  | Totals (total_value total_comm bonus_rate bonus total_incentive : Q).

Definition final_bonus (currency : string) (sales_bonus_tiers : DataFrame)
    (sales_rows : list Row) : Outcome :=
  match normalize_tier_df sales_bonus_tiers with
  | None => Raised
  | Some tiers_norm =>
      if negb (has_column MIN_COL (columns tiers_norm)
               && has_column BONUS_COL (columns tiers_norm))
      then Stopped
      else
        let df := df_view currency sales_rows in
        match df with
        | [] => No_rows
        | _ :: _ =>
            let total_value := Py.sum (map Contract_Value df) in
            let total_comm := Py.sum (map Commission df) in
            let bonus_rate :=
              lookup_bonus_rate (tier_rows tiers_norm) total_value in
            let bonus := total_value * bonus_rate in
            let total_incentive := total_comm + bonus in
            Totals total_value total_comm bonus_rate bonus total_incentive
        end
  end.

End Sales.

(* ================================================================= *)
(** * Project Manager *)

Module PM.

(** Line 413. *)
Definition clamp_0_100 (x : Q) : Q := Qmax 0 (Qmin 100 x).

(** ** Part A: on-time delivery bonus (lines 416-466) *)

(** A row of the tier editor. *)
Record TierRow : Type := mkTierRow {
  Tier : string;
  From : Z;
  To : Z;
  Rate_per_project : Q
}.

(** Lines 428-434. *)
Definition tiers_default : list TierRow :=
  [ {| Tier := "Tier 1"; From := 1; To := 3; Rate_per_project := 500.0 |};
    {| Tier := "Tier 2"; From := 4; To := 6; Rate_per_project := 700.0 |};
    {| Tier := "Tier 3"; From := 7; To := 9999; Rate_per_project := 900.0 |} ].

(** A row of the breakdown table, with its amounts as numbers. *)
Record BreakdownRow : Type := mkBreakdownRow {
  b_Tier : string;
  Projects_counted : Z;
  b_Rate_per_project : Q;
  Tier_payout : Q
}.

(** The body of the loop, lines 441-462, on the pair
    [(part_a_bonus, breakdown_rows)]. *)
Definition part_a_step (ontime_projects : Z)
    (acc : Q * list BreakdownRow) (t : TierRow) : Q * list BreakdownRow :=
  let start := From t in
  let end_ := To t in
  let rate := Rate_per_project t in
  if (ontime_projects <? start)%Z then acc
  else
    let tier_count := (Z.min ontime_projects end_ - start + 1)%Z in
    let tier_count := Z.max tier_count 0 in
    let tier_pay := inject_Z tier_count * rate in
    (fst acc + tier_pay,
     snd acc ++ [ {| b_Tier := Tier t;
                     Projects_counted := tier_count;
                     b_Rate_per_project := rate;
                     Tier_payout := tier_pay |} ]).

(** Lines 437-462. *)
Definition part_a (ontime_projects : Z) (tiers : list TierRow)
    : Q * list BreakdownRow :=
  let tiers_sorted :=
    Py.sort_values (fun a b => (From a <=? From b)%Z) tiers in
  fold_left (part_a_step ontime_projects) tiers_sorted (0.0, []).

Definition part_a_bonus (ontime_projects : Z) (tiers : list TierRow) : Q :=
  fst (part_a ontime_projects tiers).

(** ** Part B: KPI bonus (lines 470-567) *)

Record Inputs : Type := mkInputs {
  basic_salary : Q;
  milestone_on_schedule_pct : Q;
  delay_days : Q;
  otdr_fail : bool;
  no_major_defect_60 : bool;
  activation_no_dispute : bool;
  no_sla_penalty_60 : bool;
  no_authority_penalty : bool;
  no_safety_incident : bool;
  weekly_reporting : bool;
  accurate_tracking : bool
}.

Section PartB.
Variable i : Inputs.

Definition milestone_score : Q := clamp_0_100 (milestone_on_schedule_pct i).
Definition timeline_score : Q := clamp_0_100 (100.0 - 5.0 * delay_days i).
Definition ontime_header_score : Q := (milestone_score + timeline_score) / 2.0.

Definition quality_score : Q :=
  let quality_score := 100.0 in
  let quality_score :=
    if otdr_fail i then quality_score - 50.0 else quality_score in
  let quality_score :=
    if negb (no_major_defect_60 i) then quality_score - 50.0
    else quality_score in
  clamp_0_100 quality_score.

Definition cust_score : Q :=
  ((if activation_no_dispute i then 100.0 else 0.0)
   + (if no_sla_penalty_60 i then 100.0 else 0.0)) / 2.0.

Definition comp_score : Q :=
  ((if no_authority_penalty i then 100.0 else 0.0)
   + (if no_safety_incident i then 100.0 else 0.0)) / 2.0.

Definition internal_score : Q :=
  ((if weekly_reporting i then 100.0 else 0.0)
   + (if accurate_tracking i then 100.0 else 0.0)) / 2.0.

(** Lines 544-551. *)
Definition KPI_total : Q :=
  ontime_header_score * 0.40
  + quality_score * 0.20
  + cust_score * 0.15
  + comp_score * 0.15
  + internal_score * 0.10.

Definition kpi_score : Q := KPI_total / 100.0.
End PartB.

(** Lines 556-562: the bonus-month curve.  The last step rounds the
    exact value; see [Py.round] for what that leaves open at a tie. *)
Definition bonus_months (kpi_score : Q) : Q :=
  let bonus_months :=
    if Py.Qlt_bool kpi_score 0.5 then 1.0
    else 1.0 + 5.0 * ((kpi_score - 0.5) / 0.5) in
  let bonus_months := Qmin bonus_months 6.0 in
  Py.round bonus_months 2.

(** Line 566. *)
Definition part_b_bonus (i : Inputs) : Q :=
  basic_salary i * bonus_months (kpi_score i) * kpi_score i.

(** Line 571. *)
Definition total_pm_incentive (ontime_projects : Z) (tiers : list TierRow)
    (i : Inputs) : Q :=
  part_a_bonus ontime_projects tiers + part_b_bonus i.

End PM.

(* ================================================================= *)
(** * Delivery Team *)

Module DT.

(** Line 591. *)
Definition clamp_0_100 (x : Q) : Q := Qmax 0 (Qmin 100 x).

Record Inputs : Type := mkInputs {
  basic_salary : Q;
  milestone_on_schedule_pct : Q;
  delay_days : Q;
  no_missed_critical : bool;
  cost_variance_pct : Q;
  material_wastage_ok : bool;
  vo_approved_only : bool;
  otdr_fail : bool;
  no_major_defect_60 : bool;
  rework_due_to_team : bool;
  no_safety_incident : bool;
  no_authority_penalty : bool;
  weekly_reporting : bool;
  accurate_tracking : bool
}.

Section Scores.
Variable i : Inputs.

Definition milestone_score : Q := clamp_0_100 (milestone_on_schedule_pct i).
Definition delay_score : Q := clamp_0_100 (100.0 - 5.0 * delay_days i).
Definition critical_score : Q := if no_missed_critical i then 100.0 else 0.0.
Definition ontime_score : Q :=
  (milestone_score + delay_score + critical_score) / 3.0.

Definition variance_score : Q :=
  if Qle_bool (cost_variance_pct i) 0 then 100.0
  else clamp_0_100 (100.0 - 10.0 * cost_variance_pct i).
Definition wastage_score : Q := if material_wastage_ok i then 100.0 else 0.0.
Definition vo_score : Q := if vo_approved_only i then 100.0 else 0.0.
Definition budget_score : Q :=
  (variance_score + wastage_score + vo_score) / 3.0.

Definition quality_score : Q :=
  let quality_score := 100.0 in
  let quality_score :=
    if otdr_fail i then quality_score - 40.0 else quality_score in
  let quality_score :=
    if rework_due_to_team i then quality_score - 40.0 else quality_score in
  let quality_score :=
    if negb (no_major_defect_60 i) then quality_score - 20.0
    else quality_score in
  clamp_0_100 quality_score.

Definition safety_score : Q :=
  ((if no_safety_incident i then 100.0 else 0.0)
   + (if no_authority_penalty i then 100.0 else 0.0)) / 2.0.

Definition reporting_score : Q :=
  ((if weekly_reporting i then 100.0 else 0.0)
   + (if accurate_tracking i then 100.0 else 0.0)) / 2.0.

(** Lines 676-683. *)
Definition KPI_total : Q :=
  ontime_score * 0.35
  + budget_score * 0.25
  + quality_score * 0.20
  + safety_score * 0.15
  + reporting_score * 0.05.

Definition kpi_score : Q := KPI_total / 100.0.
End Scores.

(** Lines 688-694: the bonus-month curve.  The last step rounds the
    exact value; see [Py.round] for what that leaves open at a tie. *)
Definition bonus_months (kpi_score : Q) : Q :=
  let bonus_months :=
    if Py.Qlt_bool kpi_score 0.5 then 1.0
    else 1.0 + 5.0 * ((kpi_score - 0.5) / 0.5) in
  let bonus_months := Qmin bonus_months 6.0 in
  Py.round bonus_months 2.

(** Line 698. *)
Definition delivery_bonus (i : Inputs) : Q :=
  basic_salary i * bonus_months (kpi_score i) * kpi_score i.

End DT.

(* ================================================================= *)
(** * Vocabulary of the properties *)

(** Continuity of a rate function at [a], over contract values [v >= 0]. *)
Definition continuous_at (f : Q -> Q) (a : Q) : Prop :=
  forall eps, 0 < eps ->
  exists delta, 0 < delta /\
    forall v, 0 <= v -> Qabs (v - a) < delta -> Qabs (f v - f a) < eps.

(** Continuity from the right at [a]. *)
Definition right_continuous_at (f : Q -> Q) (a : Q) : Prop :=
  forall eps, 0 < eps ->
  exists delta, 0 < delta /\
    forall v, a <= v -> v - a < delta -> Qabs (f v - f a) < eps.

(** The row [r] is a tier of the table whose threshold is reached by
    [total_value] and is the largest such threshold. *)
Definition best_tier (tiers : list Sales.Tier) (total_value : Q)
    (r : Sales.Tier) : Prop :=
  In r tiers /\ fst r <= total_value
  /\ forall r', In r' tiers -> fst r' <= total_value -> fst r' <= fst r.

(** Rows that share a threshold share their percentage. *)
Definition consistent (tiers : list Sales.Tier) : Prop :=
  forall r1 r2, In r1 tiers -> In r2 tiers ->
    fst r1 == fst r2 -> snd r1 == snd r2.

(** The last row of a list whose threshold is reached. *)
Fixpoint last_reached (total_value : Q) (tiers : list Sales.Tier)
    : option Sales.Tier :=
  match tiers with
  | [] => None
  | r :: rest =>
      match last_reached total_value rest with
      | Some r' => Some r'
      | None => if Qle_bool (fst r) total_value then Some r else None
      end
  end.

(** The order [sort_values] puts on tier rows. *)
Definition tier_leb (a b : Sales.Tier) : bool := Qle_bool (fst a) (fst b).

(** The sum of a column, as a right fold. *)
Definition sigma (f : Sales.Row -> Q) (deals : list Sales.Row) : Q :=
  fold_right (fun r acc => f r + acc) 0 deals.

(** The column labels of a tier table after stripping and renaming. *)
Definition norm_columns (df : Sales.DataFrame) : list string :=
  map (Sales.rename Sales.rename_map) (map Py.strip (Sales.columns df)).

(** The tier table carries each of the two required columns once. *)
Definition tier_table_ok (df : Sales.DataFrame) : bool :=
  ((Sales.label_count Sales.MIN_COL (norm_columns df) =? 1)
   && (Sales.label_count Sales.BONUS_COL (norm_columns df) =? 1))%nat.

(** The tiers the bonus is looked up in. *)
Definition tiers_of (df : Sales.DataFrame) : list Sales.Tier :=
  match Sales.normalize_tier_df df with
  | Some tiers_norm => Sales.tier_rows tiers_norm
  | None => []
  end.

(** The number a cell stands for once normalized: NaN counts as 0. *)
Definition cell_value (c : Sales.cell) : Q :=
  Sales.float_of (Sales.to_numeric_fillna c).

(** Some cell of the table does not parse as a number. *)
Definition has_unparsable_cell (df : Sales.DataFrame) : Prop :=
  exists r, In r (Sales.rows df) /\ In Sales.NaN r.

(** [l1] is [l2] with some elements left out, the others in order. *)
Inductive Subsequence {A : Type} : list A -> list A -> Prop :=
  | Subsequence_nil : Subsequence [] []
  | Subsequence_skip (x : A) (l1 l2 : list A) :
      Subsequence l1 l2 -> Subsequence l1 (x :: l2)
  | Subsequence_keep (x : A) (l1 l2 : list A) :
      Subsequence l1 l2 -> Subsequence (x :: l1) (x :: l2).

(** [r["Currency"] != currency]. *)
Definition other_currency (currency : string) (r : Sales.Row) : bool :=
  negb (Sales.in_currency currency r).

(** The graduated payout of Part A, summed over the ranges in the order
    of the table. *)
Definition counted_in_range (ontime_count : Z) (t : PM.TierRow) : Z :=
  Z.max (Z.min ontime_count (PM.To t) - PM.From t + 1) 0.

Fixpoint graduated_payout (ontime_count : Z) (ranges : list PM.TierRow) : Q :=
  match ranges with
  | [] => 0
  | t :: rest =>
      (if (PM.From t <=? ontime_count)%Z
       then inject_Z (counted_in_range ontime_count t) * PM.Rate_per_project t
       else 0)
      + graduated_payout ontime_count rest
  end.

(** What the totals of the final bonus section have to satisfy, for the
    deals of the selected currency and the tiers of the table. *)
Definition totals_spec (deals : list Sales.Row) (tiers : list Sales.Tier)
    (total_value total_comm bonus_rate bonus total_incentive : Q) : Prop :=
  total_value == sigma Sales.Contract_Value deals
  /\ total_comm == sigma Sales.Commission deals
  /\ ((exists r, best_tier tiers total_value r /\ bonus_rate == snd r / 100)
      \/ ((forall r, In r tiers -> total_value < fst r) /\ bonus_rate == 0))
  /\ bonus == total_value * bonus_rate
  /\ total_incentive == total_comm + bonus.

(** One interaction with the Salesman page: a press of one of the
    "Add" buttons with the values of its widgets, or of a button of the
    commission table, under the currency selected at that moment. *)
Inductive Action : Type :=
  | Add_IRU (currency dt customer : string) (value : Q) (pairs : Z)
  | Add_Lease (currency dt customer : string) (value : Q) (pairs : Z)
  | Add_Build (currency dt customer : string) (value : Q) (prepay : bool)
  | Add_DC (currency dt customer : string) (value : Q) (d_type : string)
  | Table (currency : string) (b : Sales.Button).

(** The saved deals after the interaction. *)
Definition run (a : Action) (sales_rows : list Sales.Row) : list Sales.Row :=
  match a with
  | Add_IRU currency dt customer value pairs =>
      Sales.add_iru currency dt customer value pairs sales_rows
  | Add_Lease currency dt customer value pairs =>
      Sales.add_lease currency dt customer value pairs sales_rows
  | Add_Build currency dt customer value prepay =>
      Sales.add_build currency dt customer value prepay sales_rows
  | Add_DC currency dt customer value d_type =>
      Sales.add_dc currency dt customer value d_type sales_rows
  | Table currency b => Sales.press currency b sales_rows
  end.

(** The options of the currency selector, line 35. *)
Definition currency_option (currency : string) : Prop :=
  currency = "USD"%string \/ currency = "RM"%string.

(** What the widgets allow: the currency is an option of the selector,
    contract values and pairs have [min_value] 0. *)
Definition allowed (a : Action) : Prop :=
  match a with
  | Add_IRU currency _ _ value pairs
  | Add_Lease currency _ _ value pairs =>
      currency_option currency /\ 0 <= value /\ (0 <= pairs)%Z
  | Add_Build currency _ _ value _
  | Add_DC currency _ _ value _ => currency_option currency /\ 0 <= value
  | Table currency _ => currency_option currency
  end.

(** The lists of saved deals a session can hold: it starts empty
    (lines 40-41) and changes by one interaction at a time. *)
Inductive reachable : list Sales.Row -> Prop :=
  | reachable_start : reachable []
  | reachable_run (a : Action) (sales_rows : list Sales.Row) :
      allowed a -> reachable sales_rows -> reachable (run a sales_rows).

(** What holds of every saved deal. *)
Definition row_ok (r : Sales.Row) : Prop :=
  currency_option (Sales.Currency r)
  /\ 0 <= Sales.Contract_Value r
  /\ 0.012 * Sales.Contract_Value r <= Sales.Commission r
  /\ ((Sales.Category r = "IRU"%string
       \/ Sales.Category r = "Fiber Lease"%string)
      /\ (exists n, Sales.Pairs r = Some n /\ (0 <= n)%Z)
      \/ (Sales.Category r = "Build"%string
          \/ Sales.Category r = "DC Grid"%string)
         /\ Sales.Pairs r = None).

(** The currency an "Add" interaction saves its deal under. *)
Definition added_under (a : Action) : option string :=
  match a with
  | Add_IRU currency _ _ _ _
  | Add_Lease currency _ _ _ _
  | Add_Build currency _ _ _ _
  | Add_DC currency _ _ _ _ => Some currency
  | Table _ _ => None
  end.

(** [row_no in ticked_nos]. *)
Definition ticked (ticked_nos : list nat) (row_no : nat) : bool :=
  existsb (Nat.eqb row_no) ticked_nos.

(** Every row of the table has one cell per column. *)
Definition well_formed (df : Sales.DataFrame) : Prop :=
  Forall (fun r => List.length r = List.length (Sales.columns df))
         (Sales.rows df).

(** The header spellings [rename_map] accepts for the two columns. *)
Definition min_spellings : list string :=
  [ "Min Total Contract Value";
    "Min Total Contract Value (inclusive)";
    "Min Total Contract Value (Inclusive)" ]%string.

Definition bonus_spellings : list string :=
  [ "Bonus %"; "Bonus % on Total"; "Bonus % On Total" ]%string.

(** [s in spellings]. *)
Definition spelled (spellings : list string) (s : string) : bool :=
  existsb (String.eqb s) spellings.

(** The percentages of a tier table do not fall as the thresholds
    rise. *)
Definition rising (tiers : list Sales.Tier) : Prop :=
  forall r1 r2, In r1 tiers -> In r2 tiers ->
    fst r1 <= fst r2 -> snd r1 <= snd r2.

(** The breakdown row of a tier that is reached. *)
Definition breakdown_of (ontime_projects : Z) (t : PM.TierRow)
    : PM.BreakdownRow :=
  {| PM.b_Tier := PM.Tier t;
     PM.Projects_counted := counted_in_range ontime_projects t;
     PM.b_Rate_per_project := PM.Rate_per_project t;
     PM.Tier_payout :=
       inject_Z (counted_in_range ontime_projects t) * PM.Rate_per_project t |}.

(** [ontime_projects >= From]. *)
Definition reached (ontime_projects : Z) (t : PM.TierRow) : bool :=
  (PM.From t <=? ontime_projects)%Z.

(** The sum of the "Tier payout" column of a breakdown. *)
Definition payout_sum (rows : list PM.BreakdownRow) : Q :=
  fold_right (fun b acc => PM.Tier_payout b + acc) 0 rows.

(** The sum of the "Projects counted" column of a breakdown. *)
Definition counted_sum (rows : list PM.BreakdownRow) : Z :=
  fold_right (fun b acc => (PM.Projects_counted b + acc)%Z) 0%Z rows.

(** Ranges that follow one another without gap or overlap, the first
    one starting at [start]: [start..To1], [To1+1..To2], ... *)
Fixpoint chain (start : Z) (tiers : list PM.TierRow) : Prop :=
  match tiers with
  | [] => True
  | t :: rest =>
      PM.From t = start /\ (start <= PM.To t)%Z /\ chain (PM.To t + 1) rest
  end.

(** The last number covered by a chain that starts at [start]. *)
Fixpoint chain_end (start : Z) (tiers : list PM.TierRow) : Z :=
  match tiers with
  | [] => (start - 1)%Z
  | t :: rest => chain_end (PM.To t + 1) rest
  end.

(** The KPI points a ticked box is worth. *)
Definition points (b : bool) (p : Q) : Q := if b then p else 0.

(** The bonus-month curve before rounding. *)
Definition raw_months (kpi_score : Q) : Q :=
  Qmin (if Py.Qlt_bool kpi_score 0.5 then 1.0
        else 1.0 + 5.0 * ((kpi_score - 0.5) / 0.5)) 6.0.

(* ================================================================= *)
(** * Arithmetic helpers *)

(** Division by a literal becomes a product, which [lra] understands. *)
Ltac qconst :=
  unfold Qdiv in *;
  repeat match goal with
  | |- context [ / (?n # ?d) ] =>
      let r := eval vm_compute in (/ (n # d)) in change (/ (n # d)) with r
  | H : context [ / (?n # ?d) ] |- _ =>
      let r := eval vm_compute in (/ (n # d)) in change (/ (n # d)) with r in H
  end.

Ltac qlra := qconst; lra.

Lemma Qlt_bool_true (a b : Q) : Py.Qlt_bool a b = true <-> a < b.
Proof.
  unfold Py.Qlt_bool. rewrite negb_true_iff.
  destruct (Qle_bool b a) eqn:E.
  - apply Qle_bool_iff in E. split; [discriminate | lra].
  - split; [intros _ | reflexivity].
    apply Qnot_le_lt. intro H. apply Qle_bool_iff in H. congruence.
Qed.

Lemma Qlt_bool_false (a b : Q) : Py.Qlt_bool a b = false <-> b <= a.
Proof.
  destruct (Py.Qlt_bool a b) eqn:E.
  - apply Qlt_bool_true in E. split; [discriminate | lra].
  - split; [intros _ | reflexivity].
    apply Qnot_lt_le. intro H. apply Qlt_bool_true in H. congruence.
Qed.

Lemma Qle_bool_false (a b : Q) : Qle_bool a b = false <-> b < a.
Proof.
  destruct (Qle_bool a b) eqn:E.
  - apply Qle_bool_iff in E. split; [discriminate | lra].
  - split; [intros _ | reflexivity].
    apply Qnot_le_lt. intro H. apply Qle_bool_iff in H. congruence.
Qed.

Lemma clamp_0_1_id (x : Q) : 0 <= x -> x <= 1 -> clamp_0_1 x == x.
Proof.
  intros H0 H1. unfold clamp_0_1.
  rewrite (Q.min_r 1 x) by exact H1. apply Q.max_r. exact H0.
Qed.

Lemma clamp_0_1_range (x : Q) : 0 <= clamp_0_1 x <= 1.
Proof.
  unfold clamp_0_1. split.
  - apply Q.le_max_l.
  - apply Q.max_lub; [lra | apply Q.le_min_l].
Qed.

(* ================================================================= *)
(** * Build to Own rate *)

Lemma build_base_low (v : Q) : v < 5000000 -> Sales.build_base v = 0.012.
Proof.
  intros H. unfold Sales.build_base.
  apply Qlt_bool_true in H. rewrite H. reflexivity.
Qed.

Lemma build_base_mid (v : Q) :
  5000000 <= v -> v <= 15000000 ->
  Sales.build_base v
  = 0.015 + (0.03 - 0.015) * clamp_0_1 ((v - 5000000) / 10000000).
Proof.
  intros H1 H2. unfold Sales.build_base.
  apply Qlt_bool_false in H1. rewrite H1.
  apply Qle_bool_iff in H2. rewrite H2. reflexivity.
Qed.

Lemma build_base_mid_linear (v : Q) :
  5000000 <= v -> v <= 15000000 ->
  Sales.build_base v == 0.015 + 0.015 * ((v - 5000000) * (1 # 10000000)).
Proof.
  intros H1 H2. rewrite (build_base_mid v H1 H2).
  rewrite clamp_0_1_id by qlra. qlra.
Qed.

Lemma build_base_high (v : Q) : 15000000 < v -> Sales.build_base v = 0.03.
Proof.
  intros H. unfold Sales.build_base.
  assert (H1 : 5000000 <= v) by lra.
  apply Qlt_bool_false in H1. rewrite H1.
  apply Qle_bool_false in H. rewrite H. reflexivity.
Qed.

Lemma build_base_continuous_15M : continuous_at Sales.build_base 15000000.
Proof.
  intros eps Heps. exists (Qmin 1 eps). split.
  - apply Q.min_glb_lt; lra.
  - intros v Hv Hd.
    assert (Hd1 : Qabs (v - 15000000) < 1)
      by (eapply Qlt_le_trans; [exact Hd | apply Q.le_min_l]).
    assert (Hd2 : Qabs (v - 15000000) < eps)
      by (eapply Qlt_le_trans; [exact Hd | apply Q.le_min_r]).
    apply Qabs_Qlt_condition in Hd1. apply Qabs_Qlt_condition in Hd2.
    apply Qabs_Qlt_condition.
    rewrite (build_base_mid_linear 15000000) by lra.
    destruct (Qlt_le_dec 15000000 v) as [Hgt | Hle].
    + rewrite (build_base_high v Hgt). lra.
    + rewrite (build_base_mid_linear v) by lra. lra.
Qed.

Lemma build_base_right_continuous_5M :
  right_continuous_at Sales.build_base 5000000.
Proof.
  intros eps Heps. exists (Qmin 1 eps). split.
  - apply Q.min_glb_lt; lra.
  - intros v Hv Hd.
    assert (Hd1 : v - 5000000 < 1)
      by (eapply Qlt_le_trans; [exact Hd | apply Q.le_min_l]).
    assert (Hd2 : v - 5000000 < eps)
      by (eapply Qlt_le_trans; [exact Hd | apply Q.le_min_r]).
    apply Qabs_Qlt_condition.
    rewrite (build_base_mid_linear 5000000) by lra.
    rewrite (build_base_mid_linear v) by lra. lra.
Qed.

(** C1, as stated, fails: the base rate is not continuous at the
    5,000,000 boundary, where it steps from 0.012 up to 0.015. *)
Lemma build_base_jump_at_5M : ~ continuous_at Sales.build_base 5000000.
Proof.
  intros H. destruct (H 0.003 ltac:(lra)) as [delta [Hdelta Hc]].
  set (v := 5000000 - Qmin 1 delta * (1 # 2)).
  assert (Hm0 : 0 < Qmin 1 delta) by (apply Q.min_glb_lt; lra).
  assert (Hm1 : Qmin 1 delta <= 1) by apply Q.le_min_l.
  assert (Hm2 : Qmin 1 delta <= delta) by apply Q.le_min_r.
  specialize (Hc v).
  assert (Hv : 0 <= v) by (unfold v; lra).
  assert (Hd : Qabs (v - 5000000) < delta)
    by (apply Qabs_Qlt_condition; unfold v; lra).
  specialize (Hc Hv Hd).
  rewrite (build_base_low v) in Hc by (unfold v; lra).
  rewrite (build_base_mid_linear 5000000) in Hc by lra.
  apply Qabs_Qlt_condition in Hc. lra.
Qed.

(** C1 (amended): the Build-to-Own base rate is 0.015 at 5,000,000 and
    0.03 at 15,000,000; it is 0.012 below 5,000,000, the interpolation
    [0.015 + (0.03-0.015) * clamp01((v-5,000,000)/10,000,000)] from
    5,000,000 to 15,000,000 and 0.03 above; it is continuous at
    15,000,000 and continuous from the right at 5,000,000, where it
    steps up by 0.003 from the 0.012 of every smaller value.  The
    prepaid flag adds 0.002. *)
Theorem build_rate_boundaries :
  Sales.build_base 5000000 == 0.015
  /\ Sales.build_base 15000000 == 0.03
  /\ (forall v, v < 5000000 -> Sales.build_base v == 0.012)
  /\ (forall v, 5000000 <= v -> v <= 15000000 ->
        Sales.build_base v
        == 0.015 + (0.03 - 0.015) * clamp_0_1 ((v - 5000000) / 10000000))
  /\ (forall v, 15000000 < v -> Sales.build_base v == 0.03)
  /\ (forall v, v < 5000000 ->
        Sales.build_base 5000000 - Sales.build_base v == 0.003)
  /\ continuous_at Sales.build_base 15000000
  /\ right_continuous_at Sales.build_base 5000000
  /\ (forall v, Sales.build_rate v true == Sales.build_base v + 0.002)
  /\ (forall v, Sales.build_rate v false == Sales.build_base v).
Proof.
  repeat split.
  - intros v H. rewrite (build_base_low v H). reflexivity.
  - intros v H1 H2. rewrite (build_base_mid v H1 H2). reflexivity.
  - intros v H. rewrite (build_base_high v H). reflexivity.
  - intros v H. rewrite (build_base_low v H). reflexivity.
  - apply build_base_continuous_15M.
  - apply build_base_right_continuous_5M.
Qed.

Lemma build_rate_boundaries_witness :
  Sales.build_base 4999999 == 0.012
  /\ Sales.build_base 10000000 == 0.0225
  /\ Sales.build_base 20000000 == 0.03.
Proof.
  destruct build_rate_boundaries as (_ & _ & Hlow & Hmid & Hhigh & _).
  split; [| split].
  - apply Hlow. lra.
  - rewrite Hmid by lra. reflexivity.
  - apply Hhigh. lra.
Defined.

(* ================================================================= *)
(** * IRU commission *)

(** C8: for every contract value [>= 0] and every number of pairs
    [>= 0], "Add IRU" appends one IRU deal whose commission is
    [contractValue * (0.03 + 0.001 * max(pairs - 1, 0))]. *)
Theorem iru_commission (currency iru_date iru_customer : string)
    (iru_value : Q) (iru_pairs : Z) (sales_rows : list Sales.Row) :
  0 <= iru_value -> (0 <= iru_pairs)%Z ->
  exists r,
    Sales.add_iru currency iru_date iru_customer iru_value iru_pairs sales_rows
    = sales_rows ++ [r]
    /\ Sales.Category r = "IRU"%string
    /\ Sales.Contract_Value r = iru_value
    /\ Sales.Currency r = currency
    /\ Sales.Commission r
       == iru_value * (0.03 + 0.001 * inject_Z (Z.max (iru_pairs - 1) 0)).
Proof.
  intros _ _. eexists. split; [reflexivity |]. cbn.
  repeat split. unfold Sales.iru_rate. ring.
Qed.

Lemma iru_commission_witness :
  exists r,
    Sales.add_iru "USD" "2024-05-01" "Acme" 1000000 3 [] = [] ++ [r]
    /\ Sales.Category r = "IRU"%string
    /\ Sales.Contract_Value r = 1000000
    /\ Sales.Currency r = "USD"%string
    /\ Sales.Commission r
       == 1000000 * (0.03 + 0.001 * inject_Z (Z.max (3 - 1) 0)).
Proof.
  apply (iru_commission "USD" "2024-05-01" "Acme" 1000000 3 []).
  - lra.
  - lia.
Defined.

(* ================================================================= *)
(** * Sorting by a key column *)

Section SortValuesFacts.
Context {A : Type} (leb : A -> A -> bool).

Lemma insert_row_perm (x : A) (l : list A) :
  Permutation (Py.insert_row leb x l) (x :: l).
Proof.
  induction l as [| y l IH]; simpl.
  - apply Permutation_refl.
  - destruct (leb x y).
    + apply Permutation_refl.
    + eapply perm_trans; [apply perm_skip, IH | apply perm_swap].
Qed.

Lemma sort_values_perm (l : list A) : Permutation (Py.sort_values leb l) l.
Proof.
  induction l as [| x l IH]; simpl.
  - apply perm_nil.
  - eapply perm_trans; [apply insert_row_perm | apply perm_skip, IH].
Qed.

Lemma sort_values_In (l : list A) (x : A) :
  In x (Py.sort_values leb l) <-> In x l.
Proof.
  split; apply Permutation_in;
    [| apply Permutation_sym]; apply sort_values_perm.
Qed.

Hypothesis leb_total : forall a b, leb a b = true \/ leb b a = true.
Hypothesis leb_trans :
  forall a b c, leb a b = true -> leb b c = true -> leb a c = true.

Lemma insert_row_sorted (x : A) (l : list A) :
  StronglySorted (fun a b => leb a b = true) l ->
  StronglySorted (fun a b => leb a b = true) (Py.insert_row leb x l).
Proof.
  induction 1 as [| y l Hs IH Hall]; simpl.
  - constructor; constructor.
  - destruct (leb x y) eqn:E.
    + constructor; [constructor; assumption |].
      constructor; [exact E |].
      eapply Forall_impl; [| exact Hall].
      intros z Hz. exact (leb_trans x y z E Hz).
    + constructor; [exact IH |].
      assert (Hyx : leb y x = true)
        by (destruct (leb_total x y) as [H | H]; [congruence | exact H]).
      eapply Permutation_Forall.
      * apply Permutation_sym, insert_row_perm.
      * constructor; assumption.
Qed.

Lemma sort_values_sorted (l : list A) :
  StronglySorted (fun a b => leb a b = true) (Py.sort_values leb l).
Proof.
  induction l as [| x l IH]; simpl.
  - constructor.
  - apply insert_row_sorted, IH.
Qed.
End SortValuesFacts.

(* ================================================================= *)
(** * Bonus tier lookup *)

Lemma tier_leb_total (a b : Sales.Tier) :
  tier_leb a b = true \/ tier_leb b a = true.
Proof.
  unfold tier_leb. destruct (Qlt_le_dec (fst b) (fst a)) as [H | H].
  - right. apply Qle_bool_iff. lra.
  - left. apply Qle_bool_iff. exact H.
Qed.

Lemma tier_leb_trans (a b c : Sales.Tier) :
  tier_leb a b = true -> tier_leb b c = true -> tier_leb a c = true.
Proof.
  unfold tier_leb. rewrite !Qle_bool_iff. intros; lra.
Qed.

Lemma scan_tiers_from (total_value : Q) (tiers : list Sales.Tier) (acc : Q) :
  fold_left
    (fun bonus_rate r =>
       if Qle_bool (fst r) total_value then snd r / 100 else bonus_rate)
    tiers acc
  = match last_reached total_value tiers with
    | Some r => snd r / 100
    | None => acc
    end.
Proof.
  revert acc. induction tiers as [| r rest IH]; intros acc; simpl.
  - reflexivity.
  - rewrite IH. destruct (last_reached total_value rest); [reflexivity |].
    destruct (Qle_bool (fst r) total_value); reflexivity.
Qed.

Lemma last_reached_none (total_value : Q) (tiers : list Sales.Tier) :
  last_reached total_value tiers = None <->
  forall r, In r tiers -> total_value < fst r.
Proof.
  induction tiers as [| x rest IH]; simpl.
  - split; [intros _ r [] | reflexivity].
  - destruct (last_reached total_value rest) as [r' |].
    + split; [discriminate |]. intros H.
      destruct IH as [_ IH].
      discriminate IH. intros r Hr. apply H. right. exact Hr.
    + destruct (Qle_bool (fst x) total_value) eqn:E.
      * split; [discriminate |]. intros H.
        apply Qle_bool_iff in E. specialize (H x (or_introl eq_refl)). lra.
      * apply Qle_bool_false in E. split; [| reflexivity].
        intros _ r [<- | Hr]; [exact E |].
        destruct IH as [IH _]. apply IH; [reflexivity | exact Hr].
Qed.

Lemma last_reached_best (total_value : Q) (tiers : list Sales.Tier)
    (r : Sales.Tier) :
  StronglySorted (fun a b => tier_leb a b = true) tiers ->
  last_reached total_value tiers = Some r ->
  best_tier tiers total_value r.
Proof.
  induction 1 as [| x rest Hs IH Hall]; simpl; [discriminate |].
  destruct (last_reached total_value rest) as [r' |] eqn:E.
  - intros [= <-]. destruct (IH eq_refl) as (Hin & Hle & Hmax).
    split; [right; exact Hin |]. split; [exact Hle |].
    intros q [<- | Hq] Hq'.
    + rewrite Forall_forall in Hall. specialize (Hall _ Hin).
      unfold tier_leb in Hall. apply Qle_bool_iff in Hall. exact Hall.
    + apply Hmax; assumption.
  - destruct (Qle_bool (fst x) total_value) eqn:Ex; [| discriminate].
    intros [= <-]. apply Qle_bool_iff in Ex.
    split; [left; reflexivity |]. split; [exact Ex |].
    intros q [<- | Hq] Hq'; [lra |].
    apply last_reached_none with (r := q) in E; [lra | exact Hq].
Qed.

Lemma lookup_bonus_rate_cases (tiers : list Sales.Tier) (total_value : Q) :
  (exists r, best_tier tiers total_value r
             /\ Sales.lookup_bonus_rate tiers total_value = snd r / 100)
  \/ ((forall r, In r tiers -> total_value < fst r)
      /\ Sales.lookup_bonus_rate tiers total_value = 0.0).
Proof.
  unfold Sales.lookup_bonus_rate, Sales.scan_tiers.
  rewrite scan_tiers_from.
  fold tier_leb.
  destruct (last_reached total_value (Py.sort_values tier_leb tiers))
    as [r |] eqn:E.
  - left. exists r. split; [| reflexivity].
    apply last_reached_best in E.
    + destruct E as (Hin & Hle & Hmax).
      split; [apply (sort_values_In tier_leb), Hin |]. split; [exact Hle |].
      intros q Hq. apply Hmax. apply (sort_values_In tier_leb). exact Hq.
    + apply sort_values_sorted; [apply tier_leb_total | apply tier_leb_trans].
  - right. split; [| reflexivity].
    intros r Hr. apply (proj1 (last_reached_none _ _) E).
    apply (sort_values_In tier_leb). exact Hr.
Qed.

Lemma lookup_bonus_rate_best (tiers : list Sales.Tier) (total_value : Q)
    (r : Sales.Tier) :
  consistent tiers -> best_tier tiers total_value r ->
  Sales.lookup_bonus_rate tiers total_value == snd r / 100.
Proof.
  intros Hc (Hin & Hle & Hmax).
  destruct (lookup_bonus_rate_cases tiers total_value)
    as [(r0 & (Hin0 & Hle0 & Hmax0) & ->) | (Hnone & _)].
  - assert (Heq : fst r0 == fst r).
    { apply Qle_antisym; [apply Hmax | apply Hmax0]; assumption. }
    rewrite (Hc r0 r Hin0 Hin Heq). reflexivity.
  - specialize (Hnone r Hin). lra.
Qed.

Lemma lookup_bonus_rate_below (tiers : list Sales.Tier) (total_value : Q) :
  (forall r, In r tiers -> total_value < fst r) ->
  Sales.lookup_bonus_rate tiers total_value = 0.0.
Proof.
  intros Hnone.
  destruct (lookup_bonus_rate_cases tiers total_value)
    as [(r0 & (Hin0 & Hle0 & _) & _) | (_ & ->)]; [| reflexivity].
  specialize (Hnone r0 Hin0). lra.
Qed.

Lemma best_tier_perm (tiers tiers' : list Sales.Tier) (total_value : Q)
    (r : Sales.Tier) :
  Permutation tiers tiers' ->
  best_tier tiers total_value r -> best_tier tiers' total_value r.
Proof.
  intros Hp (Hin & Hle & Hmax). split; [| split].
  - exact (Permutation_in _ Hp Hin).
  - exact Hle.
  - intros q Hq. apply Hmax. exact (Permutation_in _ (Permutation_sym Hp) Hq).
Qed.

Lemma consistent_perm (tiers tiers' : list Sales.Tier) :
  Permutation tiers tiers' -> consistent tiers -> consistent tiers'.
Proof.
  intros Hp Hc r1 r2 H1 H2. apply Hc.
  - exact (Permutation_in _ (Permutation_sym Hp) H1).
  - exact (Permutation_in _ (Permutation_sym Hp) H2).
Qed.

Lemma lookup_bonus_rate_perm (tiers tiers' : list Sales.Tier)
    (total_value : Q) :
  consistent tiers -> Permutation tiers tiers' ->
  Sales.lookup_bonus_rate tiers' total_value
  == Sales.lookup_bonus_rate tiers total_value.
Proof.
  intros Hc Hp.
  destruct (lookup_bonus_rate_cases tiers total_value)
    as [(r & Hbest & ->) | (Hnone & ->)].
  - apply lookup_bonus_rate_best.
    + exact (consistent_perm _ _ Hp Hc).
    + exact (best_tier_perm _ _ _ _ Hp Hbest).
  - rewrite lookup_bonus_rate_below; [reflexivity |].
    intros r Hr. apply Hnone.
    exact (Permutation_in _ (Permutation_sym Hp) Hr).
Qed.

(** C2, as stated, fails on a table in which one threshold carries two
    percentages: [(0, 1)] is a row with the largest threshold reached by
    0, yet the lookup answers with the percentage of [(0, 2)], and the
    same rows entered in the other order give another rate. *)
Lemma lookup_equal_thresholds_order :
  Permutation [(0, 1); (0, 2)] [(0, 2); (0, 1)]
  /\ best_tier [(0, 1); (0, 2)] 0 (0, 1)
  /\ ~ Sales.lookup_bonus_rate [(0, 1); (0, 2)] 0 == 1 / 100
  /\ ~ Sales.lookup_bonus_rate [(0, 1); (0, 2)] 0
       == Sales.lookup_bonus_rate [(0, 2); (0, 1)] 0.
Proof.
  split; [apply perm_swap |]. split; [| split].
  - split; [left; reflexivity |]. split; [simpl; lra |].
    intros r' [<- | [<- | []]] _; simpl; lra.
  - vm_compute. discriminate.
  - vm_compute. discriminate.
Qed.

(** C2 (amended): for every tier table, in any input order, and every
    [totalValue >= 0], the bonus rate found is the Bonus % of a row with
    the largest threshold [<= totalValue], divided by 100, and it is 0
    when [totalValue] is below every threshold and for the empty table.
    When rows that share a threshold share their percentage (in
    particular when the thresholds are pairwise distinct), it is the
    percentage of every row with the largest threshold [<= totalValue]
    and does not depend on the input order of the rows. *)
Theorem bonus_tier_lookup (tiers : list Sales.Tier) (total_value : Q) :
  0 <= total_value ->
  ((exists r, best_tier tiers total_value r
              /\ Sales.lookup_bonus_rate tiers total_value == snd r / 100)
   \/ ((forall r, In r tiers -> total_value < fst r)
       /\ Sales.lookup_bonus_rate tiers total_value == 0))
  /\ ((forall r, In r tiers -> total_value < fst r) ->
      Sales.lookup_bonus_rate tiers total_value == 0)
  /\ Sales.lookup_bonus_rate [] total_value == 0
  /\ (consistent tiers ->
      (forall r, best_tier tiers total_value r ->
         Sales.lookup_bonus_rate tiers total_value == snd r / 100)
      /\ (forall tiers', Permutation tiers tiers' ->
            Sales.lookup_bonus_rate tiers' total_value
            == Sales.lookup_bonus_rate tiers total_value)).
Proof.
  intros _. split; [| split; [| split]].
  - destruct (lookup_bonus_rate_cases tiers total_value)
      as [(r & Hbest & ->) | (Hnone & ->)].
    + left. exists r. split; [exact Hbest | reflexivity].
    + right. split; [exact Hnone | reflexivity].
  - intros Hnone. rewrite lookup_bonus_rate_below by exact Hnone. reflexivity.
  - reflexivity.
  - intros Hc. split.
    + intros r Hr. apply lookup_bonus_rate_best; assumption.
    + intros tiers' Hp. apply lookup_bonus_rate_perm; assumption.
Qed.

Lemma bonus_tier_lookup_witness :
  Sales.lookup_bonus_rate
    [(5000000, 0.5); (0, 0.0); (15000000, 1.0); (1000000, 0.2);
     (10000000, 0.8)] 6000000
  == 0.5 / 100.
Proof.
  assert (Hc : consistent
    [(5000000, 0.5); (0, 0.0); (15000000, 1.0); (1000000, 0.2);
     (10000000, 0.8)]).
  { intros r1 r2 H1 H2.
    simpl in H1, H2.
    repeat (destruct H1 as [<- | H1]; [| ]); try contradiction;
    repeat (destruct H2 as [<- | H2]; [| ]); try contradiction;
    simpl; intros H; try reflexivity; exfalso; revert H;
    vm_compute; discriminate. }
  destruct (bonus_tier_lookup
    [(5000000, 0.5); (0, 0.0); (15000000, 1.0); (1000000, 0.2);
     (10000000, 0.8)] 6000000 ltac:(lra)) as (_ & _ & _ & H).
  destruct (H Hc) as (Hbest & _).
  apply (Hbest (5000000, 0.5)).
  split; [left; reflexivity |]. split; [simpl; lra |].
  intros r' Hr' Hle. simpl in Hr'.
  repeat (destruct Hr' as [<- | Hr']; [simpl in *; try lra |]);
    try contradiction.
Defined.

(* ================================================================= *)
(** * Sums of columns *)

Lemma fold_left_Qplus (l : list Q) (a : Q) :
  fold_left Qplus l a == a + fold_right Qplus 0 l.
Proof.
  revert a. induction l as [| x l IH]; intros a; simpl.
  - ring.
  - rewrite IH. ring.
Qed.

Lemma sum_sigma (f : Sales.Row -> Q) (deals : list Sales.Row) :
  Py.sum (map f deals) == sigma f deals.
Proof.
  unfold Py.sum. rewrite fold_left_Qplus.
  induction deals as [| r deals IH]; simpl.
  - ring.
  - simpl in IH. rewrite <- IH. ring.
Qed.

(* ================================================================= *)
(** * The tier table after normalization *)

Lemma label_count_has (label : string) (cols : list string) :
  Sales.label_count label cols = 1%nat -> Sales.has_column label cols = true.
Proof.
  unfold Sales.label_count, Sales.has_column.
  induction cols as [| c cols IH]; simpl; [discriminate |].
  destruct (String.eqb label c); simpl; [reflexivity | exact IH].
Qed.

Lemma normalize_ok (df : Sales.DataFrame) :
  tier_table_ok df = true ->
  Sales.normalize_tier_df df
  = Some {| Sales.columns := norm_columns df;
            Sales.rows :=
              map (fun r =>
                     Sales.map_column Sales.to_numeric_fillna Sales.BONUS_COL
                       (norm_columns df)
                       (Sales.map_column Sales.to_numeric_fillna Sales.MIN_COL
                          (norm_columns df) r))
                  (Sales.rows df) |}.
Proof.
  unfold tier_table_ok, Sales.normalize_tier_df. fold (norm_columns df).
  intros H. apply andb_true_iff in H. destruct H as [H1 H2].
  apply Nat.eqb_eq in H1. apply Nat.eqb_eq in H2.
  rewrite H1, H2. reflexivity.
Qed.

Lemma get_map_column_same (label : string) (cols : list string)
    (r : list Sales.cell) :
  Sales.float_of
    (Sales.get cols (Sales.map_column Sales.to_numeric_fillna label cols r)
       label)
  = cell_value (Sales.get cols r label).
Proof.
  revert r. induction cols as [| c cols IH]; intros [| x r]; simpl;
    try reflexivity.
  destruct (String.eqb c label); [reflexivity | apply IH].
Qed.

Lemma get_map_column_other (f : Sales.cell -> Sales.cell)
    (label label' : string) (cols : list string) (r : list Sales.cell) :
  String.eqb label label' = false ->
  Sales.get cols (Sales.map_column f label cols r) label'
  = Sales.get cols r label'.
Proof.
  intros Hne. revert r.
  induction cols as [| c cols IH]; intros [| x r]; simpl; try reflexivity.
  destruct (String.eqb c label') eqn:E'.
  - destruct (String.eqb c label) eqn:E; [| reflexivity].
    apply String.eqb_eq in E, E'. subst.
    rewrite String.eqb_refl in Hne. discriminate.
  - apply IH.
Qed.

Lemma map_column_twice_min (cols : list string) (r : list Sales.cell) :
  Sales.float_of
    (Sales.get cols
       (Sales.map_column Sales.to_numeric_fillna Sales.BONUS_COL cols
          (Sales.map_column Sales.to_numeric_fillna Sales.MIN_COL cols r))
       Sales.MIN_COL)
  = cell_value (Sales.get cols r Sales.MIN_COL).
Proof.
  rewrite get_map_column_other by reflexivity. apply get_map_column_same.
Qed.

Lemma get_map_column_fill (label label' : string) (cols : list string)
    (r : list Sales.cell) :
  cell_value
    (Sales.get cols (Sales.map_column Sales.to_numeric_fillna label cols r)
       label')
  = cell_value (Sales.get cols r label').
Proof.
  revert r. induction cols as [| c cols IH]; intros [| x r]; simpl;
    try reflexivity.
  destruct (String.eqb c label'); [| apply IH].
  destruct (String.eqb c label); [| reflexivity].
  destruct x; reflexivity.
Qed.

Lemma map_column_twice_bonus (cols : list string) (r : list Sales.cell) :
  Sales.float_of
    (Sales.get cols
       (Sales.map_column Sales.to_numeric_fillna Sales.BONUS_COL cols
          (Sales.map_column Sales.to_numeric_fillna Sales.MIN_COL cols r))
       Sales.BONUS_COL)
  = cell_value (Sales.get cols r Sales.BONUS_COL).
Proof.
  rewrite get_map_column_same. apply get_map_column_fill.
Qed.

(** With both columns in place, a tier is the pair of its two cells,
    each unparsable cell counting as 0. *)
Lemma tiers_of_rows (df : Sales.DataFrame) :
  tier_table_ok df = true ->
  tiers_of df
  = map (fun r =>
           (cell_value (Sales.get (norm_columns df) r Sales.MIN_COL),
            cell_value (Sales.get (norm_columns df) r Sales.BONUS_COL)))
        (Sales.rows df).
Proof.
  intros H. unfold tiers_of. rewrite (normalize_ok df H).
  unfold Sales.tier_rows. simpl. rewrite map_map.
  apply map_ext. intros r.
  rewrite map_column_twice_min, map_column_twice_bonus. reflexivity.
Qed.

Lemma final_bonus_ok (currency : string) (df : Sales.DataFrame)
    (sales_rows : list Sales.Row) :
  tier_table_ok df = true ->
  Sales.final_bonus currency df sales_rows
  = match Sales.df_view currency sales_rows with
    | [] => Sales.No_rows
    | _ :: _ =>
        let deals := Sales.df_view currency sales_rows in
        let total_value := Py.sum (map Sales.Contract_Value deals) in
        let total_comm := Py.sum (map Sales.Commission deals) in
        let bonus_rate := Sales.lookup_bonus_rate (tiers_of df) total_value in
        Sales.Totals total_value total_comm bonus_rate
          (total_value * bonus_rate) (total_comm + total_value * bonus_rate)
    end.
Proof.
  intros H. unfold Sales.final_bonus, tiers_of.
  rewrite (normalize_ok df H). cbn [Sales.columns].
  unfold tier_table_ok in H. apply andb_true_iff in H. destruct H as [H1 H2].
  apply Nat.eqb_eq in H1. apply Nat.eqb_eq in H2.
  rewrite (label_count_has _ _ H1), (label_count_has _ _ H2). simpl.
  destruct (Sales.df_view currency sales_rows); reflexivity.
Qed.

Lemma label_count_zero (label : string) (cols : list string) :
  Sales.label_count label cols = 0%nat -> Sales.has_column label cols = false.
Proof.
  unfold Sales.label_count, Sales.has_column.
  induction cols as [| c cols IH]; simpl; [reflexivity |].
  destruct (String.eqb label c); simpl; [discriminate | exact IH].
Qed.

(** Without the two columns the section either raises (a label occurs
    twice) or stops with the error message (a label is missing). *)
Lemma final_bonus_not_ok (currency : string) (df : Sales.DataFrame)
    (sales_rows : list Sales.Row) :
  tier_table_ok df = false ->
  Sales.final_bonus currency df sales_rows = Sales.Raised
  \/ Sales.final_bonus currency df sales_rows = Sales.Stopped.
Proof.
  unfold tier_table_ok, Sales.final_bonus, Sales.normalize_tier_df.
  fold (norm_columns df). intros H.
  destruct ((1 <? Sales.label_count Sales.MIN_COL (norm_columns df))
            || (1 <? Sales.label_count Sales.BONUS_COL (norm_columns df)))%nat
    eqn:Edup; [left; reflexivity | right].
  apply orb_false_iff in Edup. destruct Edup as [E1 E2].
  apply Nat.ltb_ge in E1, E2. cbn [Sales.columns].
  apply andb_false_iff in H. destruct H as [H | H]; apply Nat.eqb_neq in H.
  - rewrite (label_count_zero Sales.MIN_COL (norm_columns df)) by lia.
    reflexivity.
  - rewrite (label_count_zero Sales.BONUS_COL (norm_columns df)) by lia.
    rewrite andb_false_r. reflexivity.
Qed.

(* ================================================================= *)
(** * Sales totals *)

Lemma totals_spec_computed (deals : list Sales.Row)
    (tiers : list Sales.Tier) :
  let total_value := Py.sum (map Sales.Contract_Value deals) in
  let total_comm := Py.sum (map Sales.Commission deals) in
  let bonus_rate := Sales.lookup_bonus_rate tiers total_value in
  totals_spec deals tiers total_value total_comm bonus_rate
    (total_value * bonus_rate) (total_comm + total_value * bonus_rate).
Proof.
  cbv zeta. unfold totals_spec.
  split; [apply sum_sigma |]. split; [apply sum_sigma |].
  split; [| split; reflexivity].
  destruct (lookup_bonus_rate_cases tiers
              (Py.sum (map Sales.Contract_Value deals)))
    as [(r & Hbest & ->) | (Hnone & ->)].
  - left. exists r. split; [exact Hbest | reflexivity].
  - right. split; [exact Hnone | reflexivity].
Qed.

(** C5: for every non-empty list of deals in the selected currency, the
    totals of the section satisfy: [totalValue] is the sum of the
    contract values, the bonus rate is the percentage of the matched
    tier divided by 100 (0 when no tier is reached),
    [bonus = totalValue * bonusRate] and
    [totalIncentive = sum of commissions + bonus]; and the section does
    end with these totals whenever the tier table carries its two
    columns. *)
Theorem sales_totals (currency : string) (df : Sales.DataFrame)
    (sales_rows : list Sales.Row) :
  Sales.df_view currency sales_rows <> [] ->
  (forall total_value total_comm bonus_rate bonus total_incentive,
     Sales.final_bonus currency df sales_rows
     = Sales.Totals total_value total_comm bonus_rate bonus total_incentive ->
     totals_spec (Sales.df_view currency sales_rows) (tiers_of df)
       total_value total_comm bonus_rate bonus total_incentive)
  /\ (tier_table_ok df = true ->
      exists total_value total_comm bonus_rate bonus total_incentive,
        Sales.final_bonus currency df sales_rows
        = Sales.Totals total_value total_comm bonus_rate bonus
            total_incentive).
Proof.
  intros Hne. destruct (tier_table_ok df) eqn:Hok.
  - rewrite (final_bonus_ok currency df sales_rows Hok).
    destruct (Sales.df_view currency sales_rows) as [| d deals] eqn:E;
      [contradiction |].
    cbv zeta. split.
    + intros tv tc br b ti [= <- <- <- <- <-].
      apply totals_spec_computed.
    + intros _. do 5 eexists. reflexivity.
  - split; [| discriminate].
    intros tv tc br b ti Heq.
    destruct (final_bonus_not_ok currency df sales_rows Hok) as [H | H];
      rewrite H in Heq; discriminate.
Qed.

Lemma sales_totals_witness :
  exists total_value total_comm bonus_rate bonus total_incentive,
    Sales.final_bonus "USD" Sales.default_tiers
      (Sales.add_build "USD" "2024-05-02" "Beta" 5000000 true
         (Sales.add_iru "USD" "2024-05-01" "Acme" 1000000 3 []))
    = Sales.Totals total_value total_comm bonus_rate bonus total_incentive
    /\ total_value == 6000000
    /\ total_comm == 117000
    /\ bonus_rate == 0.005
    /\ bonus == 30000
    /\ total_incentive == 147000.
Proof.
  destruct (sales_totals "USD" Sales.default_tiers
    (Sales.add_build "USD" "2024-05-02" "Beta" 5000000 true
       (Sales.add_iru "USD" "2024-05-01" "Acme" 1000000 3 [])))
    as (_ & Hends).
  - vm_compute. discriminate.
  - destruct (Hends eq_refl) as (tv & tc & br & b & ti & Heq).
    exists tv, tc, br, b, ti. split; [exact Heq |].
    vm_compute in Heq. injection Heq as <- <- <- <- <-.
    repeat split.
Defined.

(* ================================================================= *)
(** * Currency partitioning *)

Lemma table_shown_view (currency : string) (sales_rows : list Sales.Row) :
  Sales.table_shown currency sales_rows
  = match Sales.df_view currency sales_rows with
    | [] => false
    | _ :: _ => true
    end.
Proof.
  unfold Sales.table_shown. destruct sales_rows; reflexivity.
Qed.

Lemma final_bonus_view (currency : string) (df : Sales.DataFrame)
    (sales_rows sales_rows' : list Sales.Row) :
  Sales.df_view currency sales_rows' = Sales.df_view currency sales_rows ->
  Sales.final_bonus currency df sales_rows'
  = Sales.final_bonus currency df sales_rows.
Proof.
  intros H. unfold Sales.final_bonus. rewrite H. reflexivity.
Qed.

Lemma table_totals_view (currency : string)
    (sales_rows sales_rows' : list Sales.Row) :
  Sales.df_view currency sales_rows' = Sales.df_view currency sales_rows ->
  Sales.table_totals currency sales_rows'
  = Sales.table_totals currency sales_rows.
Proof.
  intros H. unfold Sales.table_totals. rewrite !table_shown_view, H.
  reflexivity.
Qed.

Lemma df_view_app_other (currency : string) (sales_rows : list Sales.Row)
    (d : Sales.Row) :
  Sales.Currency d <> currency ->
  Sales.df_view currency (sales_rows ++ [d]) = Sales.df_view currency sales_rows.
Proof.
  intros Hne. unfold Sales.df_view. rewrite filter_app. simpl.
  unfold Sales.in_currency at 2.
  apply String.eqb_neq in Hne. rewrite Hne. apply app_nil_r.
Qed.

(** C6: the totals and the bonus tier evaluation for a currency depend
    only on the saved deals of that currency; a deal appended under
    another currency, by any of the four "Add" handlers, leaves them
    unchanged. *)
Theorem currency_partitioning (currency other : string)
    (df : Sales.DataFrame) (sales_rows : list Sales.Row) :
  other <> currency ->
  (forall sales_rows',
     Sales.df_view currency sales_rows' = Sales.df_view currency sales_rows ->
     Sales.final_bonus currency df sales_rows'
     = Sales.final_bonus currency df sales_rows
     /\ Sales.table_totals currency sales_rows'
        = Sales.table_totals currency sales_rows)
  /\ (forall d, Sales.Currency d = other ->
        Sales.final_bonus currency df (sales_rows ++ [d])
        = Sales.final_bonus currency df sales_rows
        /\ Sales.table_totals currency (sales_rows ++ [d])
           = Sales.table_totals currency sales_rows)
  /\ (forall dt customer value pairs,
        let added := Sales.add_iru other dt customer value pairs sales_rows in
        Sales.final_bonus currency df added
        = Sales.final_bonus currency df sales_rows
        /\ Sales.table_totals currency added
           = Sales.table_totals currency sales_rows)
  /\ (forall dt customer value pairs,
        let added := Sales.add_lease other dt customer value pairs sales_rows in
        Sales.final_bonus currency df added
        = Sales.final_bonus currency df sales_rows
        /\ Sales.table_totals currency added
           = Sales.table_totals currency sales_rows)
  /\ (forall dt customer value prepay,
        let added := Sales.add_build other dt customer value prepay sales_rows in
        Sales.final_bonus currency df added
        = Sales.final_bonus currency df sales_rows
        /\ Sales.table_totals currency added
           = Sales.table_totals currency sales_rows)
  /\ (forall dt customer value d_type,
        let added := Sales.add_dc other dt customer value d_type sales_rows in
        Sales.final_bonus currency df added
        = Sales.final_bonus currency df sales_rows
        /\ Sales.table_totals currency added
           = Sales.table_totals currency sales_rows).
Proof.
  intros Hne.
  assert (Happ : forall d, Sales.Currency d = other ->
            Sales.df_view currency (sales_rows ++ [d])
            = Sales.df_view currency sales_rows).
  { intros d Hd. apply df_view_app_other. congruence. }
  split; [| split; [| repeat split]].
  - intros sales_rows' H. split.
    + apply final_bonus_view, H.
    + apply table_totals_view, H.
  - intros d Hd. split.
    + apply final_bonus_view, Happ, Hd.
    + apply table_totals_view, Happ, Hd.
  - apply final_bonus_view. apply Happ. reflexivity.
  - apply table_totals_view. apply Happ. reflexivity.
  - apply final_bonus_view. apply Happ. reflexivity.
  - apply table_totals_view. apply Happ. reflexivity.
  - apply final_bonus_view. apply Happ. reflexivity.
  - apply table_totals_view. apply Happ. reflexivity.
  - apply final_bonus_view. apply Happ. reflexivity.
  - apply table_totals_view. apply Happ. reflexivity.
Qed.

Lemma currency_partitioning_witness :
  Sales.final_bonus "RM" Sales.default_tiers
    (Sales.add_iru "USD" "2024-05-03" "Gamma" 9000000 2
       (Sales.add_dc "RM" "2024-05-01" "Delta" 2000000 "New 4%" []))
  = Sales.final_bonus "RM" Sales.default_tiers
      (Sales.add_dc "RM" "2024-05-01" "Delta" 2000000 "New 4%" []).
Proof.
  destruct (currency_partitioning "RM" "USD" Sales.default_tiers
    (Sales.add_dc "RM" "2024-05-01" "Delta" 2000000 "New 4%" []))
    as (_ & _ & Hiru & _).
  - discriminate.
  - apply Hiru.
Defined.

(* ================================================================= *)
(** * Degenerate tier tables *)

Lemma lookup_all_zero (tiers : list Sales.Tier) (total_value : Q) :
  (forall r, In r tiers -> snd r == 0) ->
  Sales.lookup_bonus_rate tiers total_value == 0.
Proof.
  intros Hz.
  destruct (lookup_bonus_rate_cases tiers total_value)
    as [(r & (Hin & _) & ->) | (_ & ->)].
  - rewrite (Hz r Hin). reflexivity.
  - reflexivity.
Qed.

(** C7, as stated, fails: a tier whose threshold cell does not parse
    keeps its percentage and is read with threshold 0, so the bonus rate
    and the bonus amount are not 0. *)
Lemma unparsable_threshold_keeps_rate :
  has_unparsable_cell
    {| Sales.columns :=
         ["Min Total Contract Value (inclusive)"; "Bonus % on Total"]%string;
       Sales.rows := [ [Sales.NaN; Sales.Num 0.5] ] |}
  /\ exists total_value total_comm bonus_rate bonus total_incentive,
       Sales.final_bonus "USD"
         {| Sales.columns :=
              ["Min Total Contract Value (inclusive)"; "Bonus % on Total"]%string;
            Sales.rows := [ [Sales.NaN; Sales.Num 0.5] ] |}
         (Sales.add_iru "USD" "2024-05-01" "Acme" 1000 1 [])
       = Sales.Totals total_value total_comm bonus_rate bonus total_incentive
       /\ bonus_rate == 0.005 /\ bonus == 5
       /\ ~ bonus_rate == 0 /\ ~ bonus == 0.
Proof.
  split.
  - eexists. split; [left; reflexivity | left; reflexivity].
  - do 5 eexists. split; [vm_compute; reflexivity |].
    repeat split; vm_compute; discriminate.
Qed.

(** C7 (amended): on a tier table that carries its two columns, the
    bonus computation never fails, whatever the cells hold: a cell that
    does not parse as a number is read as 0 (threshold 0, or bonus
    percentage 0), and the totals are produced for every non-empty list
    of deals.  The bonus rate and the bonus amount are 0, and the total
    incentive is the commission total, when the tier set is empty or
    when no Bonus % cell parses. *)
Theorem degenerate_tier_table (currency : string) (df : Sales.DataFrame)
    (sales_rows : list Sales.Row) :
  tier_table_ok df = true ->
  tiers_of df
  = map (fun r =>
           (cell_value (Sales.get (norm_columns df) r Sales.MIN_COL),
            cell_value (Sales.get (norm_columns df) r Sales.BONUS_COL)))
        (Sales.rows df)
  /\ cell_value Sales.NaN == 0
  /\ (Sales.df_view currency sales_rows = [] ->
      Sales.final_bonus currency df sales_rows = Sales.No_rows)
  /\ (Sales.df_view currency sales_rows <> [] ->
      exists total_value total_comm bonus_rate bonus total_incentive,
        Sales.final_bonus currency df sales_rows
        = Sales.Totals total_value total_comm bonus_rate bonus total_incentive
        /\ total_value
           == sigma Sales.Contract_Value (Sales.df_view currency sales_rows)
        /\ total_comm
           == sigma Sales.Commission (Sales.df_view currency sales_rows)
        /\ bonus_rate = Sales.lookup_bonus_rate (tiers_of df) total_value
        /\ bonus == total_value * bonus_rate
        /\ total_incentive == total_comm + bonus
        /\ (Sales.rows df = [] ->
            bonus_rate == 0 /\ bonus == 0 /\ total_incentive == total_comm)
        /\ ((forall r, In r (Sales.rows df) ->
               Sales.get (norm_columns df) r Sales.BONUS_COL = Sales.NaN) ->
            bonus_rate == 0 /\ bonus == 0 /\ total_incentive == total_comm)).
Proof.
  intros Hok. split; [apply tiers_of_rows, Hok |]. split; [reflexivity |].
  rewrite (final_bonus_ok currency df sales_rows Hok).
  split.
  - intros ->. reflexivity.
  - intros Hne.
    destruct (Sales.df_view currency sales_rows) as [| d deals] eqn:E;
      [contradiction |].
    cbv zeta. do 5 eexists. split; [reflexivity |].
    split; [apply sum_sigma |]. split; [apply sum_sigma |].
    split; [reflexivity |]. split; [reflexivity |]. split; [reflexivity |].
    assert (Hzero : forall tv,
              (forall r, In r (Sales.rows df) ->
                 Sales.get (norm_columns df) r Sales.BONUS_COL = Sales.NaN) ->
              Sales.lookup_bonus_rate (tiers_of df) tv == 0).
    { intros tv Hnan. apply lookup_all_zero.
      rewrite (tiers_of_rows df Hok). intros r Hr.
      apply in_map_iff in Hr. destruct Hr as (cells & <- & Hin).
      simpl. rewrite (Hnan cells Hin). reflexivity. }
    split.
    + intros Hempty.
      assert (Hz := Hzero (Py.sum (map Sales.Contract_Value (d :: deals)))).
      rewrite Hempty in Hz. specialize (Hz (fun r (H : In r []) => match H with end)).
      rewrite Hz. repeat split; ring.
    + intros Hnan.
      rewrite (Hzero (Py.sum (map Sales.Contract_Value (d :: deals))) Hnan).
      repeat split; ring.
Qed.

Lemma degenerate_tier_table_witness :
  exists total_value total_comm bonus_rate bonus total_incentive,
    Sales.final_bonus "USD"
      {| Sales.columns :=
           ["Min Total Contract Value (inclusive)"; "Bonus % on Total"]%string;
         Sales.rows := [ [Sales.Num 0; Sales.NaN];
                         [Sales.NaN; Sales.NaN] ] |}
      (Sales.add_iru "USD" "2024-05-01" "Acme" 1000 1 [])
    = Sales.Totals total_value total_comm bonus_rate bonus total_incentive
    /\ bonus_rate == 0 /\ bonus == 0 /\ total_incentive == total_comm.
Proof.
  destruct (degenerate_tier_table "USD"
    {| Sales.columns :=
         ["Min Total Contract Value (inclusive)"; "Bonus % on Total"]%string;
       Sales.rows := [ [Sales.Num 0; Sales.NaN];
                       [Sales.NaN; Sales.NaN] ] |}
    (Sales.add_iru "USD" "2024-05-01" "Acme" 1000 1 []))
    as (_ & _ & _ & H).
  - reflexivity.
  - destruct H as (tv & tc & br & b & ti & Heq & _ & _ & _ & _ & _ & _ & Hnan).
    + vm_compute. discriminate.
    + exists tv, tc, br, b, ti. split; [exact Heq |].
      apply Hnan. intros r [<- | [<- | []]]; reflexivity.
Defined.

(* ================================================================= *)
(** * Deleting ticked rows *)

Lemma keep_cur_from_subsequence (i : nat) (ticked_nos : list nat)
    (cur_rows : list Sales.Row) :
  Subsequence (Sales.keep_cur_from i ticked_nos cur_rows) cur_rows.
Proof.
  revert i. induction cur_rows as [| r rest IH]; intros i; simpl.
  - constructor.
  - destruct (negb (existsb (Nat.eqb (i + 1)) ticked_nos)).
    + apply Subsequence_keep, IH.
    + apply Subsequence_skip, IH.
Qed.

Lemma keep_cur_from_nil (i : nat) (cur_rows : list Sales.Row) :
  Sales.keep_cur_from i [] cur_rows = cur_rows.
Proof.
  revert i. induction cur_rows as [| r rest IH]; intros i; simpl.
  - reflexivity.
  - rewrite IH. reflexivity.
Qed.

Lemma Subsequence_In {A : Type} (l1 l2 : list A) (x : A) :
  Subsequence l1 l2 -> In x l1 -> In x l2.
Proof.
  induction 1 as [| y l1 l2 _ IH | y l1 l2 _ IH]; simpl.
  - tauto.
  - intros H. right. apply IH, H.
  - intros [-> | H]; [left; reflexivity | right; apply IH, H].
Qed.

Lemma filter_all {A : Type} (p : A -> bool) (l : list A) :
  (forall x, In x l -> p x = true) -> filter p l = l.
Proof.
  induction l as [| x l IH]; simpl; intros H; [reflexivity |].
  rewrite (H x (or_introl eq_refl)). f_equal. apply IH.
  intros y Hy. apply H. right. exact Hy.
Qed.

Lemma filter_none {A : Type} (p : A -> bool) (l : list A) :
  (forall x, In x l -> p x = false) -> filter p l = [].
Proof.
  induction l as [| x l IH]; simpl; intros H; [reflexivity |].
  rewrite (H x (or_introl eq_refl)). apply IH.
  intros y Hy. apply H. right. exact Hy.
Qed.

Lemma kept_in_currency (currency : string) (ticked_nos : list nat)
    (sales_rows : list Sales.Row) (r : Sales.Row) :
  In r (Sales.keep_cur_from 0 ticked_nos (Sales.df_view currency sales_rows)) ->
  Sales.in_currency currency r = true.
Proof.
  intros H.
  apply (Subsequence_In _ _ _ (keep_cur_from_subsequence _ _ _)) in H.
  unfold Sales.df_view in H. apply filter_In in H. apply H.
Qed.

Lemma other_none_in_view (currency : string) (sales_rows : list Sales.Row) :
  Sales.df_view currency sales_rows = [] ->
  filter (other_currency currency) sales_rows = sales_rows.
Proof.
  unfold Sales.df_view, other_currency.
  induction sales_rows as [| r rest IH]; simpl; [reflexivity |].
  destruct (Sales.in_currency currency r); simpl; [discriminate |].
  intros H. f_equal. apply IH, H.
Qed.

Lemma rearranged_others (currency : string) (ticked_nos : list nat)
    (sales_rows : list Sales.Row) :
  filter (other_currency currency)
    (filter (other_currency currency) sales_rows
     ++ Sales.keep_cur_from 0 ticked_nos (Sales.df_view currency sales_rows))
  = filter (other_currency currency) sales_rows.
Proof.
  rewrite filter_app.
  rewrite (filter_all _ (filter _ sales_rows))
    by (intros x Hx; apply filter_In in Hx; apply Hx).
  rewrite (filter_none _ (Sales.keep_cur_from _ _ _)).
  - apply app_nil_r.
  - intros x Hx. unfold other_currency.
    rewrite (kept_in_currency _ _ _ _ Hx). reflexivity.
Qed.

Lemma rearranged_view (currency : string) (ticked_nos : list nat)
    (sales_rows : list Sales.Row) :
  Sales.df_view currency
    (filter (other_currency currency) sales_rows
     ++ Sales.keep_cur_from 0 ticked_nos (Sales.df_view currency sales_rows))
  = Sales.keep_cur_from 0 ticked_nos (Sales.df_view currency sales_rows).
Proof.
  unfold Sales.df_view at 1. rewrite filter_app.
  rewrite (filter_none _ (filter _ sales_rows)).
  - simpl. apply filter_all. intros x Hx.
    exact (kept_in_currency _ _ _ _ Hx).
  - intros x Hx. apply filter_In in Hx. destruct Hx as [_ Hx].
    unfold other_currency in Hx. apply negb_true_iff in Hx. exact Hx.
Qed.

Lemma press_delete_ticked (currency : string) (ticked_nos : list nat)
    (sales_rows : list Sales.Row) :
  ticked_nos <> [] ->
  Sales.press currency (Sales.Delete_ticked ticked_nos) sales_rows
  = filter (other_currency currency) sales_rows
    ++ Sales.keep_cur_from 0 ticked_nos (Sales.df_view currency sales_rows).
Proof.
  intros Hne. unfold Sales.press. rewrite table_shown_view.
  destruct (Sales.df_view currency sales_rows) as [| d deals] eqn:E.
  - simpl. rewrite app_nil_r. symmetry. apply other_none_in_view, E.
  - unfold Sales.delete_ticked.
    destruct ticked_nos as [| n rest]; [contradiction |].
    fold (Sales.df_view currency sales_rows). rewrite E. reflexivity.
Qed.

Lemma press_delete_nothing (currency : string) (sales_rows : list Sales.Row) :
  Sales.press currency (Sales.Delete_ticked []) sales_rows = sales_rows.
Proof.
  unfold Sales.press. destruct (Sales.table_shown currency sales_rows);
    reflexivity.
Qed.

(** C10, as stated, fails when no row is ticked: the handler then only
    warns and leaves the saved list as it is, so a deal of another
    currency that follows a deal of the selected currency stays behind
    it. *)
Lemma delete_nothing_keeps_interleaving :
  Sales.press "RM" (Sales.Delete_ticked [])
    (Sales.add_iru "USD" "2024-05-02" "Beta" 2000 1
       (Sales.add_iru "RM" "2024-05-01" "Acme" 1000 1 []))
  = Sales.add_iru "USD" "2024-05-02" "Beta" 2000 1
      (Sales.add_iru "RM" "2024-05-01" "Acme" 1000 1 [])
  /\ Sales.press "RM" (Sales.Delete_ticked [])
       (Sales.add_iru "USD" "2024-05-02" "Beta" 2000 1
          (Sales.add_iru "RM" "2024-05-01" "Acme" 1000 1 []))
     <> filter (other_currency "RM")
          (Sales.add_iru "USD" "2024-05-02" "Beta" 2000 1
             (Sales.add_iru "RM" "2024-05-01" "Acme" 1000 1 []))
        ++ Sales.keep_cur_from 0 []
             (Sales.df_view "RM"
                (Sales.add_iru "USD" "2024-05-02" "Beta" 2000 1
                   (Sales.add_iru "RM" "2024-05-01" "Acme" 1000 1 []))).
Proof.
  split.
  - reflexivity.
  - vm_compute. discriminate.
Qed.

(** C10 (amended): for every "Delete ticked rows" action under currency
    [c], every saved deal of another currency is retained unchanged and
    in order, and the surviving deals of [c] keep their relative order.
    With at least one row ticked, the saved list becomes the deals of
    the other currencies followed by the kept deals of [c], so the
    interleaving across currencies is not preserved; with no row ticked
    the saved list is left as it is. *)
Theorem delete_ticked_frame (currency : string) (ticked_nos : list nat)
    (sales_rows : list Sales.Row) :
  let saved :=
    Sales.press currency (Sales.Delete_ticked ticked_nos) sales_rows in
  let keep_cur :=
    Sales.keep_cur_from 0 ticked_nos (Sales.df_view currency sales_rows) in
  filter (other_currency currency) saved
  = filter (other_currency currency) sales_rows
  /\ Sales.df_view currency saved = keep_cur
  /\ Subsequence keep_cur (Sales.df_view currency sales_rows)
  /\ (ticked_nos <> [] ->
      saved = filter (other_currency currency) sales_rows ++ keep_cur)
  /\ (ticked_nos = [] -> saved = sales_rows).
Proof.
  cbv zeta. destruct ticked_nos as [| n rest].
  - rewrite press_delete_nothing, keep_cur_from_nil.
    split; [reflexivity |]. split; [reflexivity |].
    split; [| split; [congruence | reflexivity]].
    rewrite <- (keep_cur_from_nil 0 (Sales.df_view currency sales_rows)) at 1.
    apply keep_cur_from_subsequence.
  - rewrite press_delete_ticked by discriminate.
    split; [apply rearranged_others |]. split; [apply rearranged_view |].
    split; [apply keep_cur_from_subsequence |].
    split; [reflexivity | discriminate].
Qed.

Lemma delete_ticked_frame_witness :
  Sales.press "RM" (Sales.Delete_ticked [1%nat])
    (Sales.add_iru "RM" "2024-05-03" "Gamma" 3000 1
       (Sales.add_iru "USD" "2024-05-02" "Beta" 2000 1
          (Sales.add_iru "RM" "2024-05-01" "Acme" 1000 1 [])))
  = Sales.add_iru "RM" "2024-05-03" "Gamma" 3000 1
      (Sales.add_iru "USD" "2024-05-02" "Beta" 2000 1 []).
Proof.
  destruct (delete_ticked_frame "RM" [1%nat]
    (Sales.add_iru "RM" "2024-05-03" "Gamma" 3000 1
       (Sales.add_iru "USD" "2024-05-02" "Beta" 2000 1
          (Sales.add_iru "RM" "2024-05-01" "Acme" 1000 1 []))))
    as (_ & _ & _ & H & _).
  rewrite H by discriminate. reflexivity.
Defined.

(* ================================================================= *)
(** * Manager Part A *)

Lemma part_a_fold (ontime_projects : Z) (tiers : list PM.TierRow)
    (acc : Q * list PM.BreakdownRow) :
  fst (fold_left (PM.part_a_step ontime_projects) tiers acc)
  == fst acc + graduated_payout ontime_projects tiers.
Proof.
  revert acc. induction tiers as [| t rest IH]; intros acc; simpl.
  - ring.
  - rewrite IH. unfold PM.part_a_step, counted_in_range.
    destruct (Z.ltb_spec ontime_projects (PM.From t)) as [Hlt | Hge].
    + destruct (Z.leb_spec (PM.From t) ontime_projects) as [Hle | _];
        [lia | ring].
    + destruct (Z.leb_spec (PM.From t) ontime_projects) as [_ | Hlt];
        [simpl; ring | lia].
Qed.

Lemma graduated_payout_perm (ontime_count : Z) (l l' : list PM.TierRow) :
  Permutation l l' ->
  graduated_payout ontime_count l == graduated_payout ontime_count l'.
Proof.
  induction 1 as [| t l l' _ IH | t u l | l l' l'' _ IH1 _ IH2]; simpl.
  - reflexivity.
  - rewrite IH. reflexivity.
  - ring.
  - rewrite IH1. exact IH2.
Qed.

(** C4: Manager Part A is a graduated payout: for every [ontimeCount >= 0]
    and every list of range tiers, the payout is the sum, over the ranges
    with [ontimeCount >= from], of
    [max(min(ontimeCount, to) - from + 1, 0) * ratePerProject]; with the
    ranges [1,3]@500, [4,6]@700, [7,9999]@900 and 5 projects on time it
    is [3*500 + 2*700 = 2900]. *)
Theorem part_a_graduated (ontime_projects : Z) (tiers : list PM.TierRow) :
  (0 <= ontime_projects)%Z ->
  PM.part_a_bonus ontime_projects tiers
  == graduated_payout ontime_projects tiers
  /\ PM.part_a_bonus 5 PM.tiers_default == 3 * 500 + 2 * 700
  /\ PM.part_a_bonus 5 PM.tiers_default == 2900.
Proof.
  intros _. split; [| split; reflexivity].
  unfold PM.part_a_bonus, PM.part_a. rewrite part_a_fold. simpl fst.
  rewrite (graduated_payout_perm ontime_projects _ tiers)
    by apply sort_values_perm.
  ring.
Qed.

Lemma part_a_graduated_witness :
  PM.part_a_bonus 8
    [ {| PM.Tier := "Tier 3"; PM.From := 7; PM.To := 9999;
         PM.Rate_per_project := 900.0 |};
      {| PM.Tier := "Tier 1"; PM.From := 1; PM.To := 3;
         PM.Rate_per_project := 500.0 |};
      {| PM.Tier := "Tier 2"; PM.From := 4; PM.To := 6;
         PM.Rate_per_project := 700.0 |} ]
  == 2 * 900 + 3 * 500 + 3 * 700.
Proof.
  destruct (part_a_graduated 8
    [ {| PM.Tier := "Tier 3"; PM.From := 7; PM.To := 9999;
         PM.Rate_per_project := 900.0 |};
      {| PM.Tier := "Tier 1"; PM.From := 1; PM.To := 3;
         PM.Rate_per_project := 500.0 |};
      {| PM.Tier := "Tier 2"; PM.From := 4; PM.To := 6;
         PM.Rate_per_project := 700.0 |} ]) as (H & _).
  - lia.
  - rewrite H. reflexivity.
Defined.

(* ================================================================= *)
(** * Rounding *)

Lemma round_half_even_bounds (x : Q) :
  (Qfloor x <= Py.round_half_even x <= Qfloor x + 1)%Z.
Proof.
  unfold Py.round_half_even.
  destruct (x - inject_Z (Qfloor x) ?= 1 # 2); try lia.
  destruct (Z.even (Qfloor x)); lia.
Qed.

Lemma round_half_even_Z (z : Z) : Py.round_half_even (inject_Z z) = z.
Proof.
  unfold Py.round_half_even. rewrite Qfloor_Z.
  assert (H : (inject_Z z - inject_Z z ?= 1 # 2) = Lt).
  { apply (proj1 (Qlt_alt _ _)). generalize (inject_Z z). intros q. lra. }
  rewrite H. reflexivity.
Qed.

Lemma round_half_even_mono (x y : Q) :
  x <= y -> (Py.round_half_even x <= Py.round_half_even y)%Z.
Proof.
  intros Hxy.
  assert (Hf := Qfloor_resp_le x y Hxy).
  assert (Hbx := round_half_even_bounds x).
  assert (Hby := round_half_even_bounds y).
  destruct (Z.eq_dec (Qfloor x) (Qfloor y)) as [Heq | Hne]; [| lia].
  unfold Py.round_half_even. rewrite <- Heq.
  destruct (x - inject_Z (Qfloor x) ?= 1 # 2) eqn:Ex;
    destruct (y - inject_Z (Qfloor x) ?= 1 # 2) eqn:Ey;
    try (destruct (Z.even (Qfloor x))); try lia;
    try apply (proj2 (Qeq_alt _ _)) in Ex;
    try apply (proj2 (Qlt_alt _ _)) in Ex;
    try apply (proj2 (Qgt_alt _ _)) in Ex;
    try apply (proj2 (Qeq_alt _ _)) in Ey;
    try apply (proj2 (Qlt_alt _ _)) in Ey;
    try apply (proj2 (Qgt_alt _ _)) in Ey;
    exfalso; lra.
Qed.

Lemma round_half_even_comp (x y : Q) :
  x == y -> Py.round_half_even x = Py.round_half_even y.
Proof.
  intros E. apply Z.le_antisymm; apply round_half_even_mono; lra.
Qed.

Lemma round_mono (x y : Q) (ndigits : nat) :
  x <= y -> Py.round x ndigits <= Py.round y ndigits.
Proof.
  intros Hxy. unfold Py.round.
  assert (Hp : (0 < 10 ^ Z.of_nat ndigits)%Z) by (apply Z.pow_pos_nonneg; lia).
  set (p := (10 ^ Z.of_nat ndigits)%Z) in *.
  assert (HpQ : 0 < inject_Z p)
    by (change 0 with (inject_Z 0); rewrite <- Zlt_Qlt; exact Hp).
  apply Qmult_le_compat_r.
  - rewrite <- Zle_Qle. apply round_half_even_mono.
    apply Qmult_le_compat_r; [exact Hxy | lra].
  - apply Qlt_le_weak, Qinv_lt_0_compat, HpQ.
Qed.

Lemma round_Z (z : Z) (ndigits : nat) : Py.round (inject_Z z) ndigits == inject_Z z.
Proof.
  unfold Py.round.
  assert (Hp : (0 < 10 ^ Z.of_nat ndigits)%Z) by (apply Z.pow_pos_nonneg; lia).
  set (p := (10 ^ Z.of_nat ndigits)%Z) in *.
  assert (HpQ : 0 < inject_Z p)
    by (change 0 with (inject_Z 0); rewrite <- Zlt_Qlt; exact Hp).
  assert (E : inject_Z z * inject_Z p == inject_Z (z * p))
    by (rewrite inject_Z_mult; reflexivity).
  rewrite (round_half_even_comp _ _ E), round_half_even_Z, inject_Z_mult.
  field. lra.
Qed.

Lemma round_half_even_error (x : Q) :
  Qabs (inject_Z (Py.round_half_even x) - x) <= 1 # 2.
Proof.
  assert (Hlo := Qfloor_le x). assert (Hhi := Qlt_floor x).
  rewrite inject_Z_plus in Hhi. change (inject_Z 1) with 1 in Hhi.
  unfold Py.round_half_even.
  destruct (x - inject_Z (Qfloor x) ?= 1 # 2) eqn:E.
  - apply (proj2 (Qeq_alt _ _)) in E.
    destruct (Z.even (Qfloor x)); [| rewrite inject_Z_plus];
      change (inject_Z 1) with 1; revert Hlo Hhi E;
      generalize (inject_Z (Qfloor x)); intros f Hlo Hhi E;
      apply Qabs_Qle_condition; split; lra.
  - apply (proj2 (Qlt_alt _ _)) in E. revert Hlo Hhi E.
    generalize (inject_Z (Qfloor x)). intros f Hlo Hhi E.
    apply Qabs_Qle_condition; split; lra.
  - apply (proj2 (Qgt_alt _ _)) in E. rewrite inject_Z_plus.
    change (inject_Z 1) with 1. revert Hlo Hhi E.
    generalize (inject_Z (Qfloor x)). intros f Hlo Hhi E.
    apply Qabs_Qle_condition; split; lra.
Qed.

Lemma round_2_error (x : Q) : Qabs (Py.round x 2 - x) <= 0.005.
Proof.
  unfold Py.round. change (inject_Z (10 ^ Z.of_nat 2)) with 100.
  assert (H := round_half_even_error (x * 100)).
  apply Qabs_Qle_condition in H. revert H.
  generalize (inject_Z (Py.round_half_even (x * 100))). intros r [H1 H2].
  apply Qabs_Qle_condition. split; qlra.
Qed.

(* ================================================================= *)
(** * The bonus-month curve *)

(** The curve of both branches before rounding. *)
Lemma curve_range (k : Q) :
  1 <= Qmin (if Py.Qlt_bool k 0.5 then 1.0
             else 1.0 + 5.0 * ((k - 0.5) / 0.5)) 6.0 <= 6.
Proof.
  split.
  - apply Q.min_glb; [| lra].
    destruct (Py.Qlt_bool k 0.5) eqn:E; [lra |].
    apply Qlt_bool_false in E. qlra.
  - eapply Qle_trans; [apply Q.le_min_r | lra].
Qed.

Lemma curve_mono (a b : Q) :
  a <= b ->
  Qmin (if Py.Qlt_bool a 0.5 then 1.0
        else 1.0 + 5.0 * ((a - 0.5) / 0.5)) 6.0
  <= Qmin (if Py.Qlt_bool b 0.5 then 1.0
           else 1.0 + 5.0 * ((b - 0.5) / 0.5)) 6.0.
Proof.
  intros Hab. apply Q.min_le_compat_r.
  destruct (Py.Qlt_bool a 0.5) eqn:Ea; destruct (Py.Qlt_bool b 0.5) eqn:Eb;
    try apply Qlt_bool_true in Ea; try apply Qlt_bool_false in Ea;
    try apply Qlt_bool_true in Eb; try apply Qlt_bool_false in Eb;
    qlra.
Qed.

Lemma pm_bonus_months_range (k : Q) : 1 <= PM.bonus_months k <= 6.
Proof.
  unfold PM.bonus_months. cbv zeta.
  destruct (curve_range k) as [H1 H6]. split.
  - rewrite <- (round_Z 1 2). apply round_mono. exact H1.
  - rewrite <- (round_Z 6 2). apply round_mono. exact H6.
Qed.

Lemma pm_bonus_months_mono (a b : Q) :
  a <= b -> PM.bonus_months a <= PM.bonus_months b.
Proof.
  intros Hab. unfold PM.bonus_months. cbv zeta.
  apply round_mono, curve_mono, Hab.
Qed.

Lemma dt_bonus_months_pm (k : Q) : DT.bonus_months k = PM.bonus_months k.
Proof. reflexivity. Qed.

(** C3: in both branches the curve is the same function; it gives 1.0 at
    0.5 and 6.0 at 1.0, is monotonic non-decreasing over [0, 1] and
    always lies in [1.0, 6.0].  It is 1.0 below 0.5; from 0.5 on it is
    [1.0 + 5.0 * (kpiFraction - 0.5) / 0.5] capped at 6.0, rounded to 2
    decimals: a whole number of hundredths at most 0.005 away from
    that value. *)
Theorem bonus_month_curve :
  (forall k, DT.bonus_months k = PM.bonus_months k)
  /\ PM.bonus_months 0.5 == 1.0
  /\ PM.bonus_months 1.0 == 6.0
  /\ (forall a b, 0 <= a -> a <= b -> b <= 1 ->
        PM.bonus_months a <= PM.bonus_months b)
  /\ (forall k, 1.0 <= PM.bonus_months k <= 6.0)
  /\ (forall k, k < 0.5 -> PM.bonus_months k == 1.0)
  /\ (forall k, 0.5 <= k ->
        Qabs (PM.bonus_months k
              - Qmin (1.0 + 5.0 * (k - 0.5) / 0.5) 6.0) <= 0.005)
  /\ (forall k, exists z : Z, PM.bonus_months k == inject_Z z / 100).
Proof.
  split; [exact dt_bonus_months_pm |].
  split; [reflexivity |]. split; [reflexivity |].
  split; [intros a b _ Hab _; apply pm_bonus_months_mono, Hab |].
  split; [intros k; destruct (pm_bonus_months_range k); split; lra |].
  split; [| split].
  - intros k Hk. unfold PM.bonus_months. cbv zeta.
    apply Qlt_bool_true in Hk. rewrite Hk. reflexivity.
  - intros k Hk. unfold PM.bonus_months. cbv zeta.
    apply Qlt_bool_false in Hk. rewrite Hk.
    assert (E : 1.0 + 5.0 * ((k - 0.5) / 0.5) == 1.0 + 5.0 * (k - 0.5) / 0.5)
      by (field; discriminate).
    assert (E' : Qmin (1.0 + 5.0 * ((k - 0.5) / 0.5)) 6.0
                 == Qmin (1.0 + 5.0 * (k - 0.5) / 0.5) 6.0)
      by (rewrite E; reflexivity).
    assert (H := round_2_error (Qmin (1.0 + 5.0 * ((k - 0.5) / 0.5)) 6.0)).
    apply Qabs_Qle_condition in H. apply Qabs_Qle_condition.
    revert H E'.
    generalize (Py.round (Qmin (1.0 + 5.0 * ((k - 0.5) / 0.5)) 6.0) 2).
    generalize (Qmin (1.0 + 5.0 * ((k - 0.5) / 0.5)) 6.0).
    generalize (Qmin (1.0 + 5.0 * (k - 0.5) / 0.5) 6.0).
    intros m' m r H E'. split; lra.
  - intros k. eexists. unfold PM.bonus_months, Py.round. cbv zeta.
    change (inject_Z (10 ^ Z.of_nat 2)) with 100. reflexivity.
Qed.

Lemma bonus_month_curve_witness :
  PM.bonus_months 0.6 <= PM.bonus_months 0.9
  /\ PM.bonus_months 0.3 == 1.0
  /\ Qabs (PM.bonus_months 0.75
           - Qmin (1.0 + 5.0 * (0.75 - 0.5) / 0.5) 6.0) <= 0.005.
Proof.
  destruct bonus_month_curve as (_ & _ & _ & Hmono & _ & Hlow & Hhi & _).
  split; [| split].
  - apply Hmono; lra.
  - apply Hlow. lra.
  - apply Hhi. lra.
Defined.

(* ================================================================= *)
(** * KPI totals *)

Lemma pm_clamp_range (x : Q) : 0 <= PM.clamp_0_100 x <= 100.
Proof.
  unfold PM.clamp_0_100. split.
  - apply Q.le_max_l.
  - apply Q.max_lub; [lra | apply Q.le_min_l].
Qed.

Lemma dt_clamp_range (x : Q) : 0 <= DT.clamp_0_100 x <= 100.
Proof. apply pm_clamp_range. Qed.

Lemma flag_range (b : bool) : 0 <= (if b then 100.0 else 0.0) <= 100.
Proof. destruct b; lra. Qed.

Lemma flags_mean_range (b c : bool) :
  0 <= ((if b then 100.0 else 0.0) + (if c then 100.0 else 0.0)) / 2.0 <= 100.
Proof. destruct b, c; qlra. Qed.

Lemma pm_ontime_header_range (i : PM.Inputs) :
  0 <= PM.ontime_header_score i <= 100.
Proof.
  unfold PM.ontime_header_score, PM.milestone_score, PM.timeline_score.
  destruct (pm_clamp_range (PM.milestone_on_schedule_pct i)).
  destruct (pm_clamp_range (100.0 - 5.0 * PM.delay_days i)).
  qlra.
Qed.

Lemma pm_KPI_total_range (i : PM.Inputs) : 0 <= PM.KPI_total i <= 100.
Proof.
  unfold PM.KPI_total.
  destruct (pm_ontime_header_range i).
  destruct (pm_clamp_range
              (let q := 100.0 in
               let q := if PM.otdr_fail i then q - 50.0 else q in
               if negb (PM.no_major_defect_60 i) then q - 50.0 else q))
    as [Hq0 Hq1].
  change (0 <= PM.quality_score i) in Hq0.
  change (PM.quality_score i <= 100) in Hq1.
  destruct (flags_mean_range (PM.activation_no_dispute i)
              (PM.no_sla_penalty_60 i)) as [Hc0 Hc1].
  change (0 <= PM.cust_score i) in Hc0. change (PM.cust_score i <= 100) in Hc1.
  destruct (flags_mean_range (PM.no_authority_penalty i)
              (PM.no_safety_incident i)) as [Hs0 Hs1].
  change (0 <= PM.comp_score i) in Hs0. change (PM.comp_score i <= 100) in Hs1.
  destruct (flags_mean_range (PM.weekly_reporting i)
              (PM.accurate_tracking i)) as [Hi0 Hi1].
  change (0 <= PM.internal_score i) in Hi0.
  change (PM.internal_score i <= 100) in Hi1.
  lra.
Qed.

Lemma dt_ontime_range (i : DT.Inputs) : 0 <= DT.ontime_score i <= 100.
Proof.
  unfold DT.ontime_score, DT.milestone_score, DT.delay_score,
    DT.critical_score.
  destruct (dt_clamp_range (DT.milestone_on_schedule_pct i)).
  destruct (dt_clamp_range (100.0 - 5.0 * DT.delay_days i)).
  destruct (flag_range (DT.no_missed_critical i)).
  qlra.
Qed.

Lemma dt_budget_range (i : DT.Inputs) : 0 <= DT.budget_score i <= 100.
Proof.
  unfold DT.budget_score, DT.wastage_score, DT.vo_score.
  assert (Hv : 0 <= DT.variance_score i <= 100).
  { unfold DT.variance_score.
    destruct (Qle_bool (DT.cost_variance_pct i) 0);
      [lra | apply dt_clamp_range]. }
  destruct Hv.
  destruct (flag_range (DT.material_wastage_ok i)).
  destruct (flag_range (DT.vo_approved_only i)).
  qlra.
Qed.

Lemma dt_KPI_total_range (i : DT.Inputs) : 0 <= DT.KPI_total i <= 100.
Proof.
  unfold DT.KPI_total.
  destruct (dt_ontime_range i). destruct (dt_budget_range i).
  destruct (dt_clamp_range
              (let q := 100.0 in
               let q := if DT.otdr_fail i then q - 40.0 else q in
               let q := if DT.rework_due_to_team i then q - 40.0 else q in
               if negb (DT.no_major_defect_60 i) then q - 20.0 else q))
    as [Hq0 Hq1].
  change (0 <= DT.quality_score i) in Hq0.
  change (DT.quality_score i <= 100) in Hq1.
  destruct (flags_mean_range (DT.no_safety_incident i)
              (DT.no_authority_penalty i)) as [Hs0 Hs1].
  change (0 <= DT.safety_score i) in Hs0.
  change (DT.safety_score i <= 100) in Hs1.
  destruct (flags_mean_range (DT.weekly_reporting i)
              (DT.accurate_tracking i)) as [Hr0 Hr1].
  change (0 <= DT.reporting_score i) in Hr0.
  change (DT.reporting_score i <= 100) in Hr1.
  lra.
Qed.

(** C9: for every set of inputs the KPI total of the Project Manager
    and of the Delivery Team lies in [0, 100]; the weights
    0.40/0.20/0.15/0.15/0.10 and 0.35/0.25/0.20/0.15/0.05 sum to 1.0
    and every factor score lies in [0, 100]; and the bonus months
    derived from the KPI lie in [1.00, 6.00]. *)
Theorem kpi_total_range :
  0.40 + 0.20 + 0.15 + 0.15 + 0.10 == 1.0
  /\ 0.35 + 0.25 + 0.20 + 0.15 + 0.05 == 1.0
  /\ (forall i : PM.Inputs,
        0 <= PM.ontime_header_score i <= 100
        /\ 0 <= PM.quality_score i <= 100
        /\ 0 <= PM.cust_score i <= 100
        /\ 0 <= PM.comp_score i <= 100
        /\ 0 <= PM.internal_score i <= 100
        /\ 0 <= PM.KPI_total i <= 100
        /\ 1.00 <= PM.bonus_months (PM.kpi_score i) <= 6.00)
  /\ (forall i : DT.Inputs,
        0 <= DT.ontime_score i <= 100
        /\ 0 <= DT.budget_score i <= 100
        /\ 0 <= DT.quality_score i <= 100
        /\ 0 <= DT.safety_score i <= 100
        /\ 0 <= DT.reporting_score i <= 100
        /\ 0 <= DT.KPI_total i <= 100
        /\ 1.00 <= DT.bonus_months (DT.kpi_score i) <= 6.00).
Proof.
  split; [reflexivity |]. split; [reflexivity |]. split.
  - intros i.
    split; [apply pm_ontime_header_range |].
    split; [apply pm_clamp_range |].
    split; [apply flags_mean_range |].
    split; [apply flags_mean_range |].
    split; [apply flags_mean_range |].
    split; [apply pm_KPI_total_range |].
    destruct (pm_bonus_months_range (PM.kpi_score i)). split; lra.
  - intros i.
    split; [apply dt_ontime_range |].
    split; [apply dt_budget_range |].
    split; [apply dt_clamp_range |].
    split; [apply flags_mean_range |].
    split; [apply flags_mean_range |].
    split; [apply dt_KPI_total_range |].
    rewrite dt_bonus_months_pm.
    destruct (pm_bonus_months_range (DT.kpi_score i)). split; lra.
Qed.

(* ================================================================= *)
(** * Rates of the four categories *)

Lemma inject_Z_pred (p : Z) : inject_Z (p - 1) == inject_Z p - 1.
Proof.
  unfold Z.sub. rewrite inject_Z_plus. reflexivity.
Qed.

Lemma extra_pairs_low (p : Z) : (p <= 1)%Z -> Z.max (p - 1) 0 = 0%Z.
Proof. intros H. apply Z.max_r. lia. Qed.

Lemma extra_pairs_high (p : Z) : (1 <= p)%Z -> Z.max (p - 1) 0 = (p - 1)%Z.
Proof. intros H. apply Z.max_l. lia. Qed.

Lemma iru_rate_closed (p : Z) :
  (1 <= p)%Z -> Sales.iru_rate p == 0.03 + 0.001 * (inject_Z p - 1).
Proof.
  intros H. unfold Sales.iru_rate. rewrite (extra_pairs_high p H).
  rewrite inject_Z_pred. ring.
Qed.

Lemma lease_rate_closed (p : Z) :
  (1 <= p)%Z -> Sales.lease_rate p == 0.02 + 0.001 * (inject_Z p - 1).
Proof.
  intros H. unfold Sales.lease_rate. rewrite (extra_pairs_high p H).
  rewrite inject_Z_pred. ring.
Qed.

Lemma extra_pairs_mono (p q : Z) :
  (p <= q)%Z -> inject_Z (Z.max (p - 1) 0) <= inject_Z (Z.max (q - 1) 0).
Proof. intros H. rewrite <- Zle_Qle. lia. Qed.

(** X1: the pair surcharge of IRU and Fiber Lease.  With 0 or 1 pair the
    rate is the base rate (3% for IRU, 2% for Fiber Lease); from one
    pair on, every further pair adds 0.1%; the rate never decreases
    with the number of pairs, and the IRU rate is the Fiber Lease rate
    plus 1%. *)
Theorem pair_surcharge :
  (forall p, (p <= 1)%Z ->
     Sales.iru_rate p == 0.03 /\ Sales.lease_rate p == 0.02)
  /\ (forall p, (1 <= p)%Z ->
        Sales.iru_rate (p + 1) == Sales.iru_rate p + 0.001
        /\ Sales.lease_rate (p + 1) == Sales.lease_rate p + 0.001)
  /\ (forall p q, (p <= q)%Z ->
        Sales.iru_rate p <= Sales.iru_rate q
        /\ Sales.lease_rate p <= Sales.lease_rate q)
  /\ (forall p, Sales.iru_rate p == Sales.lease_rate p + 0.01).
Proof.
  split; [| split; [| split]].
  - intros p H. unfold Sales.iru_rate, Sales.lease_rate.
    rewrite (extra_pairs_low p H). split; reflexivity.
  - intros p H.
    rewrite (iru_rate_closed (p + 1)), (iru_rate_closed p) by lia.
    rewrite (lease_rate_closed (p + 1)), (lease_rate_closed p) by lia.
    rewrite inject_Z_plus. split; ring.
  - intros p q H. unfold Sales.iru_rate, Sales.lease_rate.
    assert (Hm := extra_pairs_mono p q H).
    revert Hm. generalize (inject_Z (Z.max (p - 1) 0)).
    generalize (inject_Z (Z.max (q - 1) 0)). intros a b Hab. split; lra.
  - intros p. unfold Sales.iru_rate, Sales.lease_rate. ring.
Qed.

Lemma pair_surcharge_witness :
  Sales.iru_rate 0 == 0.03
  /\ Sales.lease_rate 5 == Sales.lease_rate 4 + 0.001
  /\ Sales.iru_rate 2 <= Sales.iru_rate 7.
Proof.
  destruct pair_surcharge as (Hlow & Hstep & Hmono & _).
  split; [| split].
  - apply (Hlow 0%Z). lia.
  - apply (Hstep 4%Z). lia.
  - apply (Hmono 2%Z 7%Z). lia.
Defined.

(** X2: for every contract value [>= 0] and every number of pairs
    [>= 0], "Add Lease" appends one Fiber Lease deal, in the selected
    currency and after the deals saved before, whose commission is
    [contractValue * (0.02 + 0.001 * max(pairs - 1, 0))]. *)
Theorem lease_commission (currency lease_date l_customer : string)
    (l_value : Q) (l_pairs : Z) (sales_rows : list Sales.Row) :
  0 <= l_value -> (0 <= l_pairs)%Z ->
  exists r,
    Sales.add_lease currency lease_date l_customer l_value l_pairs sales_rows
    = sales_rows ++ [r]
    /\ Sales.Category r = "Fiber Lease"%string
    /\ Sales.Contract_Value r = l_value
    /\ Sales.Pairs r = Some l_pairs
    /\ Sales.Currency r = currency
    /\ Sales.Commission r
       == l_value * (0.02 + 0.001 * inject_Z (Z.max (l_pairs - 1) 0))
    /\ 0 <= Sales.Commission r.
Proof.
  intros Hv Hp. eexists. split; [reflexivity |]. cbn.
  split; [reflexivity |]. split; [reflexivity |]. split; [reflexivity |].
  split; [reflexivity |]. unfold Sales.lease_rate.
  assert (Hm : 0 <= inject_Z (Z.max (l_pairs - 1) 0))
    by (change 0 with (inject_Z 0); rewrite <- Zle_Qle; lia).
  revert Hm. generalize (inject_Z (Z.max (l_pairs - 1) 0)). intros k Hk.
  split; [ring | nra].
Qed.

Lemma lease_commission_witness :
  exists r,
    Sales.add_lease "RM" "2024-06-01" "Acme" 200000 4 [] = [] ++ [r]
    /\ Sales.Category r = "Fiber Lease"%string
    /\ Sales.Contract_Value r = 200000
    /\ Sales.Pairs r = Some 4%Z
    /\ Sales.Currency r = "RM"%string
    /\ Sales.Commission r
       == 200000 * (0.02 + 0.001 * inject_Z (Z.max (4 - 1) 0))
    /\ 0 <= Sales.Commission r.
Proof.
  apply (lease_commission "RM" "2024-06-01" "Acme" 200000 4 []).
  - lra.
  - lia.
Defined.

Lemma dc_rate_values (d_type : string) :
  Sales.dc_rate d_type = 0.03 \/ Sales.dc_rate d_type = 0.04
  \/ Sales.dc_rate d_type = 0.05.
Proof.
  unfold Sales.dc_rate.
  destruct (Py.contains "3" d_type); [left; reflexivity |].
  destruct (Py.contains "4" d_type);
    [right; left; reflexivity | right; right; reflexivity].
Qed.

(** X3: the DC Grid rate.  The three options of the selector give 3%,
    4% and 5%; whatever the text, the rate is one of these three, a "3"
    in the text deciding before a "4"; and "Add DC" appends one DC Grid
    deal without pairs whose commission is the contract value times
    that rate, so a Hyperscaler deal of 1,000,000 earns 50,000. *)
Theorem dc_grid_rate :
  Sales.dc_rate "Existing 3%" == 0.03
  /\ Sales.dc_rate "New 4%" == 0.04
  /\ Sales.dc_rate "Hyperscaler 5%" == 0.05
  /\ (forall d_type,
        Sales.dc_rate d_type == 0.03 \/ Sales.dc_rate d_type == 0.04
        \/ Sales.dc_rate d_type == 0.05)
  /\ (forall d_type,
        Py.contains "3" d_type = true -> Sales.dc_rate d_type == 0.03)
  /\ (forall currency dc_date d_customer d_value d_type sales_rows,
        exists r,
          Sales.add_dc currency dc_date d_customer d_value d_type sales_rows
          = sales_rows ++ [r]
          /\ Sales.Category r = "DC Grid"%string
          /\ Sales.Pairs r = None
          /\ Sales.Currency r = currency
          /\ Sales.Commission r == d_value * Sales.dc_rate d_type)
  /\ (forall currency dc_date d_customer sales_rows,
        exists r,
          Sales.add_dc currency dc_date d_customer 1000000 "Hyperscaler 5%"
            sales_rows
          = sales_rows ++ [r]
          /\ Sales.Commission r == 50000).
Proof.
  split; [reflexivity |]. split; [reflexivity |]. split; [reflexivity |].
  split; [| split; [| split]].
  - intros d_type.
    destruct (dc_rate_values d_type) as [-> | [-> | ->]];
      [left | right; left | right; right]; reflexivity.
  - intros d_type H. unfold Sales.dc_rate. rewrite H. reflexivity.
  - intros. eexists. split; [reflexivity |]. cbn. repeat split.
  - intros. eexists. split; [reflexivity |]. reflexivity.
Qed.

Lemma dc_grid_rate_witness : Sales.dc_rate "3 or 4" == 0.03.
Proof.
  destruct dc_grid_rate as (_ & _ & _ & _ & H & _).
  apply H. reflexivity.
Defined.

Lemma build_base_mono (v w : Q) :
  v <= w -> Sales.build_base v <= Sales.build_base w.
Proof.
  intros Hvw.
  destruct (Qlt_le_dec v 5000000) as [Hv1 | Hv1];
    [rewrite (build_base_low v Hv1) |
     destruct (Qlt_le_dec 15000000 v) as [Hv2 | Hv2];
       [rewrite (build_base_high v Hv2) |
        rewrite (build_base_mid_linear v Hv1 Hv2)]];
  (destruct (Qlt_le_dec w 5000000) as [Hw1 | Hw1];
    [rewrite (build_base_low w Hw1) |
     destruct (Qlt_le_dec 15000000 w) as [Hw2 | Hw2];
       [rewrite (build_base_high w Hw2) |
        rewrite (build_base_mid_linear w Hw1 Hw2)]]);
  lra.
Qed.

Lemma build_base_range (v : Q) : 0.012 <= Sales.build_base v <= 0.03.
Proof.
  destruct (Qlt_le_dec v 5000000) as [Hv1 | Hv1];
    [rewrite (build_base_low v Hv1) |
     destruct (Qlt_le_dec 15000000 v) as [Hv2 | Hv2];
       [rewrite (build_base_high v Hv2) |
        rewrite (build_base_mid_linear v Hv1 Hv2)]];
  lra.
Qed.

Lemma build_rate_mono (v w : Q) (prepay : bool) :
  v <= w -> Sales.build_rate v prepay <= Sales.build_rate w prepay.
Proof.
  intros H. apply build_base_mono in H. unfold Sales.build_rate.
  destruct prepay; lra.
Qed.

Lemma build_rate_range (v : Q) (prepay : bool) :
  0.012 <= Sales.build_rate v prepay <= 0.032.
Proof.
  destruct (build_base_range v). unfold Sales.build_rate.
  destruct prepay; lra.
Qed.

(** X4: the Build to Own rate never decreases with the contract value
    and stays between 1.2% and 3% (3.2% with the prepaid flag); between
    5,000,000 and 15,000,000 the clamp does nothing and the base rate
    is [0.015 + 0.015 * (v - 5,000,000) / 10,000,000]; and for contract
    values [>= 0] the commission of the appended Build deal never
    decreases with the contract value either. *)
Theorem build_rate_monotone :
  (forall v w prepay, v <= w ->
     Sales.build_rate v prepay <= Sales.build_rate w prepay)
  /\ (forall v prepay, 0.012 <= Sales.build_rate v prepay <= 0.032)
  /\ (forall v, 0.012 <= Sales.build_rate v false <= 0.03)
  /\ (forall v, 5000000 <= v -> v <= 15000000 ->
        Sales.build_base v == 0.015 + 0.015 * (v - 5000000) / 10000000)
  /\ (forall currency dt customer prepay sales_rows v w, 0 <= v -> v <= w ->
        exists r s,
          Sales.add_build currency dt customer v prepay sales_rows
          = sales_rows ++ [r]
          /\ Sales.add_build currency dt customer w prepay sales_rows
             = sales_rows ++ [s]
          /\ Sales.Commission r == v * Sales.build_rate v prepay
          /\ 0 <= Sales.Commission r
          /\ Sales.Commission r <= Sales.Commission s).
Proof.
  split; [intros v w prepay; apply build_rate_mono |].
  split; [intros v prepay; apply build_rate_range |].
  split; [intros v; apply (build_base_range v) |].
  split.
  - intros v H1 H2. rewrite (build_base_mid_linear v H1 H2). qconst. ring.
  - intros currency dt customer prepay sales_rows v w Hv Hvw.
    do 2 eexists. split; [reflexivity |]. split; [reflexivity |]. cbn.
    assert (Hm := build_rate_mono v w prepay Hvw).
    destruct (build_rate_range v prepay) as [Hr _].
    revert Hm Hr. generalize (Sales.build_rate v prepay).
    generalize (Sales.build_rate w prepay). intros b a Hab Ha.
    split; [reflexivity |]. split; nra.
Qed.

Lemma build_rate_monotone_witness :
  Sales.build_rate 4000000 true <= Sales.build_rate 9000000 true
  /\ Sales.build_base 10000000
     == 0.015 + 0.015 * (10000000 - 5000000) / 10000000.
Proof.
  destruct build_rate_monotone as (Hmono & _ & _ & Hmid & _).
  split.
  - apply Hmono. lra.
  - apply Hmid; lra.
Defined.

Lemma round_exact (x : Q) (ndigits : nat) (z : Z) :
  x * inject_Z (10 ^ Z.of_nat ndigits) == inject_Z z ->
  Py.round x ndigits == x.
Proof.
  intros H. unfold Py.round.
  assert (Hp : (0 < 10 ^ Z.of_nat ndigits)%Z) by (apply Z.pow_pos_nonneg; lia).
  set (p := (10 ^ Z.of_nat ndigits)%Z) in *.
  assert (HpQ : 0 < inject_Z p)
    by (change 0 with (inject_Z 0); rewrite <- Zlt_Qlt; exact Hp).
  rewrite (round_half_even_comp _ _ H), round_half_even_Z, <- H.
  field. lra.
Qed.

Lemma iru_rate_pct_exact (p : Z) :
  Py.round (Sales.iru_rate p * 100) 3 == Sales.iru_rate p * 100.
Proof.
  apply (round_exact _ 3 (3000 + 100 * Z.max (p - 1) 0)).
  change (inject_Z (10 ^ Z.of_nat 3)) with 1000.
  unfold Sales.iru_rate. rewrite inject_Z_plus, inject_Z_mult.
  change (inject_Z 3000) with 3000. change (inject_Z 100) with 100. ring.
Qed.

Lemma lease_rate_pct_exact (p : Z) :
  Py.round (Sales.lease_rate p * 100) 3 == Sales.lease_rate p * 100.
Proof.
  apply (round_exact _ 3 (2000 + 100 * Z.max (p - 1) 0)).
  change (inject_Z (10 ^ Z.of_nat 3)) with 1000.
  unfold Sales.lease_rate. rewrite inject_Z_plus, inject_Z_mult.
  change (inject_Z 2000) with 2000. change (inject_Z 100) with 100. ring.
Qed.

Lemma dc_rate_pct_exact (d_type : string) :
  Py.round (Sales.dc_rate d_type * 100) 3 == Sales.dc_rate d_type * 100.
Proof.
  destruct (dc_rate_values d_type) as [-> | [-> | ->]]; reflexivity.
Qed.

(** X5: the "Rate %" saved with a deal.  For IRU, Fiber Lease and DC
    Grid deals the rounding to 3 decimals loses nothing: the saved
    "Rate %" is the rate times 100 and the saved commission is the
    contract value times "Rate %" / 100.  For Build deals the rounding
    can lose digits: a Build deal of 5,000,001 is saved with "Rate %"
    1.5 while its commission is not 1.5% of its value. *)
Theorem rate_pct_saved :
  (forall currency dt customer value pairs sales_rows,
     exists r,
       Sales.add_iru currency dt customer value pairs sales_rows
       = sales_rows ++ [r]
       /\ Sales.Rate_pct r == Sales.iru_rate pairs * 100
       /\ Sales.Commission r
          == Sales.Contract_Value r * (Sales.Rate_pct r / 100))
  /\ (forall currency dt customer value pairs sales_rows,
        exists r,
          Sales.add_lease currency dt customer value pairs sales_rows
          = sales_rows ++ [r]
          /\ Sales.Rate_pct r == Sales.lease_rate pairs * 100
          /\ Sales.Commission r
             == Sales.Contract_Value r * (Sales.Rate_pct r / 100))
  /\ (forall currency dt customer value d_type sales_rows,
        exists r,
          Sales.add_dc currency dt customer value d_type sales_rows
          = sales_rows ++ [r]
          /\ Sales.Rate_pct r == Sales.dc_rate d_type * 100
          /\ Sales.Commission r
             == Sales.Contract_Value r * (Sales.Rate_pct r / 100))
  /\ (forall currency dt customer sales_rows,
        exists r,
          Sales.add_build currency dt customer 5000001 false sales_rows
          = sales_rows ++ [r]
          /\ Sales.Rate_pct r == 1.5
          /\ ~ Sales.Commission r
               == Sales.Contract_Value r * (Sales.Rate_pct r / 100)).
Proof.
  split; [| split; [| split]].
  - intros. eexists. split; [reflexivity |]. cbn.
    split; [apply iru_rate_pct_exact |].
    rewrite iru_rate_pct_exact. field.
  - intros. eexists. split; [reflexivity |]. cbn.
    split; [apply lease_rate_pct_exact |].
    rewrite lease_rate_pct_exact. field.
  - intros. eexists. split; [reflexivity |]. cbn.
    split; [apply dc_rate_pct_exact |].
    rewrite dc_rate_pct_exact. field.
  - intros. eexists. split; [reflexivity |]. cbn.
    split; [reflexivity |]. vm_compute. discriminate.
Qed.

(* ================================================================= *)
(** * The saved deals of a session *)

Lemma iru_rate_min (p : Z) : 0.03 <= Sales.iru_rate p.
Proof.
  unfold Sales.iru_rate.
  assert (Hm : 0 <= inject_Z (Z.max (p - 1) 0))
    by (change 0 with (inject_Z 0); rewrite <- Zle_Qle; lia).
  revert Hm. generalize (inject_Z (Z.max (p - 1) 0)). intros k Hk. lra.
Qed.

Lemma lease_rate_min (p : Z) : 0.02 <= Sales.lease_rate p.
Proof.
  unfold Sales.lease_rate.
  assert (Hm : 0 <= inject_Z (Z.max (p - 1) 0))
    by (change 0 with (inject_Z 0); rewrite <- Zle_Qle; lia).
  revert Hm. generalize (inject_Z (Z.max (p - 1) 0)). intros k Hk. lra.
Qed.

Lemma dc_rate_min (d_type : string) : 0.03 <= Sales.dc_rate d_type.
Proof.
  destruct (dc_rate_values d_type) as [-> | [-> | ->]]; lra.
Qed.

Lemma press_incl (currency : string) (b : Sales.Button)
    (sales_rows : list Sales.Row) (r : Sales.Row) :
  In r (Sales.press currency b sales_rows) -> In r sales_rows.
Proof.
  unfold Sales.press.
  destruct (Sales.table_shown currency sales_rows); [| tauto].
  destruct b as [ticked_nos | |].
  - unfold Sales.delete_ticked. destruct ticked_nos as [| n rest]; [tauto |].
    intros H. apply in_app_or in H. destruct H as [H | H].
    + apply filter_In in H. apply H.
    + apply (Subsequence_In _ _ _ (keep_cur_from_subsequence _ _ _)) in H.
      apply filter_In in H. apply H.
  - unfold Sales.clear_currency. intros H. apply filter_In in H. apply H.
  - intros [].
Qed.

Lemma run_rows_ok (a : Action) (sales_rows : list Sales.Row) :
  allowed a -> Forall row_ok sales_rows -> Forall row_ok (run a sales_rows).
Proof.
  intros Ha Hall.
  destruct a as [c dt cu v p | c dt cu v p | c dt cu v pre | c dt cu v ty | c b];
    simpl in *.
  - destruct Ha as (Hc & Hv & Hp).
    apply Forall_app. split; [exact Hall |]. constructor; [| constructor].
    unfold row_ok. cbn. split; [exact Hc |]. split; [exact Hv |]. split.
    + assert (H := iru_rate_min p). revert H.
      generalize (Sales.iru_rate p). intros q Hq. nra.
    + left. split; [left; reflexivity |]. exists p. split; [reflexivity | exact Hp].
  - destruct Ha as (Hc & Hv & Hp).
    apply Forall_app. split; [exact Hall |]. constructor; [| constructor].
    unfold row_ok. cbn. split; [exact Hc |]. split; [exact Hv |]. split.
    + assert (H := lease_rate_min p). revert H.
      generalize (Sales.lease_rate p). intros q Hq. nra.
    + left. split; [right; reflexivity |]. exists p. split; [reflexivity | exact Hp].
  - destruct Ha as (Hc & Hv).
    apply Forall_app. split; [exact Hall |]. constructor; [| constructor].
    unfold row_ok. cbn. split; [exact Hc |]. split; [exact Hv |]. split.
    + destruct (build_rate_range v pre) as [H _]. revert H.
      generalize (Sales.build_rate v pre). intros q Hq. nra.
    + right. split; [left; reflexivity | reflexivity].
  - destruct Ha as (Hc & Hv).
    apply Forall_app. split; [exact Hall |]. constructor; [| constructor].
    unfold row_ok. cbn. split; [exact Hc |]. split; [exact Hv |]. split.
    + assert (H := dc_rate_min ty). revert H.
      generalize (Sales.dc_rate ty). intros q Hq. nra.
    + right. split; [right; reflexivity | reflexivity].
  - rewrite Forall_forall in *. intros r Hr. apply Hall.
    exact (press_incl _ _ _ _ Hr).
Qed.

Lemma reachable_rows_ok (sales_rows : list Sales.Row) :
  reachable sales_rows -> Forall row_ok sales_rows.
Proof.
  induction 1 as [| a sales_rows Ha _ IH].
  - constructor.
  - apply run_rows_ok; assumption.
Qed.

(** X6: an invariant of the saved deals.  In every list of saved deals
    a session can reach from the empty list by "Add" and table buttons,
    each deal is in one of the two currencies of the selector, has a
    contract value [>= 0] and a commission of at least 1.2% of it (so
    [>= 0]), and carries a number of pairs [>= 0] exactly when it is an
    IRU or Fiber Lease deal, Build and DC Grid deals carrying none. *)
Theorem saved_deals_invariant (sales_rows : list Sales.Row) :
  reachable sales_rows ->
  forall r, In r sales_rows ->
    currency_option (Sales.Currency r)
    /\ 0 <= Sales.Contract_Value r
    /\ 0.012 * Sales.Contract_Value r <= Sales.Commission r
    /\ 0 <= Sales.Commission r
    /\ ((Sales.Category r = "IRU"%string
         \/ Sales.Category r = "Fiber Lease"%string)
        /\ (exists n, Sales.Pairs r = Some n /\ (0 <= n)%Z)
        \/ (Sales.Category r = "Build"%string
            \/ Sales.Category r = "DC Grid"%string)
           /\ Sales.Pairs r = None).
Proof.
  intros Hreach r Hr.
  assert (H := reachable_rows_ok sales_rows Hreach).
  rewrite Forall_forall in H. destruct (H r Hr) as (Hc & Hv & Hm & Hp).
  split; [exact Hc |]. split; [exact Hv |]. split; [exact Hm |].
  split; [lra | exact Hp].
Qed.

Lemma saved_deals_invariant_witness :
  Forall (fun r => 0 <= Sales.Commission r)
    (run (Table "USD" (Sales.Delete_ticked [1%nat]))
       (run (Add_Build "RM" "2024-06-02" "Beta" 7000000 true)
          (run (Add_IRU "USD" "2024-06-01" "Acme" 1000 2) []))).
Proof.
  apply Forall_forall. intros r Hr.
  apply (saved_deals_invariant
    (run (Table "USD" (Sales.Delete_ticked [1%nat]))
       (run (Add_Build "RM" "2024-06-02" "Beta" 7000000 true)
          (run (Add_IRU "USD" "2024-06-01" "Acme" 1000 2) [])))).
  - apply reachable_run; [left; reflexivity |].
    apply reachable_run; [split; [right; reflexivity | lra] |].
    apply reachable_run; [split; [left; reflexivity | split; [lra | lia]] |].
    apply reachable_start.
  - exact Hr.
Defined.

Lemma view_split_lengths (sales_rows : list Sales.Row) :
  Forall (fun r => currency_option (Sales.Currency r)) sales_rows ->
  (List.length (Sales.df_view "USD" sales_rows)
   + List.length (Sales.df_view "RM" sales_rows))%nat
  = List.length sales_rows.
Proof.
  induction 1 as [| r rest Hr _ IH]; simpl; [reflexivity |].
  unfold Sales.in_currency.
  destruct Hr as [-> | ->]; simpl; fold (Sales.df_view "USD" rest);
    fold (Sales.df_view "RM" rest); lia.
Qed.

(** X7: the two currency views partition the saved deals.  In every
    reachable list of saved deals each deal is shown under exactly one
    of the currencies "USD" and "RM", so the two views together hold as
    many deals as are saved. *)
Theorem currency_views_partition (sales_rows : list Sales.Row) :
  reachable sales_rows ->
  (List.length (Sales.df_view "USD" sales_rows)
   + List.length (Sales.df_view "RM" sales_rows))%nat
  = List.length sales_rows
  /\ forall r, In r sales_rows ->
       (In r (Sales.df_view "USD" sales_rows)
        /\ ~ In r (Sales.df_view "RM" sales_rows))
       \/ (In r (Sales.df_view "RM" sales_rows)
           /\ ~ In r (Sales.df_view "USD" sales_rows)).
Proof.
  intros Hreach. assert (H := reachable_rows_ok sales_rows Hreach).
  split.
  - apply view_split_lengths. eapply Forall_impl; [| exact H].
    intros r Hr. apply Hr.
  - intros r Hr. rewrite Forall_forall in H.
    destruct (H r Hr) as ([Hc | Hc] & _); [left | right];
      (split; [apply filter_In; split;
                 [exact Hr | unfold Sales.in_currency; rewrite Hc; reflexivity]
              | intros Hin; apply filter_In in Hin; destruct Hin as [_ Hin];
                unfold Sales.in_currency in Hin; rewrite Hc in Hin;
                discriminate]).
Qed.

Lemma currency_views_partition_witness :
  (List.length (Sales.df_view "USD"
                  (run (Add_DC "RM" "2024-06-02" "Beta" 500 "New 4%")
                     (run (Add_IRU "USD" "2024-06-01" "Acme" 1000 2) [])))
   + List.length (Sales.df_view "RM"
                    (run (Add_DC "RM" "2024-06-02" "Beta" 500 "New 4%")
                       (run (Add_IRU "USD" "2024-06-01" "Acme" 1000 2) []))))%nat
  = 2%nat.
Proof.
  apply (currency_views_partition
    (run (Add_DC "RM" "2024-06-02" "Beta" 500 "New 4%")
       (run (Add_IRU "USD" "2024-06-01" "Acme" 1000 2) []))).
  apply reachable_run; [split; [right; reflexivity | lra] |].
  apply reachable_run; [split; [left; reflexivity | split; [lra | lia]] |].
  apply reachable_start.
Defined.

(* ================================================================= *)
(** * The buttons of the commission table *)

Lemma in_currency_other (c c' : string) (r : Sales.Row) :
  c' <> c -> Sales.in_currency c' r = true -> Sales.in_currency c r = false.
Proof.
  unfold Sales.in_currency. intros Hne H.
  apply String.eqb_eq in H. apply String.eqb_neq. congruence.
Qed.

Lemma df_view_others (c c' : string) (sales_rows : list Sales.Row) :
  c' <> c ->
  Sales.df_view c' (filter (other_currency c) sales_rows)
  = Sales.df_view c' sales_rows.
Proof.
  intros Hne. unfold Sales.df_view, other_currency.
  induction sales_rows as [| r rest IH]; simpl; [reflexivity |].
  destruct (Sales.in_currency c r) eqn:Ec; simpl.
  - destruct (Sales.in_currency c' r) eqn:Ec'; [| exact IH].
    rewrite (in_currency_other c c' r Hne Ec') in Ec. discriminate.
  - rewrite IH. reflexivity.
Qed.

Lemma df_view_of_view_other (c c' : string) (l : list Sales.Row) :
  c' <> c -> (forall r, In r l -> Sales.in_currency c r = true) ->
  Sales.df_view c' l = [].
Proof.
  intros Hne Hall. apply filter_none. intros r Hr.
  apply (in_currency_other c' c r); [congruence | apply Hall, Hr].
Qed.

Lemma df_view_same_cleared (c : string) (sales_rows : list Sales.Row) :
  Sales.df_view c (Sales.clear_currency c sales_rows) = [].
Proof.
  apply filter_none. intros r Hr. unfold Sales.clear_currency in Hr.
  apply filter_In in Hr. destruct Hr as [_ Hr].
  apply negb_true_iff in Hr. exact Hr.
Qed.

Lemma df_view_app (c : string) (l1 l2 : list Sales.Row) :
  Sales.df_view c (l1 ++ l2) = Sales.df_view c l1 ++ Sales.df_view c l2.
Proof. apply filter_app. Qed.

Lemma press_clear_currency (c : string) (sales_rows : list Sales.Row) :
  Sales.press c Sales.Clear_currency sales_rows
  = filter (other_currency c) sales_rows.
Proof.
  unfold Sales.press. rewrite table_shown_view.
  destruct (Sales.df_view c sales_rows) eqn:E; [| reflexivity].
  symmetry. apply other_none_in_view, E.
Qed.

Lemma press_view_other (c c' : string) (b : Sales.Button)
    (sales_rows : list Sales.Row) :
  c' <> c -> b <> Sales.Clear_all_currencies ->
  Sales.df_view c' (Sales.press c b sales_rows) = Sales.df_view c' sales_rows.
Proof.
  intros Hne Hb. destruct b as [ticked_nos | |]; [| | contradiction].
  - destruct ticked_nos as [| n rest];
      [rewrite press_delete_nothing; reflexivity |].
    rewrite press_delete_ticked by discriminate.
    rewrite df_view_app, (df_view_others c c' sales_rows Hne).
    rewrite (df_view_of_view_other c c'
               (Sales.keep_cur_from 0 (n :: rest) (Sales.df_view c sales_rows))
               Hne).
    + apply app_nil_r.
    + intros r Hr. exact (kept_in_currency _ _ _ _ Hr).
  - rewrite press_clear_currency. apply df_view_others, Hne.
Qed.

(** X8: "Clear ALL (currency)".  Pressed while the table of currency
    [c] is shown, it leaves no deal of [c], keeps the deals of every
    other currency as they were, in order, and pressing it again
    changes nothing; afterwards the final bonus section of [c] has no
    rows to compute on (given a tier table with its two columns), and
    the table of [c] and its buttons are no longer shown. *)
Theorem clear_currency_effect (c : string) (df : Sales.DataFrame)
    (sales_rows : list Sales.Row) :
  Sales.df_view c sales_rows <> [] ->
  let saved := Sales.press c Sales.Clear_currency sales_rows in
  Sales.df_view c saved = []
  /\ saved = filter (other_currency c) sales_rows
  /\ (forall c', c' <> c -> Sales.df_view c' saved = Sales.df_view c' sales_rows)
  /\ Sales.press c Sales.Clear_currency saved = saved
  /\ Sales.table_shown c saved = false
  /\ Sales.table_totals c saved = None
  /\ (tier_table_ok df = true -> Sales.final_bonus c df saved = Sales.No_rows).
Proof.
  intros Hne. cbv zeta.
  assert (Hpress : Sales.press c Sales.Clear_currency sales_rows
                   = Sales.clear_currency c sales_rows).
  { unfold Sales.press. rewrite table_shown_view.
    destruct (Sales.df_view c sales_rows); [contradiction | reflexivity]. }
  rewrite Hpress.
  assert (Hview := df_view_same_cleared c sales_rows).
  assert (Hshown : Sales.table_shown c (Sales.clear_currency c sales_rows)
                   = false)
    by (rewrite table_shown_view, Hview; reflexivity).
  split; [exact Hview |]. split; [reflexivity |]. split.
  - intros c' Hc'. rewrite <- Hpress.
    apply press_view_other; [exact Hc' | discriminate].
  - split; [unfold Sales.press; rewrite Hshown; reflexivity |].
    split; [exact Hshown |].
    split; [unfold Sales.table_totals; rewrite Hshown; reflexivity |].
    intros Hok. rewrite (final_bonus_ok c df _ Hok), Hview. reflexivity.
Qed.

Lemma clear_currency_effect_witness :
  Sales.df_view "USD"
    (Sales.press "USD" Sales.Clear_currency
       (Sales.add_dc "RM" "2024-06-02" "Beta" 500 "New 4%"
          (Sales.add_iru "USD" "2024-06-01" "Acme" 1000 2 [])))
  = [].
Proof.
  apply (clear_currency_effect "USD" Sales.default_tiers
    (Sales.add_dc "RM" "2024-06-02" "Beta" 500 "New 4%"
       (Sales.add_iru "USD" "2024-06-01" "Acme" 1000 2 []))).
  vm_compute. discriminate.
Defined.

(** X9: the table buttons of one currency do not touch another one.
    "Delete ticked rows" and "Clear ALL (currency)" pressed under
    currency [c] leave the deals of every other currency [c'], the
    totals under its table and its final bonus unchanged; only "Clear
    ALL (ALL currencies)" reaches across, emptying the saved list. *)
Theorem table_buttons_frame (c c' : string) (df : Sales.DataFrame)
    (sales_rows : list Sales.Row) :
  c' <> c ->
  (forall b, b <> Sales.Clear_all_currencies ->
     Sales.df_view c' (Sales.press c b sales_rows)
     = Sales.df_view c' sales_rows
     /\ Sales.table_totals c' (Sales.press c b sales_rows)
        = Sales.table_totals c' sales_rows
     /\ Sales.final_bonus c' df (Sales.press c b sales_rows)
        = Sales.final_bonus c' df sales_rows)
  /\ (Sales.df_view c sales_rows <> [] ->
      Sales.press c Sales.Clear_all_currencies sales_rows = []).
Proof.
  intros Hne. split.
  - intros b Hb. assert (H := press_view_other c c' b sales_rows Hne Hb).
    split; [exact H |]. split.
    + apply table_totals_view, H.
    + apply final_bonus_view, H.
  - intros Hview. unfold Sales.press. rewrite table_shown_view.
    destruct (Sales.df_view c sales_rows); [contradiction | reflexivity].
Qed.

Lemma table_buttons_frame_witness :
  Sales.final_bonus "RM" Sales.default_tiers
    (Sales.press "USD" (Sales.Delete_ticked [1%nat])
       (Sales.add_dc "RM" "2024-06-02" "Beta" 500 "New 4%"
          (Sales.add_iru "USD" "2024-06-01" "Acme" 1000 2 [])))
  = Sales.final_bonus "RM" Sales.default_tiers
      (Sales.add_dc "RM" "2024-06-02" "Beta" 500 "New 4%"
         (Sales.add_iru "USD" "2024-06-01" "Acme" 1000 2 [])).
Proof.
  destruct (table_buttons_frame "USD" "RM" Sales.default_tiers
    (Sales.add_dc "RM" "2024-06-02" "Beta" 500 "New 4%"
       (Sales.add_iru "USD" "2024-06-01" "Acme" 1000 2 []))) as (H & _).
  - discriminate.
  - apply (H (Sales.Delete_ticked [1%nat])). discriminate.
Defined.

Lemma ticked_In (ticked_nos : list nat) (k : nat) :
  ticked ticked_nos k = true <-> In k ticked_nos.
Proof.
  unfold ticked. rewrite existsb_exists. split.
  - intros (x & Hx & E). apply Nat.eqb_eq in E. subst. exact Hx.
  - intros H. exists k. split; [exact H | apply Nat.eqb_refl].
Qed.

Lemma keep_cur_from_all (i : nat) (ticked_nos : list nat)
    (cur_rows : list Sales.Row) :
  (forall k, (i + 1 <= k <= i + List.length cur_rows)%nat ->
     In k ticked_nos) ->
  Sales.keep_cur_from i ticked_nos cur_rows = [].
Proof.
  revert i. induction cur_rows as [| r rest IH]; intros i H; simpl;
    [reflexivity |].
  fold (ticked ticked_nos (i + 1)).
  rewrite (proj2 (ticked_In ticked_nos (i + 1))) by (apply H; simpl; lia).
  simpl. apply IH. intros k Hk. apply H. simpl. lia.
Qed.

Lemma keep_cur_from_none (i : nat) (ticked_nos : list nat)
    (cur_rows : list Sales.Row) :
  (forall k, In k ticked_nos ->
     (k <= i \/ i + List.length cur_rows < k)%nat) ->
  Sales.keep_cur_from i ticked_nos cur_rows = cur_rows.
Proof.
  revert i. induction cur_rows as [| r rest IH]; intros i H; simpl;
    [reflexivity |].
  fold (ticked ticked_nos (i + 1)).
  destruct (ticked ticked_nos (i + 1)) eqn:E.
  - apply ticked_In in E. apply H in E. simpl in E. lia.
  - simpl. f_equal. apply IH. intros k Hk. apply H in Hk. simpl in Hk. lia.
Qed.

Lemma keep_cur_from_ext (i : nat) (t1 t2 : list nat)
    (cur_rows : list Sales.Row) :
  (forall k, In k t1 <-> In k t2) ->
  Sales.keep_cur_from i t1 cur_rows = Sales.keep_cur_from i t2 cur_rows.
Proof.
  intros H. revert i. induction cur_rows as [| r rest IH]; intros i; simpl;
    [reflexivity |].
  fold (ticked t1 (i + 1)). fold (ticked t2 (i + 1)).
  assert (E : ticked t1 (i + 1) = ticked t2 (i + 1)).
  { destruct (ticked t1 (i + 1)) eqn:E1; destruct (ticked t2 (i + 1)) eqn:E2;
      try reflexivity.
    - apply ticked_In, H, ticked_In in E1. congruence.
    - apply ticked_In, H, ticked_In in E2. congruence. }
  rewrite E, IH. reflexivity.
Qed.

Lemma keep_cur_from_length (i : nat) (ticked_nos : list nat)
    (cur_rows : list Sales.Row) :
  List.length (Sales.keep_cur_from i ticked_nos cur_rows)
  = List.length (filter (fun k => negb (ticked ticked_nos k))
                   (seq (i + 1) (List.length cur_rows))).
Proof.
  revert i. induction cur_rows as [| r rest IH]; intros i; simpl;
    [reflexivity |].
  fold (ticked ticked_nos (i + 1)).
  replace (S (i + 1)) with (S i + 1)%nat by lia.
  destruct (ticked ticked_nos (i + 1)); simpl; rewrite IH; reflexivity.
Qed.

Lemma press_delete_view (c : string) (ticked_nos : list nat)
    (sales_rows : list Sales.Row) :
  Sales.df_view c (Sales.press c (Sales.Delete_ticked ticked_nos) sales_rows)
  = Sales.keep_cur_from 0 ticked_nos (Sales.df_view c sales_rows).
Proof.
  destruct ticked_nos as [| n rest].
  - rewrite press_delete_nothing, keep_cur_from_nil. reflexivity.
  - rewrite press_delete_ticked by discriminate. apply rearranged_view.
Qed.

(** X10: which rows "Delete ticked rows" removes.  The rows of the
    shown currency are numbered from 1 in saved order; the deals that
    remain are those whose number is not ticked, so their count is the
    number of unticked numbers in [1..n].  Ticking every number gives
    the same saved list as "Clear ALL (currency)"; ticked numbers
    outside [1..n] remove nothing; and the order and repetition of the
    ticked numbers do not matter. *)
Theorem delete_ticked_rows (c : string) (sales_rows : list Sales.Row) :
  Sales.df_view c sales_rows <> [] ->
  let n := List.length (Sales.df_view c sales_rows) in
  (forall ticked_nos,
     List.length
       (Sales.df_view c
          (Sales.press c (Sales.Delete_ticked ticked_nos) sales_rows))
     = List.length (filter (fun k => negb (ticked ticked_nos k)) (seq 1 n)))
  /\ Sales.press c (Sales.Delete_ticked (seq 1 n)) sales_rows
     = Sales.press c Sales.Clear_currency sales_rows
  /\ (forall ticked_nos,
        (forall k, In k ticked_nos -> (k = 0 \/ n < k)%nat) ->
        Sales.df_view c
          (Sales.press c (Sales.Delete_ticked ticked_nos) sales_rows)
        = Sales.df_view c sales_rows)
  /\ (forall t1 t2, (forall k, In k t1 <-> In k t2) ->
        Sales.press c (Sales.Delete_ticked t1) sales_rows
        = Sales.press c (Sales.Delete_ticked t2) sales_rows).
Proof.
  intros Hne. cbv zeta. split; [| split; [| split]].
  - intros ticked_nos. rewrite press_delete_view.
    apply (keep_cur_from_length 0).
  - rewrite press_clear_currency.
    assert (Hseq : seq 1 (List.length (Sales.df_view c sales_rows)) <> []).
    { destruct (Sales.df_view c sales_rows); [contradiction | discriminate]. }
    rewrite (press_delete_ticked c _ sales_rows Hseq).
    rewrite keep_cur_from_all; [apply app_nil_r |].
    intros k Hk. apply in_seq. lia.
  - intros ticked_nos H. rewrite press_delete_view.
    apply keep_cur_from_none. intros k Hk. apply H in Hk. simpl. lia.
  - intros t1 t2 H. destruct t1 as [| a t1]; destruct t2 as [| b t2].
    + reflexivity.
    + exfalso. apply (proj2 (H b)). left. reflexivity.
    + exfalso. apply (proj1 (H a)). left. reflexivity.
    + rewrite !press_delete_ticked by discriminate.
      rewrite (keep_cur_from_ext 0 _ _ _ H). reflexivity.
Qed.

Lemma delete_ticked_rows_witness :
  Sales.press "USD" (Sales.Delete_ticked (seq 1 2))
    (Sales.add_iru "USD" "2024-06-03" "Gamma" 300 1
       (Sales.add_dc "RM" "2024-06-02" "Beta" 500 "New 4%"
          (Sales.add_iru "USD" "2024-06-01" "Acme" 1000 2 [])))
  = Sales.press "USD" Sales.Clear_currency
      (Sales.add_iru "USD" "2024-06-03" "Gamma" 300 1
         (Sales.add_dc "RM" "2024-06-02" "Beta" 500 "New 4%"
            (Sales.add_iru "USD" "2024-06-01" "Acme" 1000 2 []))).
Proof.
  destruct (delete_ticked_rows "USD"
    (Sales.add_iru "USD" "2024-06-03" "Gamma" 300 1
       (Sales.add_dc "RM" "2024-06-02" "Beta" 500 "New 4%"
          (Sales.add_iru "USD" "2024-06-01" "Acme" 1000 2 []))))
    as (_ & H & _).
  - vm_compute. discriminate.
  - exact H.
Defined.

Lemma run_add (a : Action) (c : string) (sales_rows : list Sales.Row) :
  added_under a = Some c ->
  exists d, run a sales_rows = sales_rows ++ [d] /\ Sales.Currency d = c.
Proof.
  destruct a; simpl; intros [= <-]; eexists; split; reflexivity.
Qed.

Lemma keep_cur_from_last (i : nat) (l : list Sales.Row) (d : Sales.Row) :
  Sales.keep_cur_from i [(i + List.length l + 1)%nat] (l ++ [d]) = l.
Proof.
  revert i. induction l as [| r rest IH]; intros i; simpl.
  - rewrite Nat.add_0_r, Nat.eqb_refl. reflexivity.
  - assert (E : (i + 1 =? i + S (List.length rest) + 1)%nat = false)
      by (apply Nat.eqb_neq; lia).
    rewrite E. simpl. f_equal.
    replace (i + S (List.length rest) + 1)%nat
      with (S i + List.length rest + 1)%nat by lia.
    apply IH.
Qed.

(** X11: adding a deal and deleting it again.  After any "Add" under
    currency [c], the new deal is the last row of the table of [c];
    ticking that row and pressing "Delete ticked rows" brings the deals
    shown under every currency back to what they were before the
    "Add", with the same totals and final bonus. *)
Theorem add_then_delete (a : Action) (c : string) (df : Sales.DataFrame)
    (sales_rows : list Sales.Row) :
  added_under a = Some c ->
  let added := run a sales_rows in
  let last_no := List.length (Sales.df_view c added) in
  let saved := Sales.press c (Sales.Delete_ticked [last_no]) added in
  last_no = S (List.length (Sales.df_view c sales_rows))
  /\ forall c',
       Sales.df_view c' saved = Sales.df_view c' sales_rows
       /\ Sales.table_totals c' saved = Sales.table_totals c' sales_rows
       /\ Sales.final_bonus c' df saved = Sales.final_bonus c' df sales_rows.
Proof.
  intros Ha. cbv zeta.
  destruct (run_add a c sales_rows Ha) as (d & -> & Hd).
  assert (Hview : Sales.df_view c (sales_rows ++ [d])
                  = Sales.df_view c sales_rows ++ [d]).
  { rewrite df_view_app. simpl. unfold Sales.in_currency.
    rewrite Hd, String.eqb_refl. reflexivity. }
  rewrite Hview, length_app. simpl.
  split; [lia |].
  assert (Hsame : Sales.df_view c
            (Sales.press c
               (Sales.Delete_ticked
                  [(List.length (Sales.df_view c sales_rows) + 1)%nat])
               (sales_rows ++ [d]))
          = Sales.df_view c sales_rows).
  { rewrite press_delete_view, Hview.
    apply (keep_cur_from_last 0). }
  intros c'.
  assert (H : Sales.df_view c'
            (Sales.press c
               (Sales.Delete_ticked
                  [(List.length (Sales.df_view c sales_rows) + 1)%nat])
               (sales_rows ++ [d]))
          = Sales.df_view c' sales_rows).
  { destruct (string_dec c' c) as [-> | Hne]; [exact Hsame |].
    rewrite press_view_other by (exact Hne || discriminate).
    apply df_view_app_other. congruence. }
  split; [exact H |]. split.
  - apply table_totals_view, H.
  - apply final_bonus_view, H.
Qed.

Lemma add_then_delete_witness :
  Sales.df_view "USD"
    (Sales.press "USD" (Sales.Delete_ticked [2%nat])
       (run (Add_Build "USD" "2024-06-03" "Gamma" 7000000 true)
          (Sales.add_dc "RM" "2024-06-02" "Beta" 500 "New 4%"
             (Sales.add_iru "USD" "2024-06-01" "Acme" 1000 2 []))))
  = Sales.df_view "USD"
      (Sales.add_dc "RM" "2024-06-02" "Beta" 500 "New 4%"
         (Sales.add_iru "USD" "2024-06-01" "Acme" 1000 2 [])).
Proof.
  destruct (add_then_delete
    (Add_Build "USD" "2024-06-03" "Gamma" 7000000 true) "USD"
    Sales.default_tiers
    (Sales.add_dc "RM" "2024-06-02" "Beta" 500 "New 4%"
       (Sales.add_iru "USD" "2024-06-01" "Acme" 1000 2 []))) as (_ & H).
  - reflexivity.
  - apply (H "USD"%string).
Defined.

Lemma sigma_subsequence (f : Sales.Row -> Q) (l1 l2 : list Sales.Row) :
  Subsequence l1 l2 -> (forall r, In r l2 -> 0 <= f r) ->
  sigma f l1 <= sigma f l2.
Proof.
  induction 1 as [| x l1 l2 _ IH | x l1 l2 _ IH]; intros Hpos; simpl.
  - lra.
  - assert (H0 := Hpos x (or_introl eq_refl)).
    assert (H1 : sigma f l1 <= sigma f l2)
      by (apply IH; intros r Hr; apply Hpos; right; exact Hr).
    lra.
  - assert (H1 : sigma f l1 <= sigma f l2)
      by (apply IH; intros r Hr; apply Hpos; right; exact Hr).
    lra.
Qed.

(** X12: deleting never raises a total.  In a reachable list of saved
    deals, after "Delete ticked rows" under currency [c] with any
    ticks, the total contract value and the total commission of [c]
    are at most what they were before. *)
Theorem delete_lowers_totals (c : string) (ticked_nos : list nat)
    (sales_rows : list Sales.Row) :
  reachable sales_rows ->
  let saved := Sales.press c (Sales.Delete_ticked ticked_nos) sales_rows in
  Py.sum (map Sales.Contract_Value (Sales.df_view c saved))
  <= Py.sum (map Sales.Contract_Value (Sales.df_view c sales_rows))
  /\ Py.sum (map Sales.Commission (Sales.df_view c saved))
     <= Py.sum (map Sales.Commission (Sales.df_view c sales_rows)).
Proof.
  intros Hreach. cbv zeta.
  assert (Hok := reachable_rows_ok sales_rows Hreach).
  rewrite Forall_forall in Hok.
  rewrite press_delete_view, !sum_sigma.
  split; apply sigma_subsequence;
    try apply keep_cur_from_subsequence;
    intros r Hr; apply filter_In in Hr; destruct Hr as [Hr _];
    destruct (Hok r Hr) as (_ & Hv & Hm & _); lra.
Qed.

Lemma delete_lowers_totals_witness :
  Py.sum (map Sales.Contract_Value
            (Sales.df_view "USD"
               (Sales.press "USD" (Sales.Delete_ticked [1%nat])
                  (run (Add_IRU "USD" "2024-06-01" "Acme" 1000 2) []))))
  <= Py.sum (map Sales.Contract_Value
               (Sales.df_view "USD"
                  (run (Add_IRU "USD" "2024-06-01" "Acme" 1000 2) []))).
Proof.
  apply (delete_lowers_totals "USD" [1%nat]
    (run (Add_IRU "USD" "2024-06-01" "Acme" 1000 2) [])).
  apply reachable_run; [split; [left; reflexivity | split; [lra | lia]] |].
  apply reachable_start.
Defined.

(** X13: the two places that total a currency agree.  The totals
    written under the commission table and the totals of the final
    bonus section are the same numbers: given a tier table with its
    two columns, the table shows totals exactly when the final bonus
    section computes a bonus, and then with the same total contract
    value and total commission. *)
Theorem table_and_bonus_totals (c : string) (df : Sales.DataFrame)
    (sales_rows : list Sales.Row) :
  tier_table_ok df = true ->
  (forall total_value total_comm,
     Sales.table_totals c sales_rows = Some (total_value, total_comm) <->
     exists bonus_rate bonus total_incentive,
       Sales.final_bonus c df sales_rows
       = Sales.Totals total_value total_comm bonus_rate bonus total_incentive)
  /\ (Sales.table_totals c sales_rows = None <->
      Sales.final_bonus c df sales_rows = Sales.No_rows).
Proof.
  intros Hok. rewrite (final_bonus_ok c df sales_rows Hok).
  unfold Sales.table_totals. rewrite table_shown_view.
  destruct (Sales.df_view c sales_rows) as [| d deals]; cbv zeta.
  - split.
    + intros tv tc. split; [discriminate |].
      intros (br & b & ti & H). discriminate.
    + split; reflexivity.
  - split.
    + intros tv tc. split.
      * intros [= <- <-]. do 3 eexists. reflexivity.
      * intros (br & b & ti & [= <- <- _ _ _]). reflexivity.
    + split; discriminate.
Qed.

Lemma table_and_bonus_totals_witness :
  Sales.table_totals "RM" (Sales.add_iru "USD" "2024-06-01" "Acme" 1000 2 [])
  = None.
Proof.
  destruct (table_and_bonus_totals "RM" Sales.default_tiers
    (Sales.add_iru "USD" "2024-06-01" "Acme" 1000 2 [])) as (_ & H).
  - reflexivity.
  - apply H. reflexivity.
Defined.

Lemma final_bonus_raised (c : string) (df : Sales.DataFrame)
    (sales_rows : list Sales.Row) :
  Sales.final_bonus c df sales_rows = Sales.Raised <->
  (1 < Sales.label_count Sales.MIN_COL (norm_columns df)
   \/ 1 < Sales.label_count Sales.BONUS_COL (norm_columns df))%nat.
Proof.
  unfold Sales.final_bonus, Sales.normalize_tier_df. fold (norm_columns df).
  destruct ((1 <? Sales.label_count Sales.MIN_COL (norm_columns df))
            || (1 <? Sales.label_count Sales.BONUS_COL (norm_columns df)))%nat
    eqn:E.
  - split; [intros _ | reflexivity].
    apply orb_true_iff in E. destruct E as [E | E]; apply Nat.ltb_lt in E;
      [left | right]; exact E.
  - apply orb_false_iff in E. destruct E as [E1 E2].
    apply Nat.ltb_ge in E1, E2. split; [| lia].
    cbn [Sales.columns].
    destruct (negb _); [discriminate |].
    destruct (Sales.df_view c sales_rows); discriminate.
Qed.

(** X14: how the final bonus section ends.  It raises exactly when,
    after stripping and renaming the headers, one of the two tier
    columns occurs more than once; it stops with the error message
    exactly when none occurs twice and one of them is missing;
    otherwise it reports that there are no rows when no saved deal is
    in the selected currency, and computes the totals when there is
    one.  With the default tier table it never raises or stops. *)
Theorem final_bonus_outcomes (c : string) (df : Sales.DataFrame)
    (sales_rows : list Sales.Row) :
  let n_min := Sales.label_count Sales.MIN_COL (norm_columns df) in
  let n_bonus := Sales.label_count Sales.BONUS_COL (norm_columns df) in
  (Sales.final_bonus c df sales_rows = Sales.Raised <->
   (1 < n_min \/ 1 < n_bonus)%nat)
  /\ (Sales.final_bonus c df sales_rows = Sales.Stopped <->
      (n_min <= 1 /\ n_bonus <= 1 /\ (n_min = 0 \/ n_bonus = 0))%nat)
  /\ (Sales.final_bonus c df sales_rows = Sales.No_rows <->
      (n_min = 1 /\ n_bonus = 1)%nat /\ Sales.df_view c sales_rows = [])
  /\ ((exists tv tc br b ti,
         Sales.final_bonus c df sales_rows = Sales.Totals tv tc br b ti) <->
      (n_min = 1 /\ n_bonus = 1)%nat /\ Sales.df_view c sales_rows <> [])
  /\ tier_table_ok Sales.default_tiers = true.
Proof.
  cbv zeta. split; [apply final_bonus_raised |].
  assert (Hr := final_bonus_raised c df sales_rows).
  destruct (tier_table_ok df) eqn:Hok.
  - assert (Hcount : (Sales.label_count Sales.MIN_COL (norm_columns df) = 1
                      /\ Sales.label_count Sales.BONUS_COL (norm_columns df)
                         = 1)%nat).
    { unfold tier_table_ok in Hok. apply andb_true_iff in Hok.
      destruct Hok as [H1 H2]. apply Nat.eqb_eq in H1, H2. tauto. }
    rewrite (final_bonus_ok c df sales_rows Hok).
    destruct (Sales.df_view c sales_rows) as [| d deals]; cbv zeta.
    + split; [split; [discriminate | lia] |].
      split; [split; [intros _; split; [exact Hcount | reflexivity]
                     | reflexivity] |].
      split; [| reflexivity].
      split; [intros (tv & tc & br & b & ti & H); discriminate
             | intros [_ H]; contradiction].
    + split; [split; [discriminate | lia] |].
      split; [split; [discriminate | intros [_ H]; discriminate] |].
      split; [| reflexivity].
      split; [intros _; split; [exact Hcount | discriminate]
             | intros _; do 5 eexists; reflexivity].
  - assert (Hcount : ~ (Sales.label_count Sales.MIN_COL (norm_columns df) = 1
                        /\ Sales.label_count Sales.BONUS_COL (norm_columns df)
                           = 1)%nat).
    { intros [H1 H2]. unfold tier_table_ok in Hok. rewrite H1, H2 in Hok.
      discriminate. }
    destruct (final_bonus_not_ok c df sales_rows Hok) as [H | H]; rewrite H.
    + apply Hr in H.
      split; [split; [discriminate | lia] |].
      split; [split; [discriminate | tauto] |].
      split; [| reflexivity].
      split; [intros (tv & tc & br & b & ti & H'); discriminate | tauto].
    + assert (Hn : ~ (1 < Sales.label_count Sales.MIN_COL (norm_columns df)
                      \/ 1 < Sales.label_count Sales.BONUS_COL
                               (norm_columns df))%nat).
      { intros Hd. apply Hr in Hd. congruence. }
      split; [split; [intros _; lia | reflexivity] |].
      split; [split; [discriminate | tauto] |].
      split; [| reflexivity].
      split; [intros (tv & tc & br & b & ti & H'); discriminate | tauto].
Qed.

Lemma final_bonus_outcomes_witness :
  Sales.final_bonus "USD"
    {| Sales.columns := ["Threshold"; "Bonus %"]%string;
       Sales.rows := [ [Sales.Num 0; Sales.Num 0.5] ] |}
    (Sales.add_iru "USD" "2024-06-01" "Acme" 1000 2 [])
  = Sales.Stopped.
Proof.
  destruct (final_bonus_outcomes "USD"
    {| Sales.columns := ["Threshold"; "Bonus %"]%string;
       Sales.rows := [ [Sales.Num 0; Sales.Num 0.5] ] |}
    (Sales.add_iru "USD" "2024-06-01" "Acme" 1000 2 []))
    as (_ & H & _).
  apply H. change ((0 <= 1 /\ 1 <= 1 /\ (0 = 0 \/ 1 = 0))%nat). lia.
Defined.

(* ================================================================= *)
(** * Headers and cells of the tier table *)

Lemma rename_min (s : string) :
  String.eqb Sales.MIN_COL (Sales.rename Sales.rename_map s)
  = spelled min_spellings s.
Proof.
  unfold Sales.rename, Sales.rename_map, spelled, min_spellings, existsb.
  rewrite !(String.eqb_sym s).
  repeat match goal with
  | |- context [String.eqb ?k s] =>
      destruct (String.eqb_spec k s) as [<- | ?]; try reflexivity
  end.
  all: exfalso; unfold Sales.MIN_COL in *; congruence.
Qed.

Lemma rename_bonus (s : string) :
  String.eqb Sales.BONUS_COL (Sales.rename Sales.rename_map s)
  = spelled bonus_spellings s.
Proof.
  unfold Sales.rename, Sales.rename_map, spelled, bonus_spellings, existsb.
  rewrite !(String.eqb_sym s).
  repeat match goal with
  | |- context [String.eqb ?k s] =>
      destruct (String.eqb_spec k s) as [<- | ?]; try reflexivity
  end.
  all: exfalso; unfold Sales.BONUS_COL in *; congruence.
Qed.

Lemma label_count_norm (label : string) (spellings : list string)
    (cols : list string) :
  (forall s, String.eqb label (Sales.rename Sales.rename_map s)
             = spelled spellings s) ->
  Sales.label_count label
    (map (Sales.rename Sales.rename_map) (map Py.strip cols))
  = List.length (filter (fun col => spelled spellings (Py.strip col)) cols).
Proof.
  intros H. unfold Sales.label_count.
  induction cols as [| col cols IH]; [reflexivity |].
  cbn [map filter]. rewrite H.
  destruct (spelled spellings (Py.strip col)); cbn [List.length];
    rewrite IH; reflexivity.
Qed.

(** X15: which headers the tier table is recognised by.  A column
    counts as the threshold column exactly when its header, stripped of
    surrounding whitespace, is one of the three spellings "Min Total
    Contract Value", "... (inclusive)", "... (Inclusive)", and as the
    percentage column exactly when it is "Bonus %", "Bonus % on Total"
    or "Bonus % On Total"; the table is usable when each kind occurs
    once, so any pair of these spellings, in either order and among
    other columns that are none of them, is accepted. *)
Theorem tier_headers (df : Sales.DataFrame) :
  Sales.label_count Sales.MIN_COL (norm_columns df)
  = List.length (filter (fun col => spelled min_spellings (Py.strip col))
                   (Sales.columns df))
  /\ Sales.label_count Sales.BONUS_COL (norm_columns df)
     = List.length (filter (fun col => spelled bonus_spellings (Py.strip col))
                      (Sales.columns df))
  /\ (tier_table_ok df = true <->
      List.length (filter (fun col => spelled min_spellings (Py.strip col))
                     (Sales.columns df)) = 1%nat
      /\ List.length (filter (fun col => spelled bonus_spellings (Py.strip col))
                        (Sales.columns df)) = 1%nat)
  /\ (forall a b rows, In a min_spellings -> In b bonus_spellings ->
        tier_table_ok {| Sales.columns := [a; b]; Sales.rows := rows |} = true
        /\ tier_table_ok {| Sales.columns := [b; a]; Sales.rows := rows |}
           = true
        /\ tier_table_ok {| Sales.columns := [a; "Note"%string; b];
                            Sales.rows := rows |} = true)
  /\ (forall rows,
        tier_table_ok
          {| Sales.columns := ["  Bonus % "; " Min Total Contract Value"]%string;
             Sales.rows := rows |} = true
        /\ tier_table_ok
             {| Sales.columns := ["Threshold"; "Bonus %"]%string;
                Sales.rows := rows |} = false
        /\ tier_table_ok
             {| Sales.columns := ["Min Total Contract Value";
                                  "Bonus %"; "Bonus % on Total"]%string;
                Sales.rows := rows |} = false).
Proof.
  assert (Hmin := label_count_norm Sales.MIN_COL min_spellings
                    (Sales.columns df) rename_min).
  assert (Hbonus := label_count_norm Sales.BONUS_COL bonus_spellings
                      (Sales.columns df) rename_bonus).
  fold (norm_columns df) in Hmin, Hbonus.
  split; [exact Hmin |]. split; [exact Hbonus |]. split; [| split].
  - unfold tier_table_ok. rewrite Hmin, Hbonus, andb_true_iff, !Nat.eqb_eq.
    reflexivity.
  - intros a b rows Ha Hb. simpl in Ha, Hb.
    destruct Ha as [<- | [<- | [<- | []]]];
      destruct Hb as [<- | [<- | [<- | []]]]; repeat split.
  - intros rows. repeat split.
Qed.

Lemma tier_headers_witness :
  tier_table_ok
    {| Sales.columns := ["Bonus % On Total";
                         "Min Total Contract Value (Inclusive)"]%string;
       Sales.rows := [ [Sales.Num 0.5; Sales.Num 1000] ] |} = true.
Proof.
  destruct (tier_headers
    {| Sales.columns := ["Bonus % On Total";
                         "Min Total Contract Value (Inclusive)"]%string;
       Sales.rows := [ [Sales.Num 0.5; Sales.Num 1000] ] |})
    as (_ & _ & H & _).
  apply H. split; reflexivity.
Defined.

Lemma map_column_length (f : Sales.cell -> Sales.cell) (label : string)
    (cols : list string) (r : list Sales.cell) :
  List.length (Sales.map_column f label cols r) = List.length r.
Proof.
  revert r. induction cols as [| c cols IH]; intros [| x r]; simpl;
    try reflexivity.
  rewrite IH. reflexivity.
Qed.

Lemma get_map_column_num (label : string) (cols : list string)
    (r : list Sales.cell) :
  Sales.has_column label cols = true ->
  List.length r = List.length cols ->
  exists q,
    Sales.get cols (Sales.map_column Sales.to_numeric_fillna label cols r)
      label = Sales.Num q.
Proof.
  unfold Sales.has_column. revert r.
  induction cols as [| c cols IH]; intros [| x r]; simpl; try discriminate.
  intros Hhas Hlen. rewrite (String.eqb_sym label c) in Hhas.
  destruct (String.eqb c label).
  - destruct x as [q |]; eexists; reflexivity.
  - apply IH; [exact Hhas | lia].
Qed.

Lemma normalized_row_other (cols : list string) (r : list Sales.cell)
    (label : string) :
  label <> Sales.MIN_COL -> label <> Sales.BONUS_COL ->
  Sales.get cols
    (Sales.map_column Sales.to_numeric_fillna Sales.BONUS_COL cols
       (Sales.map_column Sales.to_numeric_fillna Sales.MIN_COL cols r))
    label
  = Sales.get cols r label.
Proof.
  intros H1 H2.
  rewrite !get_map_column_other; [reflexivity | |];
    apply String.eqb_neq; congruence.
Qed.

(** X16: what [normalize_tier_df] does to the cells.  When it returns a
    table, that table has the stripped and renamed headers, as many
    rows as before and rows of the same width; cells under any other
    header are untouched; and, for a table with one cell per column in
    each row, every cell under "Min Total Contract Value" and under
    "Bonus %" is a number afterwards, a cell that was not a number
    having become 0. *)
Theorem normalized_cells (df out : Sales.DataFrame) :
  Sales.normalize_tier_df df = Some out ->
  Sales.columns out = norm_columns df
  /\ List.length (Sales.rows out) = List.length (Sales.rows df)
  /\ (forall i r, nth_error (Sales.rows df) i = Some r ->
        exists r',
          nth_error (Sales.rows out) i = Some r'
          /\ List.length r' = List.length r
          /\ (forall label,
                label <> Sales.MIN_COL -> label <> Sales.BONUS_COL ->
                Sales.get (Sales.columns out) r' label
                = Sales.get (Sales.columns out) r label)
          /\ Sales.float_of (Sales.get (Sales.columns out) r' Sales.MIN_COL)
             = cell_value (Sales.get (Sales.columns out) r Sales.MIN_COL)
          /\ Sales.float_of (Sales.get (Sales.columns out) r' Sales.BONUS_COL)
             = cell_value (Sales.get (Sales.columns out) r Sales.BONUS_COL))
  /\ (well_formed df ->
      forall r', In r' (Sales.rows out) ->
        (Sales.has_column Sales.MIN_COL (Sales.columns out) = true ->
         exists q, Sales.get (Sales.columns out) r' Sales.MIN_COL = Sales.Num q)
        /\ (Sales.has_column Sales.BONUS_COL (Sales.columns out) = true ->
            exists q,
              Sales.get (Sales.columns out) r' Sales.BONUS_COL = Sales.Num q)).
Proof.
  unfold Sales.normalize_tier_df. fold (norm_columns df).
  destruct ((1 <? _) || (1 <? _))%nat; [discriminate |].
  intros [= <-]. cbn [Sales.columns Sales.rows].
  split; [reflexivity |]. split; [apply length_map |]. split.
  - intros i r Hr. eexists. split; [apply map_nth_error, Hr |].
    split; [rewrite !map_column_length; reflexivity |].
    split; [intros label; apply normalized_row_other |].
    split; [apply map_column_twice_min | apply map_column_twice_bonus].
  - intros Hwf r' Hr'. apply in_map_iff in Hr'.
    destruct Hr' as (r & <- & Hr).
    unfold well_formed in Hwf. rewrite Forall_forall in Hwf.
    assert (Hlen : List.length r = List.length (norm_columns df)).
    { rewrite (Hwf r Hr). unfold norm_columns. rewrite !length_map.
      reflexivity. }
    split; intros Hhas.
    + rewrite get_map_column_other by reflexivity.
      apply get_map_column_num; assumption.
    + apply get_map_column_num; [exact Hhas |].
      rewrite map_column_length. exact Hlen.
Qed.

Lemma normalized_cells_witness :
  exists q,
    Sales.get ["Min Total Contract Value"; "Bonus %"]%string
      [Sales.Num 0.0; Sales.Num 0.5] Sales.MIN_COL = Sales.Num q.
Proof.
  destruct (normalized_cells
    {| Sales.columns := ["Min Total Contract Value (inclusive)";
                         "Bonus % on Total"]%string;
       Sales.rows := [ [Sales.NaN; Sales.Num 0.5] ] |}
    {| Sales.columns := ["Min Total Contract Value"; "Bonus %"]%string;
       Sales.rows := [ [Sales.Num 0.0; Sales.Num 0.5] ] |} eq_refl)
    as (_ & _ & _ & H).
  assert (Hwf : well_formed
    {| Sales.columns := ["Min Total Contract Value (inclusive)";
                         "Bonus % on Total"]%string;
       Sales.rows := [ [Sales.NaN; Sales.Num 0.5] ] |}).
  { constructor; [reflexivity | constructor]. }
  destruct (H Hwf [Sales.Num 0.0; Sales.Num 0.5] (or_introl eq_refl))
    as (Hmin & _).
  apply Hmin. reflexivity.
Defined.

(* ================================================================= *)
(** * The bonus rate as a function of the total *)

Lemma lookup_nonneg (tiers : list Sales.Tier) (total_value : Q) :
  (forall r, In r tiers -> 0 <= snd r) ->
  0 <= Sales.lookup_bonus_rate tiers total_value.
Proof.
  intros Hpos.
  destruct (lookup_bonus_rate_cases tiers total_value)
    as [(r & (Hin & _) & ->) | (_ & ->)].
  - assert (H := Hpos r Hin). qlra.
  - lra.
Qed.

Lemma lookup_bounded (tiers : list Sales.Tier) (total_value m : Q) :
  0 <= m -> (forall r, In r tiers -> snd r <= m) ->
  Sales.lookup_bonus_rate tiers total_value <= m / 100.
Proof.
  intros Hm Hmax.
  destruct (lookup_bonus_rate_cases tiers total_value)
    as [(r & (Hin & _) & ->) | (_ & ->)].
  - assert (H := Hmax r Hin). qlra.
  - qlra.
Qed.

Lemma lookup_mono (tiers : list Sales.Tier) (t1 t2 : Q) :
  (forall r, In r tiers -> 0 <= snd r) -> rising tiers -> t1 <= t2 ->
  Sales.lookup_bonus_rate tiers t1 <= Sales.lookup_bonus_rate tiers t2.
Proof.
  intros Hpos Hrise H12.
  destruct (lookup_bonus_rate_cases tiers t1)
    as [(r1 & (Hin1 & Hle1 & _) & ->) | (_ & ->)].
  - destruct (lookup_bonus_rate_cases tiers t2)
      as [(r2 & (Hin2 & _ & Hmax2) & ->) | (Hnone & _)].
    + assert (H : snd r1 <= snd r2).
      { apply Hrise; [exact Hin1 | exact Hin2 |].
        apply Hmax2; [exact Hin1 | lra]. }
      qlra.
    + specialize (Hnone r1 Hin1). lra.
  - assert (H := lookup_nonneg tiers t2 Hpos). lra.
Qed.

(** X17: the bonus rate as a function of the total.  For a tier table
    with percentages [>= 0] the bonus rate is [>= 0] and at most the
    largest percentage of the table divided by 100; when, besides, the
    percentages do not fall as the thresholds rise, a larger total
    contract value never gets a smaller bonus rate. *)
Theorem bonus_rate_monotone (tiers : list Sales.Tier) :
  (forall r, In r tiers -> 0 <= snd r) ->
  (forall total_value, 0 <= Sales.lookup_bonus_rate tiers total_value)
  /\ (forall total_value m, (forall r, In r tiers -> snd r <= m) -> 0 <= m ->
        Sales.lookup_bonus_rate tiers total_value <= m / 100)
  /\ (rising tiers ->
      forall t1 t2, t1 <= t2 ->
        Sales.lookup_bonus_rate tiers t1 <= Sales.lookup_bonus_rate tiers t2).
Proof.
  intros Hpos. split; [| split].
  - intros total_value. apply lookup_nonneg, Hpos.
  - intros total_value m Hmax Hm. apply lookup_bounded; assumption.
  - intros Hrise t1 t2. apply lookup_mono; assumption.
Qed.

Lemma bonus_rate_monotone_witness :
  Sales.lookup_bonus_rate [(1000, 0.5); (0, 0.1)] 500
  <= Sales.lookup_bonus_rate [(1000, 0.5); (0, 0.1)] 2000.
Proof.
  destruct (bonus_rate_monotone [(1000, 0.5); (0, 0.1)]) as (_ & _ & H).
  - intros r [<- | [<- | []]]; simpl; lra.
  - apply H; [| lra].
    intros r1 r2 [<- | [<- | []]] [<- | [<- | []]]; simpl; lra.
Defined.

Lemma default_tiers_sorted :
  Py.sort_values (fun a b : Sales.Tier => Qle_bool (fst a) (fst b))
    (tiers_of Sales.default_tiers)
  = [ (0, 0.0); (1000000, 0.2); (5000000, 0.5); (10000000, 0.8);
      (15000000, 1.0) ].
Proof. reflexivity. Qed.

(** X18: the bonus rate of the default tier table, for every total
    contract value [>= 0]: 0 below 1,000,000; 0.2% from 1,000,000;
    0.5% from 5,000,000; 0.8% from 10,000,000; 1% from 15,000,000
    on, each threshold included. *)
Theorem default_bonus_rate (total_value : Q) :
  0 <= total_value ->
  (total_value < 1000000 ->
   Sales.lookup_bonus_rate (tiers_of Sales.default_tiers) total_value == 0)
  /\ (1000000 <= total_value -> total_value < 5000000 ->
      Sales.lookup_bonus_rate (tiers_of Sales.default_tiers) total_value
      == 0.002)
  /\ (5000000 <= total_value -> total_value < 10000000 ->
      Sales.lookup_bonus_rate (tiers_of Sales.default_tiers) total_value
      == 0.005)
  /\ (10000000 <= total_value -> total_value < 15000000 ->
      Sales.lookup_bonus_rate (tiers_of Sales.default_tiers) total_value
      == 0.008)
  /\ (15000000 <= total_value ->
      Sales.lookup_bonus_rate (tiers_of Sales.default_tiers) total_value
      == 0.01).
Proof.
  intros H0. unfold Sales.lookup_bonus_rate.
  rewrite default_tiers_sorted. unfold Sales.scan_tiers.
  cbn [fold_left fst snd].
  assert (E0 : Qle_bool 0 total_value = true) by (apply Qle_bool_iff; exact H0).
  rewrite E0.
  destruct (Qle_bool 1000000 total_value) eqn:E1;
    [apply Qle_bool_iff in E1 | apply Qle_bool_false in E1];
  (destruct (Qle_bool 5000000 total_value) eqn:E2;
    [apply Qle_bool_iff in E2 | apply Qle_bool_false in E2]);
  (destruct (Qle_bool 10000000 total_value) eqn:E3;
    [apply Qle_bool_iff in E3 | apply Qle_bool_false in E3]);
  (destruct (Qle_bool 15000000 total_value) eqn:E4;
    [apply Qle_bool_iff in E4 | apply Qle_bool_false in E4]);
  repeat split; intros; try reflexivity; exfalso; lra.
Qed.

Lemma default_bonus_rate_witness :
  Sales.lookup_bonus_rate (tiers_of Sales.default_tiers) 5000000 == 0.005.
Proof.
  destruct (default_bonus_rate 5000000) as (_ & _ & H & _).
  - lra.
  - apply H; lra.
Defined.

Lemma sigma_nonneg (f : Sales.Row -> Q) (l : list Sales.Row) :
  (forall r, In r l -> 0 <= f r) -> 0 <= sigma f l.
Proof.
  induction l as [| x l IH]; intros H; simpl; [lra |].
  assert (H0 := H x (or_introl eq_refl)).
  assert (H1 : 0 <= sigma f l) by (apply IH; intros r Hr; apply H; right; exact Hr).
  lra.
Qed.

Lemma sigma_min_commission (l : list Sales.Row) :
  (forall r, In r l ->
     0.012 * Sales.Contract_Value r <= Sales.Commission r) ->
  0.012 * sigma Sales.Contract_Value l <= sigma Sales.Commission l.
Proof.
  induction l as [| x l IH]; intros H; simpl; [lra |].
  assert (H0 := H x (or_introl eq_refl)).
  assert (H1 : 0.012 * sigma Sales.Contract_Value l <= sigma Sales.Commission l)
    by (apply IH; intros r Hr; apply H; right; exact Hr).
  lra.
Qed.

(** X19: signs of the totals.  For a reachable list of saved deals
    with a deal in the selected currency and a tier table with its two
    columns and no negative percentage, the final bonus section
    computes totals with total contract value [>= 0], total commission
    at least 1.2% of it, bonus rate and bonus [>= 0], and a total
    incentive that is at least the total commission. *)
Theorem totals_nonnegative (c : string) (df : Sales.DataFrame)
    (sales_rows : list Sales.Row) :
  reachable sales_rows -> tier_table_ok df = true ->
  (forall r, In r (tiers_of df) -> 0 <= snd r) ->
  Sales.df_view c sales_rows <> [] ->
  exists total_value total_comm bonus_rate bonus total_incentive,
    Sales.final_bonus c df sales_rows
    = Sales.Totals total_value total_comm bonus_rate bonus total_incentive
    /\ 0 <= total_value
    /\ 0.012 * total_value <= total_comm
    /\ 0 <= bonus_rate
    /\ 0 <= bonus
    /\ total_comm <= total_incentive.
Proof.
  intros Hreach Hok Hpos Hne.
  rewrite (final_bonus_ok c df sales_rows Hok).
  destruct (Sales.df_view c sales_rows) as [| d deals] eqn:E;
    [contradiction |].
  cbv zeta. do 5 eexists. split; [reflexivity |].
  assert (Hrows := reachable_rows_ok sales_rows Hreach).
  rewrite Forall_forall in Hrows.
  assert (Hin : forall r, In r (d :: deals) -> row_ok r).
  { intros r Hr. apply Hrows. rewrite <- E in Hr.
    apply filter_In in Hr. apply Hr. }
  assert (Hv : 0 <= sigma Sales.Contract_Value (d :: deals))
    by (apply sigma_nonneg; intros r Hr; apply (Hin r Hr)).
  assert (Hm : 0.012 * sigma Sales.Contract_Value (d :: deals)
               <= sigma Sales.Commission (d :: deals))
    by (apply sigma_min_commission; intros r Hr; apply (Hin r Hr)).
  rewrite <- (sum_sigma Sales.Contract_Value) in Hv, Hm.
  rewrite <- (sum_sigma Sales.Commission) in Hm.
  assert (Hb := lookup_nonneg (tiers_of df)
                  (Py.sum (map Sales.Contract_Value (d :: deals))) Hpos).
  revert Hv Hm Hb.
  generalize (Sales.lookup_bonus_rate (tiers_of df)
                (Py.sum (map Sales.Contract_Value (d :: deals)))).
  generalize (Py.sum (map Sales.Commission (d :: deals))).
  generalize (Py.sum (map Sales.Contract_Value (d :: deals))).
  intros tv tc br Hv Hm Hb. repeat split; nra.
Qed.

Lemma totals_nonnegative_witness :
  exists total_value total_comm bonus_rate bonus total_incentive,
    Sales.final_bonus "USD" Sales.default_tiers
      (run (Add_IRU "USD" "2024-06-01" "Acme" 2000000 2) [])
    = Sales.Totals total_value total_comm bonus_rate bonus total_incentive
    /\ 0 <= total_value
    /\ 0.012 * total_value <= total_comm
    /\ 0 <= bonus_rate
    /\ 0 <= bonus
    /\ total_comm <= total_incentive.
Proof.
  apply (totals_nonnegative "USD" Sales.default_tiers
    (run (Add_IRU "USD" "2024-06-01" "Acme" 2000000 2) [])).
  - apply reachable_run; [split; [left; reflexivity | split; [lra | lia]] |].
    apply reachable_start.
  - reflexivity.
  - intros r Hr. vm_compute in Hr.
    repeat (destruct Hr as [<- | Hr]; [simpl; lra |]). contradiction.
  - vm_compute. discriminate.
Defined.

(* ================================================================= *)
(** * Manager Part A: breakdown, monotonicity, contiguous ranges *)

Lemma part_a_step_reached (n : Z) (acc : Q * list PM.BreakdownRow)
    (t : PM.TierRow) :
  PM.part_a_step n acc t
  = if reached n t
    then (fst acc + PM.Tier_payout (breakdown_of n t),
          snd acc ++ [breakdown_of n t])
    else acc.
Proof.
  unfold PM.part_a_step, reached.
  destruct (Z.ltb_spec n (PM.From t)) as [Hlt | Hge];
    destruct (Z.leb_spec (PM.From t) n) as [Hle | Hgt]; try lia; reflexivity.
Qed.

Lemma part_a_fold_rows (n : Z) (tiers : list PM.TierRow)
    (acc : Q * list PM.BreakdownRow) :
  snd (fold_left (PM.part_a_step n) tiers acc)
  = snd acc ++ map (breakdown_of n) (filter (reached n) tiers).
Proof.
  revert acc. induction tiers as [| t rest IH]; intros acc; simpl.
  - symmetry. apply app_nil_r.
  - rewrite IH, part_a_step_reached. destruct (reached n t); simpl.
    + rewrite <- app_assoc. reflexivity.
    + reflexivity.
Qed.

Lemma graduated_payout_rows (n : Z) (tiers : list PM.TierRow) :
  graduated_payout n tiers
  == payout_sum (map (breakdown_of n) (filter (reached n) tiers)).
Proof.
  induction tiers as [| t rest IH]; simpl; [reflexivity |].
  fold (reached n t). destruct (reached n t); simpl; rewrite IH; ring.
Qed.

Lemma part_a_bonus_graduated (n : Z) (tiers : list PM.TierRow) :
  PM.part_a_bonus n tiers == graduated_payout n tiers.
Proof.
  unfold PM.part_a_bonus, PM.part_a. rewrite part_a_fold. simpl fst.
  rewrite (graduated_payout_perm n _ tiers) by apply sort_values_perm.
  ring.
Qed.

Lemma counted_in_range_nonneg (n : Z) (t : PM.TierRow) :
  (0 <= counted_in_range n t)%Z.
Proof. unfold counted_in_range. lia. Qed.

(** X20: the tier breakdown of Part A.  The breakdown lists, in
    ascending "From #" order, exactly the tiers whose "From #" is
    reached by the number of on-time projects; each row counts
    [max(min(n, To) - From + 1, 0) >= 0] projects and pays that count
    times the rate; and the Part A bonus is the sum of the "Tier
    payout" column. *)
Theorem part_a_breakdown (ontime_projects : Z) (tiers : list PM.TierRow) :
  let tiers_sorted :=
    Py.sort_values (fun a b => (PM.From a <=? PM.From b)%Z) tiers in
  let breakdown_rows := snd (PM.part_a ontime_projects tiers) in
  breakdown_rows
  = map (breakdown_of ontime_projects)
        (filter (reached ontime_projects) tiers_sorted)
  /\ PM.part_a_bonus ontime_projects tiers == payout_sum breakdown_rows
  /\ Forall (fun b =>
               (0 <= PM.Projects_counted b)%Z
               /\ PM.Tier_payout b
                  = inject_Z (PM.Projects_counted b) * PM.b_Rate_per_project b)
            breakdown_rows
  /\ (List.length breakdown_rows <= List.length tiers)%nat
  /\ StronglySorted (fun a b => (PM.From a <=? PM.From b)%Z = true)
       tiers_sorted.
Proof.
  cbv zeta.
  assert (Hrows : snd (PM.part_a ontime_projects tiers)
                  = map (breakdown_of ontime_projects)
                      (filter (reached ontime_projects)
                         (Py.sort_values
                            (fun a b => (PM.From a <=? PM.From b)%Z) tiers))).
  { unfold PM.part_a. rewrite part_a_fold_rows. reflexivity. }
  split; [exact Hrows |]. split; [| split; [| split]].
  - rewrite Hrows. unfold PM.part_a_bonus, PM.part_a.
    rewrite part_a_fold. simpl fst. rewrite graduated_payout_rows. ring.
  - rewrite Hrows. apply Forall_forall. intros b Hb.
    apply in_map_iff in Hb. destruct Hb as (t & <- & _). simpl.
    split; [apply counted_in_range_nonneg | reflexivity].
  - rewrite Hrows, length_map.
    eapply Nat.le_trans; [apply filter_length_le |].
    rewrite (Permutation_length (sort_values_perm _ tiers)). apply Nat.le_refl.
  - apply sort_values_sorted.
    + intros a b. destruct (Z.leb_spec (PM.From a) (PM.From b));
        [left; reflexivity | right; apply Z.leb_le; lia].
    + intros a b c H1 H2. apply Z.leb_le in H1, H2. apply Z.leb_le. lia.
Qed.

Lemma graduated_payout_mono (n m : Z) (tiers : list PM.TierRow) :
  (forall t, In t tiers -> 0 <= PM.Rate_per_project t) -> (n <= m)%Z ->
  0 <= graduated_payout n tiers
  /\ graduated_payout n tiers <= graduated_payout m tiers.
Proof.
  intros Hpos Hnm. induction tiers as [| t rest IH]; simpl; [split; lra |].
  destruct IH as [IH0 IH1]; [intros u Hu; apply Hpos; right; exact Hu |].
  assert (Hr := Hpos t (or_introl eq_refl)).
  assert (Hcn : 0 <= inject_Z (counted_in_range n t))
    by (change 0 with (inject_Z 0); rewrite <- Zle_Qle;
        apply counted_in_range_nonneg).
  assert (Hcm : inject_Z (counted_in_range n t)
                <= inject_Z (counted_in_range m t))
    by (rewrite <- Zle_Qle; unfold counted_in_range; lia).
  revert Hcn Hcm. generalize (inject_Z (counted_in_range n t)).
  generalize (inject_Z (counted_in_range m t)). intros cm cn Hcn Hcm.
  destruct (Z.leb_spec (PM.From t) n); destruct (Z.leb_spec (PM.From t) m);
    try lia; split; nra.
Qed.

Lemma graduated_payout_unreached (n : Z) (tiers : list PM.TierRow) :
  (forall t, In t tiers -> (n < PM.From t)%Z) ->
  graduated_payout n tiers == 0.
Proof.
  induction tiers as [| t rest IH]; intros H; simpl; [reflexivity |].
  assert (Ht := H t (or_introl eq_refl)).
  destruct (Z.leb_spec (PM.From t) n); [lia |].
  rewrite IH by (intros u Hu; apply H; right; exact Hu). ring.
Qed.

(** X21: Part A grows with the number of on-time projects.  With rates
    per project [>= 0] the Part A bonus is [>= 0] and never decreases
    when more projects are delivered on time; it is 0 when the number
    of on-time projects is below every "From #" (so 0 projects earn
    nothing when every tier starts at 1 or later). *)
Theorem part_a_monotone (tiers : list PM.TierRow) :
  (forall t, In t tiers -> 0 <= PM.Rate_per_project t) ->
  (forall n, 0 <= PM.part_a_bonus n tiers)
  /\ (forall n m, (n <= m)%Z ->
        PM.part_a_bonus n tiers <= PM.part_a_bonus m tiers)
  /\ (forall n, (forall t, In t tiers -> (n < PM.From t)%Z) ->
        PM.part_a_bonus n tiers == 0
        /\ snd (PM.part_a n tiers) = []).
Proof.
  intros Hpos. split; [| split].
  - intros n. rewrite part_a_bonus_graduated.
    apply (graduated_payout_mono n n tiers Hpos). lia.
  - intros n m Hnm. rewrite !part_a_bonus_graduated.
    apply (graduated_payout_mono n m tiers Hpos Hnm).
  - intros n Hbelow. split.
    + rewrite part_a_bonus_graduated.
      apply graduated_payout_unreached, Hbelow.
    + unfold PM.part_a. rewrite part_a_fold_rows. simpl.
      rewrite filter_none; [reflexivity |].
      intros t Ht. apply (sort_values_In _ tiers) in Ht.
      apply Hbelow in Ht. unfold reached. apply Z.leb_gt. exact Ht.
Qed.

Lemma part_a_monotone_witness :
  PM.part_a_bonus 4 PM.tiers_default <= PM.part_a_bonus 8 PM.tiers_default
  /\ PM.part_a_bonus 0 PM.tiers_default == 0.
Proof.
  destruct (part_a_monotone PM.tiers_default) as (_ & Hmono & Hzero).
  - intros t [<- | [<- | [<- | []]]]; simpl; lra.
  - split.
    + apply Hmono. lia.
    + apply Hzero. intros t [<- | [<- | [<- | []]]]; simpl; lia.
Defined.

Lemma chain_sorted (start : Z) (tiers : list PM.TierRow) :
  chain start tiers ->
  Py.sort_values (fun a b => (PM.From a <=? PM.From b)%Z) tiers = tiers.
Proof.
  revert start. induction tiers as [| t rest IH]; intros start H; simpl;
    [reflexivity |].
  destruct H as (Hfrom & Hto & Hrest).
  rewrite (IH _ Hrest). destruct rest as [| u rest']; simpl; [reflexivity |].
  destruct Hrest as (Hu & _).
  assert (E : (PM.From t <=? PM.From u)%Z = true) by (apply Z.leb_le; lia).
  rewrite E. reflexivity.
Qed.

Lemma chain_end_ge (start : Z) (tiers : list PM.TierRow) :
  chain start tiers -> (start - 1 <= chain_end start tiers)%Z.
Proof.
  revert start. induction tiers as [| t rest IH]; intros start H; simpl;
    [lia |].
  destruct H as (_ & Hto & Hrest). apply IH in Hrest. lia.
Qed.

Lemma chain_counted (n start : Z) (tiers : list PM.TierRow) :
  chain start tiers ->
  counted_sum (map (breakdown_of n) (filter (reached n) tiers))
  = Z.max 0 (Z.min n (chain_end start tiers) - start + 1).
Proof.
  revert start. induction tiers as [| t rest IH]; intros start H; simpl.
  - lia.
  - destruct H as (Hfrom & Hto & Hrest).
    assert (Hend := chain_end_ge _ _ Hrest).
    specialize (IH _ Hrest). unfold reached at 1.
    destruct (Z.leb_spec (PM.From t) n) as [Hle | Hgt]; simpl.
    + rewrite IH. unfold counted_in_range. lia.
    + rewrite IH. lia.
Qed.

(** X22: contiguous ranges count every project once.  When the ranges
    of the tier table follow one another without gap or overlap from 1
    on ([1..To1], [To1+1..To2], ..., as the default table does up to
    9999), the "Projects counted" column of the breakdown adds up to
    the number of on-time projects, capped at the last "To #". *)
Theorem part_a_counts_each_project (ontime_projects : Z)
    (tiers : list PM.TierRow) :
  (0 <= ontime_projects)%Z -> chain 1 tiers ->
  counted_sum (snd (PM.part_a ontime_projects tiers))
  = Z.min ontime_projects (chain_end 1 tiers)
  /\ chain 1 PM.tiers_default
  /\ chain_end 1 PM.tiers_default = 9999%Z.
Proof.
  intros Hn Hchain. split; [| split; [simpl; lia | reflexivity]].
  unfold PM.part_a. rewrite part_a_fold_rows. simpl app.
  rewrite (chain_sorted 1 tiers Hchain), (chain_counted _ 1 tiers Hchain).
  assert (Hend := chain_end_ge _ _ Hchain). lia.
Qed.

Lemma part_a_counts_each_project_witness :
  counted_sum (snd (PM.part_a 8 PM.tiers_default)) = Z.min 8 9999.
Proof.
  destruct (part_a_counts_each_project 8 PM.tiers_default) as (H & _).
  - lia.
  - simpl. lia.
  - exact H.
Defined.

(* ================================================================= *)
(** * KPI bonus of the Project Manager *)

Lemma clamp_0_100_id (x : Q) : 0 <= x -> x <= 100 -> PM.clamp_0_100 x == x.
Proof.
  intros H0 H1. unfold PM.clamp_0_100.
  rewrite (Q.min_r 100 x) by exact H1. apply Q.max_r. exact H0.
Qed.

Lemma clamp_0_100_low (x : Q) : x <= 0 -> PM.clamp_0_100 x == 0.
Proof.
  intros H. unfold PM.clamp_0_100. apply Q.max_l.
  eapply Qle_trans; [apply Q.le_min_r | exact H].
Qed.

Lemma clamp_0_100_high (x : Q) : 100 <= x -> PM.clamp_0_100 x == 100.
Proof.
  intros H. unfold PM.clamp_0_100.
  rewrite (Q.min_l 100 x) by exact H. apply Q.max_r. lra.
Qed.

Lemma clamp_0_100_mono (x y : Q) :
  x <= y -> PM.clamp_0_100 x <= PM.clamp_0_100 y.
Proof.
  intros H. unfold PM.clamp_0_100.
  apply Q.max_le_compat_l, Q.min_le_compat_l, H.
Qed.

Lemma bonus_months_comp (k k' : Q) :
  k == k' -> PM.bonus_months k == PM.bonus_months k'.
Proof.
  intros E. apply Qle_antisym; apply pm_bonus_months_mono; lra.
Qed.

Lemma bonus_months_low (k : Q) : k < 0.5 -> PM.bonus_months k == 1.
Proof.
  intros H. unfold PM.bonus_months. cbv zeta.
  apply Qlt_bool_true in H. rewrite H. reflexivity.
Qed.

Lemma pm_kpi_score_range (i : PM.Inputs) : 0 <= PM.kpi_score i <= 1.
Proof.
  unfold PM.kpi_score. destruct (pm_KPI_total_range i). qlra.
Qed.

Lemma pm_quality_closed (i : PM.Inputs) :
  PM.quality_score i
  == 100 - points (PM.otdr_fail i) 50
     - points (negb (PM.no_major_defect_60 i)) 50.
Proof.
  unfold PM.quality_score, points.
  destruct (PM.otdr_fail i), (PM.no_major_defect_60 i); reflexivity.
Qed.

Lemma flags_mean_points (b c : bool) :
  ((if b then 100.0 else 0.0) + (if c then 100.0 else 0.0)) / 2.0
  == points b 50 + points c 50.
Proof. destruct b, c; reflexivity. Qed.

(** X23: bounds of the KPI bonus of the Project Manager.  For a basic
    salary [>= 0] the KPI fraction lies in [0, 1] and the Part B bonus
    between 0 and 6 monthly salaries; below a KPI of 50% it is one
    monthly salary times the KPI fraction; with every milestone on
    schedule, no delay, no OTDR failure and every box ticked the KPI is
    100 and the bonus is exactly 6 monthly salaries. *)
Theorem pm_part_b_bounds (i : PM.Inputs) :
  0 <= PM.basic_salary i ->
  0 <= PM.kpi_score i <= 1
  /\ 0 <= PM.part_b_bonus i <= 6 * PM.basic_salary i
  /\ (PM.kpi_score i < 0.5 ->
      PM.part_b_bonus i == PM.basic_salary i * PM.kpi_score i)
  /\ (100 <= PM.milestone_on_schedule_pct i -> PM.delay_days i <= 0 ->
      PM.otdr_fail i = false -> PM.no_major_defect_60 i = true ->
      PM.activation_no_dispute i = true -> PM.no_sla_penalty_60 i = true ->
      PM.no_authority_penalty i = true -> PM.no_safety_incident i = true ->
      PM.weekly_reporting i = true -> PM.accurate_tracking i = true ->
      PM.KPI_total i == 100
      /\ PM.bonus_months (PM.kpi_score i) == 6
      /\ PM.part_b_bonus i == 6 * PM.basic_salary i).
Proof.
  intros Hs.
  assert (Hk := pm_kpi_score_range i).
  assert (Hm := pm_bonus_months_range (PM.kpi_score i)).
  split; [exact Hk |]. split; [| split].
  - unfold PM.part_b_bonus. revert Hk Hm.
    generalize (PM.bonus_months (PM.kpi_score i)).
    generalize (PM.kpi_score i). generalize (PM.basic_salary i) Hs.
    intros s Hs' k m [Hk0 Hk1] [Hm1 Hm6].
    assert (0 <= s * m) by nra. assert (s * m <= 6 * s) by nra.
    split; nra.
  - intros Hlow. unfold PM.part_b_bonus.
    rewrite (bonus_months_low _ Hlow). ring.
  - intros Hms Hd Ho Hdef Ha Hsla Hau Hsa Hw Hacc.
    assert (HK : PM.KPI_total i == 100).
    { unfold PM.KPI_total, PM.ontime_header_score, PM.milestone_score,
        PM.timeline_score, PM.cust_score, PM.comp_score, PM.internal_score.
      rewrite pm_quality_closed, !flags_mean_points.
      rewrite Ho, Hdef, Ha, Hsla, Hau, Hsa, Hw, Hacc.
      rewrite (clamp_0_100_high (PM.milestone_on_schedule_pct i) Hms).
      rewrite (clamp_0_100_high (100.0 - 5.0 * PM.delay_days i)) by lra.
      reflexivity. }
    assert (Hk1 : PM.kpi_score i == 1)
      by (unfold PM.kpi_score; rewrite HK; reflexivity).
    assert (Hmo : PM.bonus_months (PM.kpi_score i) == 6)
      by (rewrite (bonus_months_comp _ 1 Hk1); reflexivity).
    split; [exact HK |]. split; [exact Hmo |].
    unfold PM.part_b_bonus. rewrite Hmo, Hk1. ring.
Qed.

Lemma pm_part_b_bounds_witness :
  PM.part_b_bonus (PM.mkInputs 8000 100 0 false true true true true true
                     true true)
  == 6 * 8000.
Proof.
  destruct (pm_part_b_bounds
    (PM.mkInputs 8000 100 0 false true true true true true true true))
    as (_ & _ & _ & H).
  - simpl. lra.
  - apply H; simpl; try reflexivity; lra.
Defined.

(** X24: the KPI points of the Project Manager.  The KPI total is 0.2
    points per point of each of the milestone score and the timeline
    score, plus 10 for no OTDR failure, 10 for no major defect, 7.5
    for each of the four acceptance and compliance boxes and 5 for
    each of the two reporting boxes; the quality score needs no
    clamping; the timeline score is 100 without delay, loses 5 per day
    of delay and is 0 from 20 days on; and the KPI total does not fall
    when the milestone percentage rises or the delay shrinks. *)
Theorem pm_kpi_points :
  (forall i,
     PM.KPI_total i
     == 0.2 * PM.milestone_score i + 0.2 * PM.timeline_score i
        + points (negb (PM.otdr_fail i)) 10
        + points (PM.no_major_defect_60 i) 10
        + points (PM.activation_no_dispute i) 7.5
        + points (PM.no_sla_penalty_60 i) 7.5
        + points (PM.no_authority_penalty i) 7.5
        + points (PM.no_safety_incident i) 7.5
        + points (PM.weekly_reporting i) 5
        + points (PM.accurate_tracking i) 5)
  /\ (forall i,
        PM.quality_score i
        == 100 - points (PM.otdr_fail i) 50
           - points (negb (PM.no_major_defect_60 i)) 50)
  /\ (forall i, PM.delay_days i <= 0 -> PM.timeline_score i == 100)
  /\ (forall i, 0 <= PM.delay_days i -> PM.delay_days i <= 20 ->
        PM.timeline_score i == 100 - 5 * PM.delay_days i)
  /\ (forall i, 20 <= PM.delay_days i -> PM.timeline_score i == 0)
  /\ (forall s m m' d d' o n a p u f w t,
        m <= m' -> d' <= d ->
        PM.KPI_total (PM.mkInputs s m d o n a p u f w t)
        <= PM.KPI_total (PM.mkInputs s m' d' o n a p u f w t)).
Proof.
  assert (Hpoints : forall i,
     PM.KPI_total i
     == 0.2 * PM.milestone_score i + 0.2 * PM.timeline_score i
        + points (negb (PM.otdr_fail i)) 10
        + points (PM.no_major_defect_60 i) 10
        + points (PM.activation_no_dispute i) 7.5
        + points (PM.no_sla_penalty_60 i) 7.5
        + points (PM.no_authority_penalty i) 7.5
        + points (PM.no_safety_incident i) 7.5
        + points (PM.weekly_reporting i) 5
        + points (PM.accurate_tracking i) 5).
  { intros i. unfold PM.KPI_total, PM.ontime_header_score, PM.cust_score,
      PM.comp_score, PM.internal_score.
    rewrite pm_quality_closed, !flags_mean_points. unfold points.
    destruct (PM.otdr_fail i), (PM.no_major_defect_60 i),
      (PM.activation_no_dispute i), (PM.no_sla_penalty_60 i),
      (PM.no_authority_penalty i), (PM.no_safety_incident i),
      (PM.weekly_reporting i), (PM.accurate_tracking i); simpl negb;
      qconst; ring. }
  split; [exact Hpoints |]. split; [exact pm_quality_closed |].
  split; [| split; [| split]].
  - intros i H. unfold PM.timeline_score. apply clamp_0_100_high. lra.
  - intros i H0 H1. unfold PM.timeline_score.
    rewrite clamp_0_100_id by lra. ring.
  - intros i H. unfold PM.timeline_score. apply clamp_0_100_low. lra.
  - intros s m m' d d' o n a p u f w t Hm Hd.
    rewrite !Hpoints. cbn [PM.otdr_fail PM.no_major_defect_60
      PM.activation_no_dispute PM.no_sla_penalty_60 PM.no_authority_penalty
      PM.no_safety_incident PM.weekly_reporting PM.accurate_tracking].
    assert (H1 : PM.milestone_score (PM.mkInputs s m d o n a p u f w t)
                 <= PM.milestone_score (PM.mkInputs s m' d' o n a p u f w t))
      by (unfold PM.milestone_score; cbn; apply clamp_0_100_mono, Hm).
    assert (H2 : PM.timeline_score (PM.mkInputs s m d o n a p u f w t)
                 <= PM.timeline_score (PM.mkInputs s m' d' o n a p u f w t))
      by (unfold PM.timeline_score; cbn; apply clamp_0_100_mono; lra).
    lra.
Qed.

Lemma pm_kpi_points_witness :
  PM.timeline_score (PM.mkInputs 8000 90 4 false true true true true true
                       true true)
  == 100 - 5 * 4.
Proof.
  destruct pm_kpi_points as (_ & _ & _ & H & _).
  apply (H (PM.mkInputs 8000 90 4 false true true true true true true true));
    simpl; lra.
Defined.

(* ================================================================= *)
(** * KPI bonus of the Delivery Team *)

Lemma dt_clamp_pm (x : Q) : DT.clamp_0_100 x = PM.clamp_0_100 x.
Proof. reflexivity. Qed.

Lemma dt_kpi_score_range (i : DT.Inputs) : 0 <= DT.kpi_score i <= 1.
Proof.
  unfold DT.kpi_score. destruct (dt_KPI_total_range i). qlra.
Qed.

Lemma dt_quality_closed (i : DT.Inputs) :
  DT.quality_score i
  == 100 - points (DT.otdr_fail i) 40 - points (DT.rework_due_to_team i) 40
     - points (negb (DT.no_major_defect_60 i)) 20.
Proof.
  unfold DT.quality_score, points.
  destruct (DT.otdr_fail i), (DT.rework_due_to_team i),
    (DT.no_major_defect_60 i); reflexivity.
Qed.

Lemma dt_variance_cases (i : DT.Inputs) :
  (DT.cost_variance_pct i <= 0 -> DT.variance_score i == 100)
  /\ (0 <= DT.cost_variance_pct i -> DT.cost_variance_pct i <= 10 ->
      DT.variance_score i == 100 - 10 * DT.cost_variance_pct i)
  /\ (10 <= DT.cost_variance_pct i -> DT.variance_score i == 0).
Proof.
  unfold DT.variance_score.
  destruct (Qle_bool (DT.cost_variance_pct i) 0) eqn:E;
    [apply Qle_bool_iff in E | apply Qle_bool_false in E];
    rewrite ?dt_clamp_pm.
  - split; [reflexivity |]. split; intros; [| exfalso; lra].
    assert (E0 : DT.cost_variance_pct i == 0) by lra. rewrite E0. reflexivity.
  - split; [intros; exfalso; lra |]. split.
    + intros H0 H1. rewrite clamp_0_100_id by lra. ring.
    + intros H. apply clamp_0_100_low. lra.
Qed.

Lemma dt_points (i : DT.Inputs) :
  DT.KPI_total i
  == (0.35 / 3) * (DT.milestone_score i + DT.delay_score i)
     + points (DT.no_missed_critical i) (35 / 3)
     + (0.25 / 3) * DT.variance_score i
     + points (DT.material_wastage_ok i) (25 / 3)
     + points (DT.vo_approved_only i) (25 / 3)
     + 20 - points (DT.otdr_fail i) 8 - points (DT.rework_due_to_team i) 8
     - points (negb (DT.no_major_defect_60 i)) 4
     + points (DT.no_safety_incident i) 7.5
     + points (DT.no_authority_penalty i) 7.5
     + points (DT.weekly_reporting i) 2.5
     + points (DT.accurate_tracking i) 2.5.
Proof.
  unfold DT.KPI_total, DT.ontime_score, DT.budget_score, DT.critical_score,
    DT.wastage_score, DT.vo_score, DT.safety_score, DT.reporting_score.
  rewrite dt_quality_closed, !flags_mean_points. unfold points.
  destruct (DT.no_missed_critical i), (DT.material_wastage_ok i),
    (DT.vo_approved_only i), (DT.otdr_fail i), (DT.rework_due_to_team i),
    (DT.no_major_defect_60 i), (DT.no_safety_incident i),
    (DT.no_authority_penalty i), (DT.weekly_reporting i),
    (DT.accurate_tracking i); simpl negb; qconst; ring.
Qed.

(** X25: bounds of the Delivery Team bonus.  For a basic salary
    [>= 0] the KPI fraction lies in [0, 1] and the bonus between 0 and
    6 monthly salaries; below a KPI of 50% it is one monthly salary
    times the KPI fraction; with all milestones on schedule, no delay,
    no cost overrun, no OTDR failure, no rework and every box ticked
    the KPI is 100 and the bonus is exactly 6 monthly salaries. *)
Theorem dt_bonus_bounds (i : DT.Inputs) :
  0 <= DT.basic_salary i ->
  0 <= DT.kpi_score i <= 1
  /\ 0 <= DT.delivery_bonus i <= 6 * DT.basic_salary i
  /\ (DT.kpi_score i < 0.5 ->
      DT.delivery_bonus i == DT.basic_salary i * DT.kpi_score i)
  /\ (100 <= DT.milestone_on_schedule_pct i -> DT.delay_days i <= 0 ->
      DT.no_missed_critical i = true -> DT.cost_variance_pct i <= 0 ->
      DT.material_wastage_ok i = true -> DT.vo_approved_only i = true ->
      DT.otdr_fail i = false -> DT.no_major_defect_60 i = true ->
      DT.rework_due_to_team i = false ->
      DT.no_safety_incident i = true -> DT.no_authority_penalty i = true ->
      DT.weekly_reporting i = true -> DT.accurate_tracking i = true ->
      DT.KPI_total i == 100
      /\ DT.bonus_months (DT.kpi_score i) == 6
      /\ DT.delivery_bonus i == 6 * DT.basic_salary i).
Proof.
  intros Hs.
  assert (Hk := dt_kpi_score_range i).
  assert (Hm := pm_bonus_months_range (DT.kpi_score i)).
  rewrite <- dt_bonus_months_pm in Hm.
  split; [exact Hk |]. split; [| split].
  - unfold DT.delivery_bonus. revert Hk Hm.
    generalize (DT.bonus_months (DT.kpi_score i)).
    generalize (DT.kpi_score i). generalize (DT.basic_salary i) Hs.
    intros s Hs' k m [Hk0 Hk1] [Hm1 Hm6].
    assert (0 <= s * m) by nra. assert (s * m <= 6 * s) by nra.
    split; nra.
  - intros Hlow. unfold DT.delivery_bonus.
    rewrite dt_bonus_months_pm, (bonus_months_low _ Hlow). ring.
  - intros Hms Hd Hc Hv Hw Hvo Ho Hdef Hre Hsa Hau Hwe Hacc.
    assert (HK : DT.KPI_total i == 100).
    { rewrite dt_points. unfold DT.milestone_score, DT.delay_score.
      rewrite (proj1 (dt_variance_cases i) Hv).
      rewrite Hc, Hw, Hvo, Ho, Hdef, Hre, Hsa, Hau, Hwe, Hacc.
      rewrite !dt_clamp_pm.
      rewrite (clamp_0_100_high (DT.milestone_on_schedule_pct i) Hms).
      rewrite (clamp_0_100_high (100.0 - 5.0 * DT.delay_days i)) by lra.
      reflexivity. }
    assert (Hk1 : DT.kpi_score i == 1)
      by (unfold DT.kpi_score; rewrite HK; reflexivity).
    assert (Hmo : DT.bonus_months (DT.kpi_score i) == 6)
      by (rewrite dt_bonus_months_pm, (bonus_months_comp _ 1 Hk1);
          reflexivity).
    split; [exact HK |]. split; [exact Hmo |].
    unfold DT.delivery_bonus. rewrite Hmo, Hk1. ring.
Qed.

Lemma dt_bonus_bounds_witness :
  DT.delivery_bonus (DT.mkInputs 3500 100 0 true 0 true true false true false
                       true true true true)
  == 6 * 3500.
Proof.
  destruct (dt_bonus_bounds
    (DT.mkInputs 3500 100 0 true 0 true true false true false
       true true true true)) as (_ & _ & _ & H).
  - simpl. lra.
  - apply H; simpl; try reflexivity; lra.
Defined.

(** X26: the KPI points of the Delivery Team.  The KPI total gives
    0.35/3 points per point of the milestone score and of the delay
    score and 35/3 for no missed critical milestone; 0.25/3 per point
    of the cost variance score and 25/3 for each of the two budget
    boxes; 20 for quality, less 8 for an OTDR failure, 8 for rework
    and 4 for a major defect, the quality score needing no clamping;
    7.5 for each safety box and 2.5 for each reporting box.  The cost
    variance score is 100 up to a variance of 0, loses 10 per percent
    over budget and is 0 from 10% on. *)
Theorem dt_kpi_points :
  (forall i,
     DT.KPI_total i
     == (0.35 / 3) * (DT.milestone_score i + DT.delay_score i)
        + points (DT.no_missed_critical i) (35 / 3)
        + (0.25 / 3) * DT.variance_score i
        + points (DT.material_wastage_ok i) (25 / 3)
        + points (DT.vo_approved_only i) (25 / 3)
        + 20 - points (DT.otdr_fail i) 8 - points (DT.rework_due_to_team i) 8
        - points (negb (DT.no_major_defect_60 i)) 4
        + points (DT.no_safety_incident i) 7.5
        + points (DT.no_authority_penalty i) 7.5
        + points (DT.weekly_reporting i) 2.5
        + points (DT.accurate_tracking i) 2.5)
  /\ (forall i,
        DT.quality_score i
        == 100 - points (DT.otdr_fail i) 40
           - points (DT.rework_due_to_team i) 40
           - points (negb (DT.no_major_defect_60 i)) 20)
  /\ (forall i, DT.cost_variance_pct i <= 0 -> DT.variance_score i == 100)
  /\ (forall i, 0 <= DT.cost_variance_pct i -> DT.cost_variance_pct i <= 10 ->
        DT.variance_score i == 100 - 10 * DT.cost_variance_pct i)
  /\ (forall i, 10 <= DT.cost_variance_pct i -> DT.variance_score i == 0).
Proof.
  split; [exact dt_points |]. split; [exact dt_quality_closed |].
  split; [| split]; intros i; apply (dt_variance_cases i).
Qed.

Lemma dt_kpi_points_witness :
  DT.variance_score (DT.mkInputs 3500 90 0 true 4 true true false true false
                       true true true true)
  == 100 - 10 * 4.
Proof.
  destruct dt_kpi_points as (_ & _ & _ & H & _).
  apply (H (DT.mkInputs 3500 90 0 true 4 true true false true false
              true true true true)); simpl; lra.
Defined.

(* ================================================================= *)
(** * Rounding of the bonus months, and payout against KPI *)

Lemma bonus_months_raw (k : Q) : PM.bonus_months k = Py.round (raw_months k) 2.
Proof. reflexivity. Qed.

Lemma raw_months_high (k : Q) : 1 <= k -> raw_months k == 6.
Proof.
  intros H. unfold raw_months.
  assert (E : Py.Qlt_bool k 0.5 = false) by (apply Qlt_bool_false; lra).
  rewrite E. rewrite Q.min_r by qlra. reflexivity.
Qed.

Lemma raw_months_mid (k : Q) :
  0.5 <= k -> k <= 1 -> raw_months k == 10 * k - 4.
Proof.
  intros H0 H1. unfold raw_months.
  assert (E : Py.Qlt_bool k 0.5 = false) by (apply Qlt_bool_false; lra).
  rewrite E. rewrite Q.min_l by qlra. qconst. ring.
Qed.

(** X27: the rounding of the bonus months.  In both branches the bonus
    months are a whole number of hundredths and differ from the
    unrounded curve by at most 0.005; they are exactly 1 below a KPI
    fraction of 0.5 and exactly 6 from a KPI fraction of 1 on; in
    between the unrounded curve is [10 * kpiFraction - 4]. *)
Theorem bonus_months_rounding :
  (forall k, exists z : Z, PM.bonus_months k == inject_Z z / 100)
  /\ (forall k, Qabs (PM.bonus_months k - raw_months k) <= 0.005)
  /\ (forall k, k < 0.5 -> PM.bonus_months k == 1)
  /\ (forall k, 1 <= k -> PM.bonus_months k == 6)
  /\ (forall k, 0.5 <= k -> k <= 1 ->
        Qabs (PM.bonus_months k - (10 * k - 4)) <= 0.005)
  /\ (forall k, DT.bonus_months k = PM.bonus_months k).
Proof.
  split; [| split; [| split; [| split; [| split]]]].
  - intros k. eexists. rewrite bonus_months_raw. unfold Py.round.
    change (inject_Z (10 ^ Z.of_nat 2)) with 100. reflexivity.
  - intros k. rewrite bonus_months_raw. apply round_2_error.
  - apply bonus_months_low.
  - intros k Hk.
    assert (H6 := pm_bonus_months_range k).
    assert (Hm := pm_bonus_months_mono 1 k Hk).
    assert (E : PM.bonus_months 1 == 6) by reflexivity.
    apply Qle_antisym; lra.
  - intros k H0 H1. assert (H := round_2_error (raw_months k)).
    rewrite <- bonus_months_raw in H.
    assert (E := raw_months_mid k H0 H1).
    apply Qabs_Qle_condition in H. apply Qabs_Qle_condition.
    split; lra.
  - exact dt_bonus_months_pm.
Qed.

Lemma bonus_months_rounding_witness :
  Qabs (PM.bonus_months 0.777 - (10 * 0.777 - 4)) <= 0.005.
Proof.
  destruct bonus_months_rounding as (_ & _ & _ & _ & H & _).
  apply H; lra.
Defined.

Lemma payout_mono (s k k' : Q) :
  0 <= s -> 0 <= k -> k <= k' ->
  s * PM.bonus_months k * k <= s * PM.bonus_months k' * k'.
Proof.
  intros Hs Hk Hkk.
  assert (Hm := pm_bonus_months_mono k k' Hkk).
  destruct (pm_bonus_months_range k) as [H1 _].
  revert Hm H1. generalize (PM.bonus_months k) (PM.bonus_months k').
  intros m m' Hm H1.
  assert (0 <= m * k) by nra.
  assert (m * k <= m' * k') by nra.
  assert (s * (m * k) <= s * (m' * k')) by nra.
  lra.
Qed.

(** X28: a better KPI never pays less.  For a basic salary [>= 0],
    inputs of the Project Manager (or of the Delivery Team) with a KPI
    total at least as high give a KPI bonus at least as high, and
    inputs with the same KPI total and salary give the same bonus. *)
Theorem kpi_bonus_monotone :
  (forall i i' : PM.Inputs,
     0 <= PM.basic_salary i -> PM.basic_salary i' == PM.basic_salary i ->
     PM.KPI_total i <= PM.KPI_total i' ->
     PM.part_b_bonus i <= PM.part_b_bonus i')
  /\ (forall i i' : DT.Inputs,
        0 <= DT.basic_salary i -> DT.basic_salary i' == DT.basic_salary i ->
        DT.KPI_total i <= DT.KPI_total i' ->
        DT.delivery_bonus i <= DT.delivery_bonus i').
Proof.
  split.
  - intros i i' Hs Es HK. unfold PM.part_b_bonus. rewrite Es.
    apply payout_mono; [exact Hs | apply pm_kpi_score_range |].
    unfold PM.kpi_score. qlra.
  - intros i i' Hs Es HK. unfold DT.delivery_bonus. rewrite Es.
    rewrite !dt_bonus_months_pm.
    apply payout_mono; [exact Hs | apply dt_kpi_score_range |].
    unfold DT.kpi_score. qlra.
Qed.

Lemma kpi_bonus_monotone_witness :
  PM.part_b_bonus (PM.mkInputs 8000 60 2 false true true false true true
                     true true)
  <= PM.part_b_bonus (PM.mkInputs 8000 90 0 false true true true true true
                        true true).
Proof.
  destruct kpi_bonus_monotone as (H & _).
  apply H; simpl; try lra. vm_compute. discriminate.
Defined.
